(** * Trial-balance reconstruction, consolidation and period comparison

    A shallow embedding of the accounting core of [server.js]:
    the handlers of [/api/trial-balance/:tenantId],
    [/api/consolidated-trial-balance], [/api/compare-periods/:tenantId] and
    [/api/find-unbalanced/:tenantId], together with the token storage
    ([getXeroToken], [getAllXeroConnections], [storeXeroToken]) and the
    refresh of the tokens ([refreshXeroToken], [refreshAllExpiringTokens]).

    Modelling conventions.
    - A JavaScript number is a value of [num]: a rational, one of the two
      infinities, or NaN.  A rational stands for the binary64 number of that
      value, and the operations that round in binary64 round here: the sum
      and the difference of two numbers, the reading of a decimal text and
      of a decimal literal are rounded to the nearest number with a
      significand of 53 bits, ties to even ([round53]).  Negation, the
      absolute value and the comparisons are exact, as they are in
      binary64.  The reading of a decimal text follows the range of
      binary64 as well ([round64]: a text as large as 1e400 is read as an
      infinity, a text as small as 1e-400 as 0).  A sum or a difference is
      not checked against the range: the sum of two numbers never
      overflows to an infinity.  NaN and the infinities are modelled.
    - A string is a [string] of 8-bit characters; [toLowerCase] maps the
      letters A-Z only, and [localeCompare] is a parameter of the handlers.
    - [undefined]/[null] fields are [option]s; a thrown exception is the
      [Throw] case of [result], carrying the error's message.
    - The external collaborators (token storage, the accounting API, the
      HTTP client and the clock) are fields of an environment record. *)

From Stdlib Require Import List String Ascii Bool Arith ZArith QArith Qabs.
From Stdlib Require Import Qround Qpower Qreduction.
From Stdlib Require Import Lia Lqa Permutation Sorted DecimalString.
Import ListNotations.

Local Open Scope string_scope.
Local Open Scope Q_scope.
Local Open Scope list_scope.

(** ** JavaScript numbers *)

Module JsNum.

Inductive num : Type :=
| Fin (q : Q)
| PInf
| NInf
| NaN.

Definition zero : num := Fin 0.

(** *** Rounding to binary64

    The nearest integer, ties to even. *)
Definition rne (x : Q) : Z :=
  let f := Qfloor x in
  match Qcompare (x - inject_Z f) (1 # 2) with
  | Lt => f
  | Eq => if Z.even f then f else (f + 1)%Z
  | Gt => (f + 1)%Z
  end.

(** The binary logarithm of a positive rational, rounded down. *)
Definition lg (q : Q) : Z :=
  let k := (Z.log2 (Qnum q) - Z.log2 (Zpos (Qden q)))%Z in
  if Qle_bool (2 ^ k) q then k else (k - 1)%Z.

(** A positive rational rounded to a significand of 53 bits: the
    significand is the nearest integer to [q / 2 ^ e], where [e] is such
    that [2 ^ 52 <= q / 2 ^ e < 2 ^ 53]. *)
Definition roundPos (q : Q) : Q :=
  let e := (lg q - 52)%Z in
  inject_Z (rne (q / 2 ^ e)) * 2 ^ e.

(** The binary64 number nearest to a rational, in lowest terms. *)
Definition round53 (q : Q) : Q :=
  match Qcompare q 0 with
  | Eq => 0
  | Gt => Qred (roundPos q)
  | Lt => Qred (- roundPos (- q))
  end.
Arguments round53 : simpl never.

(** The rationals that are binary64 numbers. *)
Definition representable (q : Q) : Prop := round53 q == q.

(** A decimal literal of the source. *)
Definition literal (q : Q) : num := Fin (round53 q).

(** The number a decimal text is read as.  Here the range of binary64
    counts: a number below [2 ^ -1022] in magnitude is rounded to a
    multiple of [2 ^ -1074], and a number whose rounding reaches
    [2 ^ 1024] in magnitude is read as an infinity. *)
Definition round64 (q : Q) : num :=
  if Qle_bool (2 ^ (-1022)) (Qabs q) then
    let r := round53 q in
    if Qle_bool (2 ^ 1024) (Qabs r) then (if Qle_bool 0 q then PInf else NInf)
    else Fin r
  else Fin (Qred (inject_Z (rne (q / 2 ^ (-1074))) * 2 ^ (-1074))).

(** [a + b] *)
Definition add (a b : num) : num :=
  match a, b with
  | NaN, _ | _, NaN => NaN
  | Fin x, Fin y => Fin (round53 (x + y))
  | PInf, NInf | NInf, PInf => NaN
  | PInf, _ | _, PInf => PInf
  | NInf, _ | _, NInf => NInf
  end.

(** unary minus *)
Definition neg (a : num) : num :=
  match a with
  | Fin x => Fin (- x)
  | PInf => NInf
  | NInf => PInf
  | NaN => NaN
  end.

(** [a - b] *)
Definition sub (a b : num) : num := add a (neg b).

(** [Math.abs(a)] *)
Definition abs (a : num) : num :=
  match a with
  | Fin x => Fin (Qabs x)
  | PInf | NInf => PInf
  | NaN => NaN
  end.

Definition Qltb (x y : Q) : bool :=
  match x ?= y with Lt => true | _ => false end.

(** [a < b]; false as soon as one side is NaN *)
Definition ltb (a b : num) : bool :=
  match a, b with
  | NaN, _ | _, NaN => false
  | Fin x, Fin y => Qltb x y
  | NInf, Fin _ | NInf, PInf | Fin _, PInf => true
  | _, _ => false
  end.

(** [a === b] on numbers; NaN is not equal to itself *)
Definition eqb (a b : num) : bool :=
  match a, b with
  | Fin x, Fin y => Qeq_bool x y
  | PInf, PInf | NInf, NInf => true
  | _, _ => false
  end.

(** [a > b] and [a >= b] *)
Definition gtb (a b : num) : bool := ltb b a.
Definition geb (a b : num) : bool := ltb b a || eqb a b.

(** The same numeric value (rationals up to [Qeq]). *)
Definition same (a b : num) : Prop :=
  match a, b with
  | Fin x, Fin y => x == y
  | PInf, PInf | NInf, NInf | NaN, NaN => True
  | _, _ => False
  end.

Definition isNaN (a : num) : bool :=
  match a with NaN => true | _ => false end.

(** A number of the program: its rational, if it has one, is a binary64
    number in lowest terms, as every number read from a text and every sum
    and difference is. *)
Definition canonical (a : num) : Prop :=
  match a with
  | Fin x => round53 x = x
  | _ => True
  end.

End JsNum.
Import JsNum.

(** ** JavaScript strings *)

Module JsString.

Definition lowerChar (c : ascii) : ascii :=
  let n := nat_of_ascii c in
  if (65 <=? n)%nat && (n <=? 90)%nat then ascii_of_nat (n + 32) else c.

(** [s.toLowerCase()] *)
Fixpoint toLowerCase (s : string) : string :=
  match s with
  | EmptyString => EmptyString
  | String c r => String (lowerChar c) (toLowerCase r)
  end.

(** [s.includes(pat)] *)
Fixpoint includes (s pat : string) : bool :=
  String.prefix pat s ||
  match s with
  | EmptyString => false
  | String _ r => includes r pat
  end.

Definition isSpace (c : ascii) : bool :=
  let n := nat_of_ascii c in
  ((9 <=? n)%nat && (n <=? 13)%nat) || (n =? 32)%nat.

Fixpoint trimStart (s : string) : string :=
  match s with
  | String c r => if isSpace c then trimStart r else s
  | EmptyString => s
  end.

Definition digitOf (c : ascii) : option Z :=
  let n := nat_of_ascii c in
  if (48 <=? n)%nat && (n <=? 57)%nat then Some (Z.of_nat (n - 48)) else None.

(** Reads the longest run of decimal digits: its value, its length and the
    rest of the string. *)
Fixpoint digits (acc : Z) (len : nat) (s : string) : Z * nat * string :=
  match s with
  | String c r =>
      match digitOf c with
      | Some d => digits (10 * acc + d)%Z (S len) r
      | None => (acc, len, s)
      end
  | EmptyString => (acc, len, s)
  end.

(** An optional sign: [true] for a minus. *)
Definition signOf (s : string) : bool * string :=
  match s with
  | String "-" r => (true, r)
  | String "+" r => (false, r)
  | _ => (false, s)
  end.

(** The exponent part, [e] or [E], an optional sign and at least one digit;
    0 when the text does not continue with a complete exponent. *)
Definition exponentOf (s : string) : Z :=
  match s with
  | String c r =>
      if (Ascii.eqb c "e" || Ascii.eqb c "E")%bool then
        let '(sg, r1) := signOf r in
        let '(v, len, _) := digits 0 0 r1 in
        match len with
        | O => 0%Z
        | S _ => if sg then (- v)%Z else v
        end
      else 0%Z
  | EmptyString => 0%Z
  end.

Definition scale10 (q : Q) (e : Z) : Q :=
  match e with
  | Z0 => q
  | Zpos p => q * inject_Z (10 ^ Zpos p)
  | Zneg p => q / inject_Z (10 ^ Zpos p)
  end.

(** [parseFloat(s)] for a string argument: leading white space is dropped,
    then the longest prefix that is a decimal literal is read and rounded;
    NaN when there is none. *)
Definition parseFloat (s : string) : num :=
  let '(sg, t) := signOf (trimStart s) in
  if String.prefix "Infinity" t then (if sg then NInf else PInf)
  else
    let '(ip, ilen, t1) := digits 0 0 t in
    let '(fp, flen, t2) :=
      match t1 with
      | String "." r =>
          let '(f, fl, r') := digits 0 0 r in
          match ilen, fl with
          | O, O => (0%Z, O, t1)
          | _, _ => (f, fl, r')
          end
      | _ => (0%Z, O, t1)
      end in
    match ilen, flen with
    | O, O => NaN
    | _, _ =>
        let mant := inject_Z ip + inject_Z fp / inject_Z (10 ^ Z.of_nat flen) in
        let v := scale10 mant (exponentOf t2) in
        round64 (if sg then - v else v)
    end.

End JsString.
Import JsString.

(** ** Exceptions *)

Inductive result (A : Type) : Type :=
| Return (a : A)
| Throw (message : string).
Arguments Return {A} a.
Arguments Throw {A} message.

Definition bind {A B : Type} (m : result A) (k : A -> result B) : result B :=
  match m with
  | Return a => k a
  | Throw e => Throw e
  end.

(** [try { m } catch (e) { h e }] *)
Definition tryCatch {A : Type} (m : result A) (h : string -> result A) : result A :=
  match m with
  | Return a => Return a
  | Throw e => h e
  end.

Notation "x <- m ;; k" := (bind m (fun x => k))
  (at level 61, m at next level, right associativity).

(** [x || d] for an optional string: [undefined], [null] and the empty
    string are falsy. *)
Definition truthy (v : option string) : option string :=
  match v with
  | Some EmptyString => None
  | _ => v
  end.

(** ** Sorting with a comparator

    [Array.prototype.sort(cmp)]: stable; the comparator's result is a
    number, and [a] stays before [b] unless [cmp a b > 0] (a NaN result
    counts as 0). *)

Section Sort.
Context {A : Type}.
Variable cmp : A -> A -> num.

Fixpoint insertSorted (x : A) (l : list A) : list A :=
    match l with
    | [] => [x]
    | y :: r => if gtb (cmp x y) zero then y :: insertSorted x r else x :: l
    end.

Definition sortBy (l : list A) : list A := fold_right insertSorted [] l.

End Sort.

(** ** The data model

    The records are shared by the handler that builds a trial balance,
    where the amounts are numbers ([num]), and by the handlers that read
    it back from JSON, where they are JSON numbers ([jnum]). *)

(** One account of the trial balance ([accountInfo]). *)
Record AccountInfo (N : Type) : Type := mkAccount {
  name : string;
  balance : N;
  debit : N;
  credit : N;
  section : string
}.
Arguments mkAccount {N}.
Arguments name {N}.
Arguments balance {N}.
Arguments debit {N}.
Arguments credit {N}.
Arguments section {N}.

Record Totals (N : Type) : Type := mkTotals {
  totalDebits : N;
  totalCredits : N;
  totalAssets : N;
  totalLiabilities : N;
  totalEquity : N;
  totalRevenue : N;
  totalExpenses : N
}.
Arguments mkTotals {N}.
Arguments totalDebits {N}.
Arguments totalCredits {N}.
Arguments totalAssets {N}.
Arguments totalLiabilities {N}.
Arguments totalEquity {N}.
Arguments totalRevenue {N}.
Arguments totalExpenses {N}.

Record TrialBalance (N : Type) : Type := mkTrialBalance {
  assets : list (AccountInfo N);
  liabilities : list (AccountInfo N);
  equity : list (AccountInfo N);
  revenue : list (AccountInfo N);
  expenses : list (AccountInfo N);
  totals : Totals N
}.
Arguments mkTrialBalance {N}.
Arguments assets {N}.
Arguments liabilities {N}.
Arguments equity {N}.
Arguments revenue {N}.
Arguments expenses {N}.
Arguments totals {N}.

Record AccountingEquation (N : Type) : Type := mkEquation {
  eq_assets : N;
  eq_liabilitiesAndEquity : N;
  balanced : bool
}.
Arguments mkEquation {N}.
Arguments eq_assets {N}.
Arguments eq_liabilitiesAndEquity {N}.
Arguments balanced {N}.

Record BalanceCheck (N : Type) : Type := mkBalanceCheck {
  debitsEqualCredits : bool;
  difference : N;
  accountingEquation : AccountingEquation N
}.
Arguments mkBalanceCheck {N}.
Arguments debitsEqualCredits {N}.
Arguments difference {N}.
Arguments accountingEquation {N}.

(** The report of the accounting API: sections of rows of cells. *)
Inductive RowType : Type := RT_Header | RT_Section | RT_Row | RT_SummaryRow.

Definition isSection (t : RowType) : bool :=
  match t with RT_Section => true | _ => false end.
Definition isRow (t : RowType) : bool :=
  match t with RT_Row => true | _ => false end.

Record ReportCell : Type := mkCell { value : option string }.

Record ReportRow : Type := mkRow {
  rowType : RowType;
  cells : option (list ReportCell)
}.

Record ReportSection : Type := mkSection {
  sectionType : RowType;
  title : option string;
  rows : option (list ReportRow)
}.

Record Report : Type := mkReport { reportRows : option (list ReportSection) }.

Record ReportBody : Type := mkBody { reports : option (list Report) }.

(** [body.reports?.[0]?.rows || []] *)
Definition firstReportRows (b : ReportBody) : list ReportSection :=
  match reports b with
  | Some (r :: _) =>
      match reportRows r with
      | Some rs => rs
      | None => []
      end
  | _ => []
  end.

(** The five classes an account can fall in. *)
Inductive Category : Type := ASSET | LIABILITY | EQUITY | REVENUE | EXPENSE.

(** ** The trial-balance handler, [/api/trial-balance/:tenantId] *)

Definition emptyTotals : Totals num := mkTotals zero zero zero zero zero zero zero.

Definition emptyTrialBalance : TrialBalance num :=
  mkTrialBalance [] [] [] [] [] emptyTotals.

(** The mutable state of the two row loops. *)
Record LoopState : Type := mkLoop {
  trialBalance : TrialBalance num;
  processedAccounts : nat
}.

Definition setTotals (t : TrialBalance num) (T : Totals num) : TrialBalance num :=
  mkTrialBalance (assets t) (liabilities t) (equity t) (revenue t) (expenses t) T.

(** [trialBalance.<category>.push(info); totals.total<Category> += amount] *)
Definition pushAccount (c : Category) (info : AccountInfo num) (amount : num)
    (t : TrialBalance num) : TrialBalance num :=
  let T := totals t in
  match c with
  | ASSET =>
      mkTrialBalance (assets t ++ [info]) (liabilities t) (equity t)
        (revenue t) (expenses t)
        (mkTotals (totalDebits T) (totalCredits T) (add (totalAssets T) amount)
           (totalLiabilities T) (totalEquity T) (totalRevenue T) (totalExpenses T))
  | LIABILITY =>
      mkTrialBalance (assets t) (liabilities t ++ [info]) (equity t)
        (revenue t) (expenses t)
        (mkTotals (totalDebits T) (totalCredits T) (totalAssets T)
           (add (totalLiabilities T) amount) (totalEquity T) (totalRevenue T)
           (totalExpenses T))
  | EQUITY =>
      mkTrialBalance (assets t) (liabilities t) (equity t ++ [info])
        (revenue t) (expenses t)
        (mkTotals (totalDebits T) (totalCredits T) (totalAssets T)
           (totalLiabilities T) (add (totalEquity T) amount) (totalRevenue T)
           (totalExpenses T))
  | REVENUE =>
      mkTrialBalance (assets t) (liabilities t) (equity t)
        (revenue t ++ [info]) (expenses t)
        (mkTotals (totalDebits T) (totalCredits T) (totalAssets T)
           (totalLiabilities T) (totalEquity T) (add (totalRevenue T) amount)
           (totalExpenses T))
  | EXPENSE =>
      mkTrialBalance (assets t) (liabilities t) (equity t)
        (revenue t) (expenses t ++ [info])
        (mkTotals (totalDebits T) (totalCredits T) (totalAssets T)
           (totalLiabilities T) (totalEquity T) (totalRevenue T)
           (add (totalExpenses T) amount))
  end.

(** [totals.totalDebits += info.debit; totals.totalCredits += info.credit] *)
Definition addDebitCredit (info : AccountInfo num) (t : TrialBalance num) : TrialBalance num :=
  let T := totals t in
  setTotals t
    (mkTotals (add (totalDebits T) (debit info)) (add (totalCredits T) (credit info))
       (totalAssets T) (totalLiabilities T) (totalEquity T) (totalRevenue T)
       (totalExpenses T)).

(** The section title decides the class; the balance-sheet loop knows three
    classes and the profit-and-loss loop the other two. *)
Definition classifyBalanceSheet (sectionTitle : string) : option Category :=
  if includes sectionTitle "bank" || includes sectionTitle "asset" then Some ASSET
  else if includes sectionTitle "liabilit" then Some LIABILITY
  else if includes sectionTitle "equity" then Some EQUITY
  else None.

Definition classifyProfitAndLoss (sectionTitle : string) : option Category :=
  if includes sectionTitle "income" || includes sectionTitle "revenue" then Some REVENUE
  else if includes sectionTitle "expense" || includes sectionTitle "cost" then Some EXPENSE
  else None.

(** The debit and credit a class gives to an amount, and the amount added to
    the class total. *)
Definition debitOf (c : Category) (amount : num) : num :=
  match c with
  | ASSET => if geb amount zero then amount else zero
  | LIABILITY | EQUITY => if ltb amount zero then abs amount else zero
  | REVENUE => zero
  | EXPENSE => abs amount
  end.

Definition creditOf (c : Category) (amount : num) : num :=
  match c with
  | ASSET => if ltb amount zero then abs amount else zero
  | LIABILITY | EQUITY => if geb amount zero then amount else zero
  | REVENUE => abs amount
  | EXPENSE => zero
  end.

Definition totalShare (c : Category) (amount : num) : num :=
  match c with
  | ASSET | LIABILITY | EQUITY => amount
  | REVENUE | EXPENSE => abs amount
  end.

(** [row.cells[0]?.value || ""] and [parseFloat(row.cells[1]?.value || 0)] *)
Definition cellName (cs : list ReportCell) : string :=
  match truthy (match nth_error cs 0 with Some c => value c | None => None end) with
  | Some s => s
  | None => ""
  end.

Definition cellAmount (cs : list ReportCell) : num :=
  match truthy (match nth_error cs 1 with Some c => value c | None => None end) with
  | Some s => parseFloat s
  | None => parseFloat "0"
  end.

(** The body of [section.rows.forEach((row) => ...)], shared in shape by the
    two loops, which differ in the classifier only. *)
Definition processRow (classify : string -> option Category)
    (sectionTitleRaw : string) (st : LoopState) (row : ReportRow) : LoopState :=
  match cells row with
  | Some cs =>
      if isRow (rowType row) && (2 <=? List.length cs)%nat then
        let accountName := cellName cs in
        let currentBalance := cellAmount cs in
        if includes (toLowerCase accountName) "total" || eqb currentBalance zero
        then st
        else
          let info0 := mkAccount accountName currentBalance zero zero sectionTitleRaw in
          let '(info, t1) :=
            match classify (toLowerCase sectionTitleRaw) with
            | Some c =>
                let info :=
                  mkAccount accountName currentBalance
                    (debitOf c currentBalance) (creditOf c currentBalance)
                    sectionTitleRaw in
                (info, pushAccount c info (totalShare c currentBalance) (trialBalance st))
            | None => (info0, trialBalance st)
            end in
          mkLoop (addDebitCredit info t1) (S (processedAccounts st))
      else st
  | None => st
  end.

(** The body of [rows.forEach((section) => ...)]. *)
Definition processSection (classify : string -> option Category)
    (st : LoopState) (s : ReportSection) : LoopState :=
  match rows s, truthy (title s) with
  | Some rs, Some ttl =>
      if isSection (sectionType s) then fold_left (processRow classify ttl) rs st
      else st
  | _, _ => st
  end.

Definition processReport (classify : string -> option Category)
    (st : LoopState) (sections : list ReportSection) : LoopState :=
  fold_left (processSection classify) sections st.

(** [Math.abs(totalDebits - totalCredits) < 0.01] and the accounting
    equation; the handlers of the single and of the consolidated trial
    balance both write this object out. *)
Definition tolerance : num := literal (1 # 100).

Definition balanceCheckOf (T : Totals num) : BalanceCheck num :=
  mkBalanceCheck
    (ltb (abs (sub (totalDebits T) (totalCredits T))) tolerance)
    (sub (totalDebits T) (totalCredits T))
    (mkEquation
       (totalAssets T)
       (add (totalLiabilities T) (totalEquity T))
       (ltb (abs (sub (totalAssets T) (add (totalLiabilities T) (totalEquity T))))
          tolerance)).

(** ** Token storage *)

(** A row of table [tokens]. *)
Record TokenRow : Type := mkTokenRow {
  tenant_id : string;
  tenant_name : string;
  provider : string;
  access_token : string;
  refresh_token : option string;
  expires_at : Z;
  last_seen : option string
}.

Record TokenData : Type := mkTokenData {
  td_access_token : string;
  td_refresh_token : option string;
  td_expires_in : Z;
  td_tenantId : string;
  td_tenantName : string
}.

Record Connection : Type := mkConnection {
  conn_tenantId : string;
  conn_tenantName : string;
  conn_provider : string;
  connected : bool;
  lastSeen : string;
  conn_error : option string
}.

(** A numeric field read back from JSON: [res.json] writes NaN and the
    infinities as [null]. *)
Inductive jnum : Type :=
| JNum (q : Q)
| JNull.

Definition jsonOfNum (a : num) : jnum :=
  match a with
  | Fin q => JNum q
  | _ => JNull
  end.

(** The number a JSON field is in arithmetic: [null] counts as 0. *)
Definition toNumber (j : jnum) : num :=
  match j with
  | JNum q => Fin q
  | JNull => zero
  end.

Record TrialBalanceBody (N : Type) : Type := mkTrialBalanceBody {
  body_tenantId : string;
  body_tenantName : string;
  body_trialBalance : TrialBalance N;
  body_balanceCheck : BalanceCheck N;
  body_generatedAt : string;
  body_reportDate : string;
  body_processedAccounts : nat;
  body_dataSource : string
}.
Arguments mkTrialBalanceBody {N}.
Arguments body_tenantId {N}.
Arguments body_tenantName {N}.
Arguments body_trialBalance {N}.
Arguments body_balanceCheck {N}.
Arguments body_generatedAt {N}.
Arguments body_reportDate {N}.
Arguments body_processedAccounts {N}.
Arguments body_dataSource {N}.

(** What [await response.json()] gives: the body the trial-balance handler
    wrote, or some other JSON value. *)
Inductive JsonValue : Type :=
| TrialBalanceJson (p : TrialBalanceBody jnum)
| OtherJson.

Record FetchResponse : Type := mkFetchResponse {
  ok : bool;
  json : result JsonValue
}.

(** The collaborators of the handlers. *)
Record Env : Type := mkEnv {
  (** the rows of table [tokens] as [pool.query] returns them, or its failure *)
  poolQuery : result (list TokenRow);
  (** [Date.now()] and [new Date().toISOString()] *)
  dateNow : Z;
  isoNow : string;
  (** the accounting API *)
  setTokenSet : TokenData -> result unit;
  getReportBalanceSheet : string -> string -> result ReportBody;
  getReportProfitAndLoss : string -> string -> string -> result ReportBody;
  (** [a.localeCompare(b)] *)
  localeCompare : string -> string -> num;
  (** [fetch(".../api/trial-balance/<tenantId>?date=<date>")] *)
  fetchTrialBalance : string -> string -> result FetchResponse
}.

(** [tokenStorage.getXeroToken(tenantId)] *)
Definition getXeroToken (env : Env) (tenantId : string) : option TokenData :=
  match poolQuery env with
  | Throw _ => None
  | Return table =>
      match filter (fun r => String.eqb (tenant_id r) tenantId
                             && String.eqb (provider r) "xero") table with
      | [] => None
      | token :: _ =>
          if (expires_at token <? dateNow env)%Z then None
          else Some (mkTokenData (access_token token) (refresh_token token)
                       ((expires_at token - dateNow env) / 1000)%Z
                       (tenant_id token) (tenant_name token))
      end
  end.

(** One row of [result.rows.map(...)]; [row.last_seen.toISOString()] throws
    on a null [last_seen]. *)
Definition connectionOfRow (now : Z) (row : TokenRow) : result Connection :=
  match last_seen row with
  | Some seen =>
      Return (mkConnection (tenant_id row) (tenant_name row) (provider row)
                (now <? expires_at row)%Z seen
                (if (expires_at row <? now)%Z then Some "Token expired" else None))
  | None => Throw "Cannot read properties of null (reading 'toISOString')"
  end.

Fixpoint mapResult {A B : Type} (f : A -> result B) (l : list A) : result (list B) :=
  match l with
  | [] => Return []
  | x :: r => y <- f x ;; ys <- mapResult f r ;; Return (y :: ys)
  end.

(** [tokenStorage.getAllXeroConnections()] *)
Definition getAllXeroConnections (env : Env) : list Connection :=
  match (table <- poolQuery env ;;
         mapResult (connectionOfRow (dateNow env))
           (filter (fun r => String.eqb (provider r) "xero") table)) with
  | Return conns => conns
  | Throw _ => []
  end.

(** ** The handler of [/api/trial-balance/:tenantId] *)

Record TrialBalanceRequest : Type := mkTrialBalanceRequest {
  params_tenantId : string;
  query_date : option string
}.

Inductive TrialBalanceResponse : Type :=
| TB200 (body : TrialBalanceBody num)
| TB404 (error : string)
| TB500 (error details tenantId : string).

(** [s.split("T")[0]] *)
Fixpoint beforeT (s : string) : string :=
  match s with
  | EmptyString => EmptyString
  | String c r => if Ascii.eqb c "T" then EmptyString else String c (beforeT r)
  end.

(** [new Date().toISOString().split("T")[0]] *)
Definition today (env : Env) : string := beforeT (isoNow env).

(** [console] has no method [errorlog]: calling it throws a TypeError. *)
Definition console_errorlog (message detail : string) : result unit :=
  Throw "console.errorlog is not a function".

Definition byName (env : Env) (a b : AccountInfo num) : num :=
  localeCompare env (name a) (name b).

(** [trialBalance[category].sort(...)] for the five categories *)
Definition sortCategories (env : Env) (t : TrialBalance num) : TrialBalance num :=
  mkTrialBalance
    (sortBy (byName env) (assets t))
    (sortBy (byName env) (liabilities t))
    (sortBy (byName env) (equity t))
    (sortBy (byName env) (revenue t))
    (sortBy (byName env) (expenses t))
    (totals t).

(** The [try] block of the handler. *)
Definition trialBalanceTry (env : Env) (req : TrialBalanceRequest)
    : result TrialBalanceResponse :=
  match getXeroToken env (params_tenantId req) with
  | None => Return (TB404 "Tenant not found or token expired")
  | Some tokenData =>
      _ <- setTokenSet env tokenData ;;
      let reportDate :=
        match truthy (query_date req) with
        | Some d => d
        | None => today env
        end in
      balanceSheetResponse <-
        getReportBalanceSheet env (params_tenantId req) reportDate ;;
      let st1 :=
        processReport classifyBalanceSheet (mkLoop emptyTrialBalance 0)
          (firstReportRows balanceSheetResponse) in
      st2 <-
        tryCatch
          (profitLossResponse <-
             getReportProfitAndLoss env (params_tenantId req) reportDate reportDate ;;
           Return (processReport classifyProfitAndLoss st1
                     (firstReportRows profitLossResponse)))
          (fun plError =>
             _ <- console_errorlog "Could not fetch P&L data:" plError ;;
             Return st1) ;;
      let sorted := sortCategories env (trialBalance st2) in
      Return (TB200
                (mkTrialBalanceBody (params_tenantId req) (td_tenantName tokenData)
                   sorted (balanceCheckOf (totals sorted)) (isoNow env) reportDate
                   (processedAccounts st2) "Balance Sheet + P&L Reports"))
  end.

(** The handler: the outer [catch] answers 500. *)
Definition trialBalanceHandler (env : Env) (req : TrialBalanceRequest)
    : TrialBalanceResponse :=
  match trialBalanceTry env req with
  | Return response => response
  | Throw message =>
      TB500 "Failed to get trial balance" message (params_tenantId req)
  end.

(** ** The handler of [/api/consolidated-trial-balance] *)

Record CompanySection : Type := mkCompanySection {
  cs_title : string;
  cs_total : jnum;
  cs_accounts : list (AccountInfo jnum)
}.

Record CompanySections : Type := mkCompanySections {
  sec_assets : CompanySection;
  sec_liabilities : CompanySection;
  sec_equity : CompanySection;
  sec_revenue : CompanySection;
  sec_expenses : CompanySection
}.

Record AccountCounts : Type := mkAccountCounts {
  totalAccounts : nat;
  assetAccounts : nat;
  liabilityAccounts : nat;
  equityAccounts : nat;
  revenueAccounts : nat;
  expenseAccounts : nat
}.

Record CompanyData : Type := mkCompanyData {
  co_tenantId : string;
  co_tenantName : string;
  co_balanceCheck : BalanceCheck jnum;
  co_totals : Totals jnum;
  co_reportDate : string;
  co_sections : CompanySections;
  co_accountCounts : AccountCounts
}.

Record DataQuality : Type := mkDataQuality {
  allConnected : bool;
  allBalanced : bool;
  consolidatedBalanced : bool
}.

Record Summary : Type := mkSummary {
  totalCompanies : nat;
  sum_totalAccounts : nat;
  balancedCompanies : nat;
  dataQuality : DataQuality
}.

Record Consolidated : Type := mkConsolidated {
  con_totals : Totals num;
  con_balanceCheck : BalanceCheck num
}.

Record HierarchicalTrialBalance : Type := mkHierarchical {
  consolidated : Consolidated;
  companies : list CompanyData;
  h_reportDate : string;
  h_generatedAt : string;
  summary : Summary
}.

(** [accounts.map((account) => ({ ..., section: account.section || dflt }))] *)
Definition sectionAccounts (dflt : string) (l : list (AccountInfo jnum))
    : list (AccountInfo jnum) :=
  map (fun account =>
         mkAccount (name account) (balance account) (debit account)
           (credit account)
           (match section account with
            | EmptyString => dflt
            | s => s
            end)) l.

(** The object [companyData]. *)
Definition companyDataOf (connection : Connection) (e : TrialBalanceBody jnum)
    : CompanyData :=
  let t := body_trialBalance e in
  mkCompanyData (conn_tenantId connection) (conn_tenantName connection)
    (body_balanceCheck e) (totals t) (body_reportDate e)
    (mkCompanySections
       (mkCompanySection "Assets" (totalAssets (totals t))
          (sectionAccounts "Assets" (assets t)))
       (mkCompanySection "Liabilities" (totalLiabilities (totals t))
          (sectionAccounts "Liabilities" (liabilities t)))
       (mkCompanySection "Equity" (totalEquity (totals t))
          (sectionAccounts "Equity" (equity t)))
       (mkCompanySection "Revenue" (totalRevenue (totals t))
          (sectionAccounts "Revenue" (revenue t)))
       (mkCompanySection "Expenses" (totalExpenses (totals t))
          (sectionAccounts "Expenses" (expenses t))))
    (mkAccountCounts
       (fold_left (fun sum accounts => (sum + List.length accounts)%nat)
          [assets t; liabilities t; equity t; revenue t; expenses t] 0%nat)
       (List.length (assets t)) (List.length (liabilities t))
       (List.length (equity t)) (List.length (revenue t))
       (List.length (expenses t))).

(** [totals.totalX += entityTotals.totalX] for the seven fields *)
Definition addTotals (T : Totals num) (E : Totals jnum) : Totals num :=
  mkTotals
    (add (totalDebits T) (toNumber (totalDebits E)))
    (add (totalCredits T) (toNumber (totalCredits E)))
    (add (totalAssets T) (toNumber (totalAssets E)))
    (add (totalLiabilities T) (toNumber (totalLiabilities E)))
    (add (totalEquity T) (toNumber (totalEquity E)))
    (add (totalRevenue T) (toNumber (totalRevenue E)))
    (add (totalExpenses T) (toNumber (totalExpenses E))).

(** The [try] block of the loop over the connected entities: the fetch, the
    test of [response.ok] and the reading of the body.  [None] is a
    response that is not [ok]. *)
Definition fetchEntity (env : Env) (reportDate : string) (connection : Connection)
    : result (option (TrialBalanceBody jnum)) :=
  trialBalanceResponse <-
    fetchTrialBalance env (conn_tenantId connection) reportDate ;;
  if ok trialBalanceResponse then
    entityTrialBalance <- json trialBalanceResponse ;;
    match entityTrialBalance with
    | TrialBalanceJson e => Return (Some e)
    | OtherJson => Throw "Cannot read properties of undefined (reading 'totals')"
    end
  else Return None.

(** The state of the loop: the companies pushed and the totals so far. *)
Record ConsolidationState : Type := mkConsolidation {
  st_companies : list CompanyData;
  st_totals : Totals num
}.

(** The body of [for (const connection of connectedXeroEntities)]. *)
Definition processEntity (env : Env) (reportDate : string)
    (st : ConsolidationState) (connection : Connection) : ConsolidationState :=
  match fetchEntity env reportDate connection with
  | Return (Some e) =>
      mkConsolidation (st_companies st ++ [companyDataOf connection e])
        (addTotals (st_totals st) (totals (body_trialBalance e)))
  | Return None => st
  | Throw _ => st
  end.

Record ConsolidatedRequest : Type := mkConsolidatedRequest {
  cquery_date : option string
}.

(** The loop over the connected entities, the consolidated balance check
    and the summary. *)
Definition consolidateEntities (env : Env) (reportDate : string)
    (connectedXeroEntities : list Connection) : HierarchicalTrialBalance :=
  let st :=
    fold_left (processEntity env reportDate) connectedXeroEntities
      (mkConsolidation [] emptyTotals) in
  let check := balanceCheckOf (st_totals st) in
  mkHierarchical
    (mkConsolidated (st_totals st) check)
    (st_companies st)
    reportDate
    (isoNow env)
    (mkSummary
       (List.length (st_companies st))
       (fold_left (fun sum company => (sum + totalAccounts (co_accountCounts company))%nat)
          (st_companies st) 0%nat)
       (List.length
          (filter (fun company => debitsEqualCredits (co_balanceCheck company))
             (st_companies st)))
       (mkDataQuality
          (List.length (st_companies st) =? List.length connectedXeroEntities)%nat
          (forallb (fun company => debitsEqualCredits (co_balanceCheck company))
             (st_companies st))
          (debitsEqualCredits check))).

(** [/api/consolidated-trial-balance]: nothing in its [try] block throws
    past the loop's own [catch], so the handler always answers with the
    hierarchical trial balance. *)
Definition consolidatedTrialBalanceHandler (env : Env) (req : ConsolidatedRequest)
    : HierarchicalTrialBalance :=
  let reportDate :=
    match truthy (cquery_date req) with
    | Some d => d
    | None => today env
    end in
  let xeroConnections := getAllXeroConnections env in
  let connectedXeroEntities := filter connected xeroConnections in
  consolidateEntities env reportDate connectedXeroEntities.

(** ** The handler of [/api/compare-periods/:tenantId] *)

Inductive ChangeType : Type := INCREASE | DECREASE | NEW_ACCOUNT.

Record AccountChange : Type := mkAccountChange {
  accountName : string;
  fromBalance : jnum;
  toBalance : jnum;
  change : num;
  changeType : ChangeType
}.

Record PeriodSummary : Type := mkPeriodSummary {
  ps_totalAssets : jnum;
  ps_totalLiabilities : jnum;
  ps_totalEquity : jnum;
  ps_totalDebits : jnum;
  ps_totalCredits : jnum;
  ps_balanced : bool
}.

Record Changes : Type := mkChanges {
  assetsChange : num;
  liabilitiesChange : num;
  equityChange : num;
  balanceStatusChange : bool
}.

Record Comparison : Type := mkComparison {
  cmp_tenantId : string;
  cmp_tenantName : string;
  cmp_fromDate : string;
  cmp_toDate : string;
  fromPeriod : PeriodSummary;
  toPeriod : PeriodSummary;
  changes : Changes;
  accountChanges : list AccountChange;
  significantChanges : list AccountChange
}.

Record CompareRequest : Type := mkCompareRequest {
  cp_tenantId : string;
  query_fromDate : option string;
  query_toDate : option string;
  query_accountFilter : option string
}.

Inductive CompareResponse : Type :=
| CP200 (comparison : Comparison)
| CP400 (error : string)
| CP404 (error : string)
| CP500 (error details : string).

Definition periodSummaryOf (p : TrialBalanceBody jnum) : PeriodSummary :=
  let T := totals (body_trialBalance p) in
  mkPeriodSummary (totalAssets T) (totalLiabilities T) (totalEquity T)
    (totalDebits T) (totalCredits T) (debitsEqualCredits (body_balanceCheck p)).

Definition changesOf (fromPeriodData toPeriodData : TrialBalanceBody jnum) : Changes :=
  let F := totals (body_trialBalance fromPeriodData) in
  let T := totals (body_trialBalance toPeriodData) in
  mkChanges
    (sub (toNumber (totalAssets T)) (toNumber (totalAssets F)))
    (sub (toNumber (totalLiabilities T)) (toNumber (totalLiabilities F)))
    (sub (toNumber (totalEquity T)) (toNumber (totalEquity F)))
    (negb (Bool.eqb (debitsEqualCredits (body_balanceCheck toPeriodData))
             (debitsEqualCredits (body_balanceCheck fromPeriodData)))).

(** [[...p.trialBalance.assets, ...p.trialBalance.liabilities,
      ...p.trialBalance.equity]] *)
Definition balanceSheetAccounts (p : TrialBalanceBody jnum) : list (AccountInfo jnum) :=
  assets (body_trialBalance p) ++ liabilities (body_trialBalance p)
  ++ equity (body_trialBalance p).

(** [accounts.find((a) => a.name === n)] *)
Definition findByName (n : string) (accounts : list (AccountInfo jnum))
    : option (AccountInfo jnum) :=
  find (fun a => String.eqb (name a) n) accounts.

(** The body of [fromAccounts.forEach((fromAcc) => ...)]: what it pushes. *)
Definition existingChange (toAccounts : list (AccountInfo jnum))
    (fromAcc : AccountInfo jnum) : list AccountChange :=
  match findByName (name fromAcc) toAccounts with
  | Some toAcc =>
      let change := sub (toNumber (balance toAcc)) (toNumber (balance fromAcc)) in
      if gtb (abs change) (Fin 1000) then
        [mkAccountChange (name fromAcc) (balance fromAcc) (balance toAcc) change
           (if gtb change zero then INCREASE else DECREASE)]
      else []
  | None => []
  end.

(** The body of [toAccounts.forEach((toAcc) => ...)]: what it pushes. *)
Definition newAccount (fromAccounts : list (AccountInfo jnum))
    (toAcc : AccountInfo jnum) : list AccountChange :=
  match findByName (name toAcc) fromAccounts with
  | None =>
      if gtb (abs (toNumber (balance toAcc))) (Fin 1000) then
        [mkAccountChange (name toAcc) (JNum 0) (balance toAcc)
           (toNumber (balance toAcc)) NEW_ACCOUNT]
      else []
  | Some _ => []
  end.

(** [(a, b) => Math.abs(b.change) - Math.abs(a.change)] *)
Definition byMagnitude (a b : AccountChange) : num :=
  sub (abs (change b)) (abs (change a)).

Definition accountChangesOf (fromAccounts toAccounts : list (AccountInfo jnum))
    : list AccountChange :=
  sortBy byMagnitude
    (flat_map (existingChange toAccounts) fromAccounts
     ++ flat_map (newAccount fromAccounts) toAccounts).

Definition isSignificant (c : AccountChange) : bool :=
  gtb (abs (change c)) (Fin 100000).

Definition comparisonOf (tenantId tenantName fromDate toDate : string)
    (fromPeriodData toPeriodData : TrialBalanceBody jnum) : Comparison :=
  let accountChanges :=
    accountChangesOf (balanceSheetAccounts fromPeriodData)
      (balanceSheetAccounts toPeriodData) in
  mkComparison tenantId tenantName fromDate toDate
    (periodSummaryOf fromPeriodData) (periodSummaryOf toPeriodData)
    (changesOf fromPeriodData toPeriodData)
    accountChanges
    (filter isSignificant accountChanges).

(** The [try] block of the handler.  The two fetches of [Promise.all] are
    awaited together; a rejection of either one is thrown. *)
Definition comparePeriodsTry (env : Env) (req : CompareRequest)
    : result CompareResponse :=
  match getXeroToken env (cp_tenantId req) with
  | None => Return (CP404 "Tenant not found or token expired")
  | Some tokenData =>
      let toDate :=
        match truthy (query_toDate req) with
        | Some d => d
        | None => today env
        end in
      let accountFilter := query_accountFilter req in
      match truthy (query_fromDate req) with
      | None => Return (CP400 "fromDate parameter is required")
      | Some fromDate =>
          fromPeriodResponse <- fetchTrialBalance env (cp_tenantId req) fromDate ;;
          toPeriodResponse <- fetchTrialBalance env (cp_tenantId req) toDate ;;
          if negb (ok fromPeriodResponse) || negb (ok toPeriodResponse) then
            Throw "Failed to retrieve trial balance data for comparison"
          else
            fromPeriodData <- json fromPeriodResponse ;;
            toPeriodData <- json toPeriodResponse ;;
            match fromPeriodData, toPeriodData with
            | TrialBalanceJson f, TrialBalanceJson t =>
                Return (CP200 (comparisonOf (cp_tenantId req)
                                 (td_tenantName tokenData) fromDate toDate f t))
            | _, _ =>
                Throw "Cannot read properties of undefined (reading 'totals')"
            end
      end
  end.

Definition comparePeriodsHandler (env : Env) (req : CompareRequest)
    : CompareResponse :=
  match comparePeriodsTry env req with
  | Return response => response
  | Throw message => CP500 "Failed to compare periods" message
  end.

(** ** The trial-balance handler seen through HTTP

    The two handlers above call the first one through [fetch]; this is the
    response such a call gets when the network itself does not fail. *)

Definition jsonOfAccount (a : AccountInfo num) : AccountInfo jnum :=
  mkAccount (name a) (jsonOfNum (balance a)) (jsonOfNum (debit a))
    (jsonOfNum (credit a)) (section a).

Definition jsonOfTotals (T : Totals num) : Totals jnum :=
  mkTotals (jsonOfNum (totalDebits T)) (jsonOfNum (totalCredits T))
    (jsonOfNum (totalAssets T)) (jsonOfNum (totalLiabilities T))
    (jsonOfNum (totalEquity T)) (jsonOfNum (totalRevenue T))
    (jsonOfNum (totalExpenses T)).

Definition jsonOfTrialBalance (t : TrialBalance num) : TrialBalance jnum :=
  mkTrialBalance (map jsonOfAccount (assets t)) (map jsonOfAccount (liabilities t))
    (map jsonOfAccount (equity t)) (map jsonOfAccount (revenue t))
    (map jsonOfAccount (expenses t)) (jsonOfTotals (totals t)).

Definition jsonOfBalanceCheck (c : BalanceCheck num) : BalanceCheck jnum :=
  mkBalanceCheck (debitsEqualCredits c) (jsonOfNum (difference c))
    (mkEquation (jsonOfNum (eq_assets (accountingEquation c)))
       (jsonOfNum (eq_liabilitiesAndEquity (accountingEquation c)))
       (balanced (accountingEquation c))).

Definition jsonOfBody (b : TrialBalanceBody num) : TrialBalanceBody jnum :=
  mkTrialBalanceBody (body_tenantId b) (body_tenantName b)
    (jsonOfTrialBalance (body_trialBalance b))
    (jsonOfBalanceCheck (body_balanceCheck b))
    (body_generatedAt b) (body_reportDate b) (body_processedAccounts b)
    (body_dataSource b).

Definition localFetch (env : Env) (tenantId date : string) : result FetchResponse :=
  match trialBalanceHandler env (mkTrialBalanceRequest tenantId (Some date)) with
  | TB200 body => Return (mkFetchResponse true (Return (TrialBalanceJson (jsonOfBody body))))
  | _ => Return (mkFetchResponse false (Return OtherJson))
  end.

(** ** Vocabulary of the properties *)

(** The state of the two loops run one after the other on the rows of the
    balance sheet and of the profit and loss. *)
Definition classifyReports (balanceSheetRows plRows : list ReportSection) : LoopState :=
  processReport classifyProfitAndLoss
    (processReport classifyBalanceSheet (mkLoop emptyTrialBalance 0) balanceSheetRows)
    plRows.

(** The report date of a request. *)
Definition reportDateOf (env : Env) (date : option string) : string :=
  match truthy date with
  | Some d => d
  | None => today env
  end.

(** The accounts of a trial balance with the class of the list they are in. *)
Definition classedAccounts {N : Type} (t : TrialBalance N)
    : list (Category * AccountInfo N) :=
  map (pair ASSET) (assets t) ++ map (pair LIABILITY) (liabilities t)
  ++ map (pair EQUITY) (equity t) ++ map (pair REVENUE) (revenue t)
  ++ map (pair EXPENSE) (expenses t).

(** The rows a loop looks at: the rows of type [Row] with two cells or more,
    in the sections of type [Section] that have rows and a title; each with
    the title of its section. *)
Definition isDataRow (row : ReportRow) : bool :=
  match cells row with
  | Some cs => isRow (rowType row) && (2 <=? List.length cs)%nat
  | None => false
  end.

Definition dataRowsOfSection (s : ReportSection) : list (string * ReportRow) :=
  match rows s, truthy (title s) with
  | Some rs, Some ttl =>
      if isSection (sectionType s) then map (pair ttl) (filter isDataRow rs)
      else []
  | _, _ => []
  end.

Definition dataRows (sections : list ReportSection) : list (string * ReportRow) :=
  flat_map dataRowsOfSection sections.

Definition rowCells (row : ReportRow) : list ReportCell :=
  match cells row with
  | Some cs => cs
  | None => []
  end.

Definition rowName (row : ReportRow) : string := cellName (rowCells row).
Definition rowAmount (row : ReportRow) : num := cellAmount (rowCells row).

(** A row is kept unless its name contains "total" or its amount is 0. *)
Definition keptRow (r : string * ReportRow) : bool :=
  negb (includes (toLowerCase (rowName (snd r))) "total"
        || eqb (rowAmount (snd r)) zero).

(** The record a loop pushes for a row it looks at, with its class: none
    for a row that is not kept or whose section has no class. *)
Definition rowRecord (classify : string -> option Category) (r : string * ReportRow)
    : list (Category * AccountInfo num) :=
  if keptRow r then
    match classify (toLowerCase (fst r)) with
    | Some c =>
        [(c, mkAccount (rowName (snd r)) (rowAmount (snd r))
               (debitOf c (rowAmount (snd r))) (creditOf c (rowAmount (snd r)))
               (fst r))]
    | None => []
    end
  else [].

Definition records (classify : string -> option Category)
    (sections : list ReportSection) : list (Category * AccountInfo num) :=
  flat_map (rowRecord classify) (dataRows sections).

Definition category_eqb (a b : Category) : bool :=
  match a, b with
  | ASSET, ASSET | LIABILITY, LIABILITY | EQUITY, EQUITY
  | REVENUE, REVENUE | EXPENSE, EXPENSE => true
  | _, _ => false
  end.

(** The list of a trial balance that holds the accounts of a class, and the
    entries of a class in a list of classed entries. *)
Definition bucket {N : Type} (c : Category) (t : TrialBalance N) : list (AccountInfo N) :=
  match c with
  | ASSET => assets t
  | LIABILITY => liabilities t
  | EQUITY => equity t
  | REVENUE => revenue t
  | EXPENSE => expenses t
  end.

Definition select {A : Type} (c : Category) (l : list (Category * A)) : list A :=
  map snd (filter (fun p => category_eqb (fst p) c) l).





(** [Math.max(a, b)] on numbers that are not NaN. *)
Definition numMax (a b : num) : num := if ltb a b then b else a.

(** The sign convention as the specification words it. *)
Definition conventionDebit (c : Category) (b : num) : num :=
  match c with
  | ASSET => numMax b zero
  | LIABILITY | EQUITY => numMax (neg b) zero
  | REVENUE => zero
  | EXPENSE => abs b
  end.

Definition conventionCredit (c : Category) (b : num) : num :=
  match c with
  | ASSET => numMax (neg b) zero
  | LIABILITY | EQUITY => numMax b zero
  | REVENUE => abs b
  | EXPENSE => zero
  end.

(** What the sign law of the specification and the one of the code share:
    debit and credit are not negative, one of them is 0, and they follow
    the sign convention. *)
Definition signConvention (c : Category) (r : AccountInfo num) : Prop :=
  geb (debit r) zero = true /\ geb (credit r) zero = true /\
  (eqb (debit r) zero = true \/ eqb (credit r) zero = true) /\
  same (debit r) (conventionDebit c (balance r)) /\
  same (credit r) (conventionCredit c (balance r)).

(** The sign law as the specification words it. *)
Definition specSignLaw (c : Category) (r : AccountInfo num) : Prop :=
  signConvention c r /\
  match c with
  | ASSET | EXPENSE => same (sub (debit r) (credit r)) (balance r)
  | LIABILITY | EQUITY | REVENUE => same (sub (credit r) (debit r)) (balance r)
  end.

(** The sign law of the code: revenue and expenses record the magnitude. *)
Definition codeSignLaw (c : Category) (r : AccountInfo num) : Prop :=
  signConvention c r /\
  match c with
  | ASSET => same (sub (debit r) (credit r)) (balance r)
  | LIABILITY | EQUITY => same (sub (credit r) (debit r)) (balance r)
  | REVENUE => same (sub (credit r) (debit r)) (abs (balance r))
  | EXPENSE => same (sub (debit r) (credit r)) (abs (balance r))
  end.

(** The connected entities whose trial balance was fetched, with what was
    fetched. *)
Definition fetched (env : Env) (reportDate : string) (conns : list Connection)
    : list (Connection * TrialBalanceBody jnum) :=
  flat_map (fun connection =>
              match fetchEntity env reportDate connection with
              | Return (Some e) => [(connection, e)]
              | _ => []
              end) conns.

Definition fetchFails (env : Env) (reportDate : string) (connection : Connection) : bool :=
  match fetchEntity env reportDate connection with
  | Return (Some _) => false
  | _ => true
  end.

Definition fetchedTotals (env : Env) (reportDate : string) (conns : list Connection)
    : list (Totals jnum) :=
  map (fun p => totals (body_trialBalance (snd p))) (fetched env reportDate conns).

(** The rational a JSON number counts for in a sum or a difference: 0 for
    [null]. *)
Definition jvalue (j : jnum) : Q :=
  match j with
  | JNum q => q
  | JNull => 0
  end.

(** The sum of a list of rationals as the program accumulates it: from 0,
    from left to right, every addition rounded; and their exact sum. *)
Definition roundedSum (l : list Q) : Q :=
  fold_left (fun s x => round53 (s + x)) l 0.



(** The environment with another table of tokens, or another HTTP client. *)
Definition withTokens (env : Env) (table : list TokenRow) : Env :=
  mkEnv (Return table) (dateNow env) (isoNow env) (setTokenSet env)
    (getReportBalanceSheet env) (getReportProfitAndLoss env) (localeCompare env)
    (fetchTrialBalance env).

Definition withFetch (env : Env) (f : string -> string -> result FetchResponse) : Env :=
  mkEnv (poolQuery env) (dateNow env) (isoNow env) (setTokenSet env)
    (getReportBalanceSheet env) (getReportProfitAndLoss env) (localeCompare env) f.

Definition unexpired (now : Z) (row : TokenRow) : bool := (now <? expires_at row)%Z.

(** [|a| >= |b|] on the changes of two entries. *)
Definition notSmaller (a b : AccountChange) : Prop :=
  geb (abs (change a)) (abs (change b)) = true.

(** ** A small world to run the handlers in *)

Module Demo.

(** A comparison of the characters' codes stands for the collation of the
    locale. *)
Definition compareCodeUnits (a b : string) : num :=
  match String.compare a b with
  | Lt => Fin (-1)
  | Eq => Fin 0
  | Gt => Fin 1
  end.

Definition cell (s : string) : ReportCell := mkCell (Some s).

Definition account (n v : string) : ReportRow := mkRow RT_Row (Some [cell n; cell v]).

Definition summaryRow (n v : string) : ReportRow :=
  mkRow RT_SummaryRow (Some [cell n; cell v]).

Definition group (ttl : string) (rs : list ReportRow) : ReportSection :=
  mkSection RT_Section (Some ttl) (Some rs).

Definition header : ReportSection :=
  mkSection RT_Header None None.

Definition report (sections : list ReportSection) : result ReportBody :=
  Return (mkBody (Some [mkReport (Some sections)])).

Definition alphaJanuary : list ReportSection :=
  [ header;
    group "Bank" [account "Business Account" "5000.00"; account "Petty Cash" "5000.00";
                  summaryRow "Total Bank" "10000.00"];
    group "Fixed Assets" [account "Equipment" "20000.00"];
    group "Current Liabilities" [account "Loan" "3000.00"; account "Old Payable" "2500.00"];
    group "" [account "Net Assets" "24500.00"];
    group "Equity" [account "Retained Earnings" "24500.00"] ].

Definition alphaFebruary : list ReportSection :=
  [ header;
    group "Bank" [account "Business Account" "7000.00"; account "Petty Cash" "5500.00";
                  account "Term Deposit" "150000.00"];
    group "Fixed Assets" [account "Equipment" "20000.00"];
    group "Current Liabilities" [account "Loan" "3000.00"];
    group "Equity" [account "Retained Earnings" "179500.00"] ].

Definition betaSheet : list ReportSection :=
  [ group "Bank" [account "Cash" "50000.00"];
    group "Current Liabilities" [account "Payables" "20000.00"];
    group "Equity" [account "Capital" "29000.00"] ].

Definition alphaProfitAndLoss : list ReportSection :=
  [ group "Income" [account "Sales" "9000.00"];
    group "Less Operating Expenses" [account "Rent" "4000.00"; account "Refunds" "-50.00"] ].

(** A balance sheet with a row whose amount is not a number. *)
Definition malformedSheet : list ReportSection :=
  [ group "Bank" [account "Cash" "100.00"; account "Suspense" "n/a"] ].

Definition balanceSheets (tenantId date : string) : result ReportBody :=
  if String.eqb tenantId "t-alpha" then
    (if String.eqb date "2024-01-31" then report alphaJanuary else report alphaFebruary)
  else if String.eqb tenantId "t-beta" then report betaSheet
  else if String.eqb tenantId "t-gamma" then report betaSheet
  else if String.eqb tenantId "t-delta" then report malformedSheet
  else Throw "Request failed with status code 403".

Definition profitAndLoss (tenantId fromDate toDate : string) : result ReportBody :=
  if String.eqb tenantId "t-alpha" then report alphaProfitAndLoss
  else if String.eqb tenantId "t-beta" then Return (mkBody None)
  else if String.eqb tenantId "t-delta" then Return (mkBody None)
  else Throw "socket hang up".

Definition token (id nm : string) (expires : Z) : TokenRow :=
  mkTokenRow id nm "xero" "access" (Some "refresh") expires
    (Some "2024-03-01T08:00:00.000Z").

Definition alpha : TokenRow := token "t-alpha" "Alpha Pty" 2000000.
Definition beta : TokenRow := token "t-beta" "Beta Pty" 2000000.
Definition gamma : TokenRow := token "t-gamma" "Gamma Pty" 2000000.
Definition lapsed : TokenRow := token "t-lapsed" "Lapsed Pty" 500.
Definition delta : TokenRow := token "t-delta" "Delta Pty" 2000000.

(** The world without an HTTP client, and the world whose HTTP client
    reaches the trial-balance handler of the same server. *)
Definition offline : Env :=
  mkEnv (Return [alpha; beta; lapsed; gamma]) 1000000 "2024-03-01T09:30:00.000Z"
    (fun _ => Return tt) balanceSheets profitAndLoss compareCodeUnits
    (fun _ _ => Throw "fetch failed").

Definition world : Env := withFetch offline (localFetch offline).


(** A profit and loss with a negative expense. *)
Definition refundReport : list ReportSection :=
  [ group "Less Operating Expenses" [account "Refunds" "-50.00"] ].

End Demo.

(** [try { return l } catch { return [] }] *)
Definition orEmpty {A : Type} (r : result (list A)) : list A :=
  match r with
  | Return l => l
  | Throw _ => []
  end.

Definition isXero (row : TokenRow) : bool := String.eqb (provider row) "xero".


(** The magnitude of a change, and the two kinds of entries of a comparison
    as the specification words them; the change of an account found in both
    periods is the difference of its two balances, rounded to binary64. *)
Definition magnitude (x : AccountChange) : Q :=
  match change x with
  | Fin q => Qabs q
  | _ => 0
  end.

Definition exceeds (bound : Q) (x : AccountChange) : bool :=
  if Qlt_le_dec bound (magnitude x) then true else false.

Definition directionOf (d : Q) : ChangeType :=
  if Qlt_le_dec 0 d then INCREASE else DECREASE.

Definition changedEntry (fromAcc toAcc : AccountInfo jnum) : AccountChange :=
  let d := round53 (jvalue (balance toAcc) - jvalue (balance fromAcc)) in
  mkAccountChange (name fromAcc) (balance fromAcc) (balance toAcc) (Fin d)
    (directionOf d).

Definition newEntry (toAcc : AccountInfo jnum) : AccountChange :=
  mkAccountChange (name toAcc) (JNum 0) (balance toAcc)
    (Fin (jvalue (balance toAcc))) NEW_ACCOUNT.

(** The entries pushed by the two loops, before the sort. *)
Definition pushedChanges (fromAccounts toAccounts : list (AccountInfo jnum))
    : list AccountChange :=
  flat_map (existingChange toAccounts) fromAccounts
  ++ flat_map (newAccount fromAccounts) toAccounts.

(** What the specification asks of the account changes of a comparison. *)
Definition comparisonLaw (fromAccounts toAccounts : list (AccountInfo jnum))
    (changed significant : list AccountChange) : Prop :=
  (forall fromAcc toAcc,
     In fromAcc fromAccounts ->
     findByName (name fromAcc) toAccounts = Some toAcc ->
     (In (changedEntry fromAcc toAcc) changed <->
      1000 < Qabs (round53 (jvalue (balance toAcc) - jvalue (balance fromAcc))))) /\
  (forall toAcc,
     In toAcc toAccounts ->
     findByName (name toAcc) fromAccounts = None ->
     (In (newEntry toAcc) changed <-> 1000 < Qabs (jvalue (balance toAcc)))) /\
  (forall x, In x changed ->
     (exists fromAcc toAcc,
        In fromAcc fromAccounts /\
        findByName (name fromAcc) toAccounts = Some toAcc /\
        x = changedEntry fromAcc toAcc) \/
     (exists toAcc,
        In toAcc toAccounts /\
        findByName (name toAcc) fromAccounts = None /\
        x = newEntry toAcc)) /\
  (forall n, ~ In n (map name toAccounts) -> ~ In n (map accountName changed)) /\
  StronglySorted (fun a b => magnitude b <= magnitude a) changed /\
  significant = filter (exceeds 100000) changed.


(** ** Vocabulary of further properties *)

(** The total kept for a class. *)
Definition classTotal (c : Category) (T : Totals num) : num :=
  match c with
  | ASSET => totalAssets T
  | LIABILITY => totalLiabilities T
  | EQUITY => totalEquity T
  | REVENUE => totalRevenue T
  | EXPENSE => totalExpenses T
  end.

(** A kept row whose section title gives no class to the loop that reads
    it. *)
Definition unclassedRow (classify : string -> option Category)
    (r : string * ReportRow) : bool :=
  keptRow r &&
  match classify (toLowerCase (fst r)) with
  | Some _ => false
  | None => true
  end.

(** What a balance counts for in the total of its class: its magnitude for
    revenue and expenses. *)
Definition shareOf (c : Category) (q : Q) : Q :=
  match c with
  | ASSET | LIABILITY | EQUITY => q
  | REVENUE | EXPENSE => Qabs q
  end.

(** The totals of a trial balance are the running sums over a list of
    classed records, in the order of the list. *)
Definition totalsFollow (t : TrialBalance num) (R : list (Category * AccountInfo num))
    : Prop :=
  (forall c,
     classTotal c (totals t)
     = fold_left add (map (fun r => totalShare c (balance r)) (select c R)) zero) /\
  totalDebits (totals t) = fold_left add (map (fun p => debit (snd p)) R) zero /\
  totalCredits (totals t) = fold_left add (map (fun p => credit (snd p)) R) zero.

(** A comparator that orders: what it does not put after is transitive, and
    of two elements one at least is not put after the other. *)
Definition consistentComparator {A : Type} (cmp : A -> A -> num) : Prop :=
  (forall a b c,
     gtb (cmp a b) zero = false -> gtb (cmp b c) zero = false ->
     gtb (cmp a c) zero = false) /\
  (forall a b, gtb (cmp a b) zero = true -> gtb (cmp b a) zero = false).


(** ** Storing and refreshing tokens *)

(** The token set of the identity provider. *)
Record TokenSet : Type := mkTokenSet {
  ts_access_token : string;
  ts_refresh_token : option string;
  ts_expires_in : Z
}.

(** The environment at another instant. *)
Definition withClock (env : Env) (now : Z) : Env :=
  mkEnv (poolQuery env) now (isoNow env) (setTokenSet env)
    (getReportBalanceSheet env) (getReportProfitAndLoss env) (localeCompare env)
    (fetchTrialBalance env).

(** [INSERT INTO tokens ... ON CONFLICT (tenant_id) DO UPDATE SET
    access_token, refresh_token, expires_at, last_seen]: a row of the tenant
    keeps its name and provider. *)
Definition upsertToken (tenantId tenantName : string) (tokenData : TokenSet)
    (expiresAt : Z) (seen : string) (table : list TokenRow) : list TokenRow :=
  if existsb (fun r => String.eqb (tenant_id r) tenantId) table then
    map (fun r =>
           if String.eqb (tenant_id r) tenantId then
             mkTokenRow (tenant_id r) (tenant_name r) (provider r)
               (ts_access_token tokenData) (ts_refresh_token tokenData)
               expiresAt (Some seen)
           else r) table
  else
    table ++ [mkTokenRow tenantId tenantName "xero" (ts_access_token tokenData)
                (ts_refresh_token tokenData) expiresAt (Some seen)].

(** [tokenStorage.storeXeroToken(tenantId, tenantName, tokenData)]; a failure
    of the query is caught and logged. *)
Definition storeXeroToken (env : Env) (tenantId tenantName : string)
    (tokenData : TokenSet) : Env :=
  match poolQuery env with
  | Return table =>
      withTokens env
        (upsertToken tenantId tenantName tokenData
           (dateNow env + ts_expires_in tokenData * 1000)%Z (isoNow env) table)
  | Throw _ => env
  end.


(** The environment of the refresh: the token storage of [Env], whose
    [dateNow] is the clock when the operation starts; the identity
    provider, which takes the token set given to [xero.setTokenSet] and
    answers [xero.refreshToken()]; and the time the awaited calls take: the
    clock when a SELECT sent at a given instant has answered, the clock
    when the identity provider has, and the clock when an UPDATE has. *)
Record RefreshEnv : Type := mkRefreshEnv {
  storage : Env;
  refreshToken : TokenSet -> result TokenSet;
  afterSelect : Z -> Z;
  afterRefresh : Z -> Z;
  afterUpdate : Z -> Z
}.

(** The environment when the clock has moved on. *)
Definition atClock (renv : RefreshEnv) (now : Z) : RefreshEnv :=
  mkRefreshEnv (withClock (storage renv) now) (refreshToken renv)
    (afterSelect renv) (afterRefresh renv) (afterUpdate renv).

Record RefreshResult : Type := mkRefreshResult {
  success : bool;
  rr_error : option string;
  requiresReauth : option bool;
  newExpiresAt : option Z;
  rr_tenantName : option string
}.

(** [UPDATE tokens SET access_token, refresh_token, expires_at, last_seen
    WHERE tenant_id = $4 AND provider = $5] *)
Definition updateToken (tenantId : string) (newTokenSet : TokenSet)
    (expiresAt : Z) (seen : string) (table : list TokenRow) : list TokenRow :=
  map (fun r =>
         if String.eqb (tenant_id r) tenantId && String.eqb (provider r) "xero" then
           mkTokenRow (tenant_id r) (tenant_name r) (provider r)
             (ts_access_token newTokenSet) (ts_refresh_token newTokenSet)
             expiresAt (Some seen)
         else r) table.

(** The [catch] of [refreshXeroToken]. *)
Definition refreshFailure (message : string) : RefreshResult :=
  mkRefreshResult false (Some message)
    (Some (includes message "invalid_grant" || includes message "unauthorized"))
    None None.

(** [enhancedTokenStorage.refreshXeroToken(tenantId)]: the storage and the
    clock after the call, and the result.  [Date.now()] is read three
    times: when the SELECT has answered ([selected]), when the identity
    provider has ([refreshedAt], which gives the [expires_at] that is
    stored), and when the UPDATE has ([updated], which gives the
    [newExpiresAt] that is returned). *)
Definition refreshXeroToken (renv : RefreshEnv) (tenantId : string)
    : RefreshEnv * RefreshResult :=
  let env := storage renv in
  let selected := afterSelect renv (dateNow env) in
  match poolQuery env with
  | Throw message => (atClock renv selected, refreshFailure message)
  | Return table =>
      match filter (fun r => String.eqb (tenant_id r) tenantId
                             && String.eqb (provider r) "xero") table with
      | [] =>
          (atClock renv selected,
           mkRefreshResult false (Some "Token not found") None None None)
      | storedToken :: _ =>
          match truthy (refresh_token storedToken) with
          | None =>
              (atClock renv selected,
               mkRefreshResult false (Some "No refresh token") None None None)
          | Some _ =>
              let tokenSet :=
                mkTokenSet (access_token storedToken) (refresh_token storedToken)
                  ((expires_at storedToken - selected) / 1000)%Z in
              let refreshedAt := afterRefresh renv selected in
              match refreshToken renv tokenSet with
              | Throw message => (atClock renv refreshedAt, refreshFailure message)
              | Return newTokenSet =>
                  let expiresAt :=
                    (refreshedAt + ts_expires_in newTokenSet * 1000)%Z in
                  let updated := afterUpdate renv refreshedAt in
                  (atClock
                     (mkRefreshEnv
                        (withTokens env
                           (updateToken tenantId newTokenSet expiresAt (isoNow env)
                              table))
                        (refreshToken renv) (afterSelect renv) (afterRefresh renv)
                        (afterUpdate renv))
                     updated,
                   mkRefreshResult true None None
                     (Some (updated + ts_expires_in newTokenSet * 1000)%Z)
                     (Some (tenant_name storedToken)))
              end
          end
      end
  end.

(** An entry of [refreshResults]: [{ tenantId, tenantName, ...result }]. *)
Record RefreshEntry : Type := mkRefreshEntry {
  re_tenantId : string;
  re_tenantName : string;
  re_result : RefreshResult
}.

Record RefreshSummary : Type := mkRefreshSummary {
  refreshed : nat;
  failed : nat;
  results : option (list RefreshEntry);
  rs_error : option string
}.

(** The rows [refreshAllExpiringTokens] selects: provider xero, expiring
    within ten minutes and not yet expired. *)
Definition expiringSoon (now : Z) (r : TokenRow) : bool :=
  String.eqb (provider r) "xero"
  && (expires_at r <? now + 10 * 60 * 1000)%Z
  && (now <? expires_at r)%Z.

(** The state of the loop of [refreshAllExpiringTokens]. *)
Record RefreshLoop : Type := mkRefreshLoop {
  rl_env : RefreshEnv;
  rl_results : list RefreshEntry;
  rl_refreshed : nat;
  rl_failed : nat
}.

Definition refreshStep (st : RefreshLoop) (token : TokenRow) : RefreshLoop :=
  let '(renv, result) := refreshXeroToken (rl_env st) (tenant_id token) in
  let entry :=
    mkRefreshEntry (tenant_id token)
      (match rr_tenantName result with
       | Some n => n
       | None => tenant_name token
       end)
      result in
  if success result then
    mkRefreshLoop renv (rl_results st ++ [entry]) (S (rl_refreshed st)) (rl_failed st)
  else
    mkRefreshLoop renv (rl_results st ++ [entry]) (rl_refreshed st) (S (rl_failed st)).

(** [enhancedTokenStorage.refreshAllExpiringTokens()]: the two bounds of
    the selection are read from the clock before the query is sent; the
    loop starts when the query has answered. *)
Definition refreshAllExpiringTokens (renv : RefreshEnv) : RefreshEnv * RefreshSummary :=
  let env := storage renv in
  let answered := atClock renv (afterSelect renv (dateNow env)) in
  match poolQuery env with
  | Throw message => (answered, mkRefreshSummary 0 0 None (Some message))
  | Return table =>
      match filter (expiringSoon (dateNow env)) table with
      | [] => (answered, mkRefreshSummary 0 0 (Some []) None)
      | selected =>
          let st := fold_left refreshStep selected (mkRefreshLoop answered [] 0 0) in
          (rl_env st,
           mkRefreshSummary (rl_refreshed st) (rl_failed st) (Some (rl_results st)) None)
      end
  end.

(** The table of an environment, empty when the query fails. *)
Definition tableOf (env : Env) : list TokenRow := orEmpty (poolQuery env).


(** A world for the refresh: one token that expires within ten minutes,
    one that does too but has no refresh token, one that expired and one
    that has time left. *)
Module RefreshDemo.

Definition soon : TokenRow := Demo.token "t-soon" "Soon Pty" 1300000.

Definition single : TokenRow :=
  mkTokenRow "t-single" "Single Pty" "xero" "access" None 1200000
    (Some "2024-03-01T08:00:00.000Z").

Definition provider (tokenSet : TokenSet) : result TokenSet :=
  if String.eqb (ts_access_token tokenSet) "access" then
    Return (mkTokenSet "renewed" (Some "refresh-2") 1800)
  else Throw "invalid_grant".

(** A query takes 5 ms and the identity provider 200 ms. *)
Definition world : RefreshEnv :=
  mkRefreshEnv (withTokens Demo.offline [soon; Demo.lapsed; single; Demo.alpha])
    provider (fun t => t + 5)%Z (fun t => t + 200)%Z (fun t => t + 5)%Z.

End RefreshDemo.


(** A world whose amounts are not binary fractions: three entities with
    assets of 0.1, 0.2 and 0.3; one whose assets exceed liabilities plus
    equity by a cent; and one whose cash goes from 477.44 to 1477.44. *)
Module RoundingDemo.

Definition cash (amount : string) : list ReportSection :=
  [ Demo.group "Bank" [Demo.account "Cash" amount] ].

Definition centApart : list ReportSection :=
  [ Demo.group "Bank" [Demo.account "Cash" "750504.13"];
    Demo.group "Current Liabilities" [Demo.account "Loan" "255069.03"];
    Demo.group "Equity" [Demo.account "Capital" "495435.09"] ].

Definition balanceSheets (tenantId date : string) : result ReportBody :=
  if String.eqb tenantId "t-one" then Demo.report (cash "0.1")
  else if String.eqb tenantId "t-two" then Demo.report (cash "0.2")
  else if String.eqb tenantId "t-three" then Demo.report (cash "0.3")
  else if String.eqb tenantId "t-cent" then Demo.report centApart
  else if String.eqb tenantId "t-step" then
    (if String.eqb date "2024-01-31" then Demo.report (cash "477.44")
     else Demo.report (cash "1477.44"))
  else Throw "Request failed with status code 403".

Definition profitAndLoss (tenantId fromDate toDate : string) : result ReportBody :=
  Return (mkBody None).

Definition one : TokenRow := Demo.token "t-one" "One Pty" 2000000.
Definition two : TokenRow := Demo.token "t-two" "Two Pty" 2000000.
Definition three : TokenRow := Demo.token "t-three" "Three Pty" 2000000.
Definition cent : TokenRow := Demo.token "t-cent" "Cent Pty" 500.
Definition step : TokenRow := Demo.token "t-step" "Step Pty" 500.

Definition offline (table : list TokenRow) (now : Z) : Env :=
  mkEnv (Return table) now "2024-03-01T09:30:00.000Z"
    (fun _ => Return tt) balanceSheets profitAndLoss Demo.compareCodeUnits
    (fun _ _ => Throw "fetch failed").

(** The three entities are connected at 1000000; the two others have
    tokens that expired then and are read at 100. *)
Definition world : Env :=
  withFetch (offline [one; two; three; cent; step] 1000000)
    (localFetch (offline [one; two; three; cent; step] 1000000)).

Definition earlier : Env :=
  withFetch (offline [cent; step] 100) (localFetch (offline [cent; step] 100)).

End RoundingDemo.


(** The trial-balance handler answers 200. *)
Definition answers200 (env : Env) (tenantId date : string) : bool :=
  match trialBalanceHandler env (mkTrialBalanceRequest tenantId (Some date)) with
  | TB200 _ => true
  | _ => false
  end.

(** The number of accounts in the five sections of a company. *)
Definition sectionAccountsCount (company : CompanyData) : nat :=
  (List.length (cs_accounts (sec_assets (co_sections company)))
   + List.length (cs_accounts (sec_liabilities (co_sections company)))
   + List.length (cs_accounts (sec_equity (co_sections company)))
   + List.length (cs_accounts (sec_revenue (co_sections company)))
   + List.length (cs_accounts (sec_expenses (co_sections company))))%nat.


(** ** The manual journals: [/api/find-unbalanced] and [/api/journal-entries] *)

(** A journal line and a manual journal as the accounting API returns them;
    a missing field is [None].  [lineAmount] is a JSON number. *)
Record JournalLine : Type := mkJournalLine {
  line_accountCode : option string;
  line_accountName : option string;
  line_description : option string;
  lineAmount : option Q;
  trackingCategories : option string
}.

Record ManualJournal : Type := mkManualJournal {
  manualJournalID : option string;
  journalNumber : option string;
  reference : option string;
  journal_date : option string;
  journal_status : option string;
  narration : option string;
  journalLines : option (list JournalLine)
}.

Record JournalsBody : Type := mkJournalsBody {
  manualJournals : option (list ManualJournal)
}.

(** What [new Date(...)] gives, as far as the handlers read it:
    [getFullYear()], [getMonth()], [getDate()] and [toISOString()]. *)
Record JsDate : Type := mkJsDate {
  fullYear : Z;
  monthIndex : Z;
  dayOfMonth : Z;
  isoString : string
}.

(** The collaborators of the analysis handlers: those of [Env], the
    journals of the accounting API, and the dates the clock and the time
    zone of the server give. *)
Record AnalysisEnv : Type := mkAnalysisEnv {
  base : Env;
  (** [xero.accountingApi.getManualJournals(tenantId, null, where)] *)
  getManualJournals : string -> string -> result JournalsBody;
  (** [d = new Date(); d.setMonth(today.getMonth() - 3)] *)
  threeMonthsAgo : JsDate;
  (** [d = new Date(); d.setFullYear(today.getFullYear() - 1)] *)
  oneYearAgo : JsDate;
  (** [new Date("2000-01-01")] *)
  year2000 : JsDate;
  (** [new Date(t).toISOString()] *)
  isoOfTime : Z -> string;
  (** the number [new Date(text)] stands for in a subtraction *)
  dateValue : option string -> num
}.

(** [line.lineAmount] as a number: [undefined] is NaN in arithmetic and in
    comparisons. *)
Definition amountOf (line : JournalLine) : num :=
  match lineAmount line with
  | Some q => Fin q
  | None => NaN
  end.

(** [a || d] on numbers: 0 and NaN are falsy. *)
Definition orNumber (a d : num) : num :=
  match a with
  | NaN => d
  | Fin q => if Qeq_bool q 0 then d else a
  | _ => a
  end.

(** [Math.max(a, b)] *)
Definition mathMax (a b : num) : num :=
  match a, b with
  | NaN, _ | _, NaN => NaN
  | _, _ => if ltb a b then b else a
  end.

(** [lines.filter((line) => line.lineAmount > 0)
          .reduce((sum, line) => sum + line.lineAmount, 0)] *)
Definition journalDebits (lines : list JournalLine) : num :=
  fold_left (fun sum line => add sum (amountOf line))
    (filter (fun line => gtb (amountOf line) zero) lines) zero.

(** [lines.filter((line) => line.lineAmount < 0)
          .reduce((sum, line) => sum + Math.abs(line.lineAmount), 0)] *)
Definition journalCredits (lines : list JournalLine) : num :=
  fold_left (fun sum line => add sum (abs (amountOf line)))
    (filter (fun line => ltb (amountOf line) zero) lines) zero.

(** [line.accountName && line.accountName.toLowerCase().includes("future fund")] *)
Definition namesFutureFund (line : JournalLine) : bool :=
  match truthy (line_accountName line) with
  | Some n => includes (toLowerCase n) "future fund"
  | None => false
  end.

(** [journal.journalLines || []] *)
Definition linesOf (journal : ManualJournal) : list JournalLine :=
  match journalLines journal with
  | Some lines => lines
  | None => []
  end.

Inductive Severity : Type := CRITICAL | HIGH | MEDIUM.

Record LineView : Type := mkLineView {
  lv_accountCode : option string;
  lv_accountName : option string;
  lv_description : option string;
  lv_lineAmount : option Q
}.

Record UnbalancedFlags : Type := mkUnbalancedFlags {
  largeAmount : bool;
  unbalanced : bool;
  singleSided : bool;
  affectsFutureFund : bool
}.

Record UnbalancedTransaction : Type := mkUnbalancedTransaction {
  ut_journalID : option string;
  ut_journalNumber : option string;
  ut_reference : option string;
  ut_date : option string;
  ut_status : option string;
  ut_totalDebits : num;
  ut_totalCredits : num;
  imbalanceAmount : num;
  isUnbalanced : bool;
  severity : Severity;
  ut_journalLines : list LineView;
  flags : UnbalancedFlags
}.

(** The function mapped over the journals by [/api/find-unbalanced]; [None]
    is its [null]. *)
Definition analyzeUnbalanced (minimumAmount : num) (journal : ManualJournal)
    : option UnbalancedTransaction :=
  let journalLines := linesOf journal in
  let totalDebits := journalDebits journalLines in
  let totalCredits := journalCredits journalLines in
  let imbalance := sub totalDebits totalCredits in
  let isUnbalanced := geb (abs imbalance) minimumAmount in
  let hasLargeAmount := geb (mathMax totalDebits totalCredits) minimumAmount in
  if negb isUnbalanced && negb hasLargeAmount then None
  else
    Some (mkUnbalancedTransaction
            (manualJournalID journal) (journalNumber journal) (reference journal)
            (journal_date journal) (journal_status journal)
            totalDebits totalCredits imbalance isUnbalanced
            (if gtb (abs imbalance) (Fin 1000000) then CRITICAL
             else if gtb (abs imbalance) (Fin 100000) then HIGH
             else MEDIUM)
            (map (fun line =>
                    mkLineView (line_accountCode line) (line_accountName line)
                      (line_description line) (lineAmount line)) journalLines)
            (mkUnbalancedFlags
               (gtb (mathMax totalDebits totalCredits) (Fin 1000000))
               isUnbalanced
               (List.length journalLines =? 1)%nat
               (existsb namesFutureFund journalLines))).

(** [list.map(f).filter((j) => j !== null)] *)
Definition mapNotNull {A B : Type} (f : A -> option B) (l : list A) : list B :=
  flat_map (fun x => match f x with Some y => [y] | None => [] end) l.

(** [(a, b) => Math.abs(b.imbalanceAmount) - Math.abs(a.imbalanceAmount)] *)
Definition byImbalance (a b : UnbalancedTransaction) : num :=
  sub (abs (imbalanceAmount b)) (abs (imbalanceAmount a)).

Definition isCritical (t : UnbalancedTransaction) : bool :=
  match severity t with
  | CRITICAL => true
  | _ => false
  end.

Record UnbalancedCriteria : Type := mkUnbalancedCriteria {
  crit_minimumAmount : num;
  crit_dateRange : string;
  crit_startDate : string
}.

Record UnbalancedSummary : Type := mkUnbalancedSummary {
  totalJournalsAnalyzed : nat;
  unbalancedFound : nat;
  largeAmountFound : nat;
  criticalIssues : nat;
  futureFundRelated : nat
}.

Record UnbalancedBody : Type := mkUnbalancedBody {
  ub_tenantId : string;
  ub_tenantName : string;
  ub_analysisDate : string;
  criteria : UnbalancedCriteria;
  ub_summary : UnbalancedSummary;
  transactions : list UnbalancedTransaction
}.

Record UnbalancedRequest : Type := mkUnbalancedRequest {
  ur_tenantId : string;
  query_minimumAmount : option string;
  query_dateRange : option string
}.

Inductive UnbalancedResponse : Type :=
| FU200 (body : UnbalancedBody)
| FU404 (error : string)
| FU500 (error details : string).

(** [parseFloat(v)] for a query parameter that may be absent. *)
Definition parseFloatParam (v : option string) : num :=
  match v with
  | Some s => parseFloat s
  | None => NaN
  end.

(** The decimal text of an integer, as a template string writes it. *)
Definition showZ (z : Z) : string := NilZero.string_of_int (Z.to_int z).

(** [`Date >= DateTime(${d.getFullYear()},${d.getMonth() + 1},${d.getDate()})`] *)
Definition sinceClause (d : JsDate) : string :=
  "Date >= DateTime(" ++ showZ (fullYear d) ++ "," ++ showZ (monthIndex d + 1)
  ++ "," ++ showZ (dayOfMonth d) ++ ")".

(** The [switch (dateRange)] of [/api/find-unbalanced]. *)
Definition startDateOf (aenv : AnalysisEnv) (dateRange : string) : JsDate :=
  if String.eqb dateRange "3months" then threeMonthsAgo aenv
  else if String.eqb dateRange "1year" then oneYearAgo aenv
  else if String.eqb dateRange "all" then year2000 aenv
  else oneYearAgo aenv.

Definition findUnbalancedTry (aenv : AnalysisEnv) (req : UnbalancedRequest)
    : result UnbalancedResponse :=
  match getXeroToken (base aenv) (ur_tenantId req) with
  | None => Return (FU404 "Tenant not found or token expired")
  | Some tokenData =>
      _ <- setTokenSet (base aenv) tokenData ;;
      let minimumAmount :=
        orNumber (parseFloatParam (query_minimumAmount req)) (Fin 10000) in
      let dateRange :=
        match truthy (query_dateRange req) with
        | Some r => r
        | None => "1year"
        end in
      let startDate := startDateOf aenv dateRange in
      let whereClause := sinceClause startDate in
      journalResponse <- getManualJournals aenv (ur_tenantId req) whereClause ;;
      let journals :=
        match manualJournals journalResponse with
        | Some js => js
        | None => []
        end in
      let unbalancedTransactions :=
        sortBy byImbalance (mapNotNull (analyzeUnbalanced minimumAmount) journals) in
      Return (FU200
                (mkUnbalancedBody (ur_tenantId req) (td_tenantName tokenData)
                   (isoNow (base aenv))
                   (mkUnbalancedCriteria minimumAmount dateRange
                      (beforeT (isoString startDate)))
                   (mkUnbalancedSummary
                      (List.length journals)
                      (List.length (filter isUnbalanced unbalancedTransactions))
                      (List.length
                         (filter (fun t => largeAmount (flags t)) unbalancedTransactions))
                      (List.length (filter isCritical unbalancedTransactions))
                      (List.length
                         (filter (fun t => affectsFutureFund (flags t))
                            unbalancedTransactions)))
                   unbalancedTransactions))
  end.

(** [/api/find-unbalanced/:tenantId] *)
Definition findUnbalancedHandler (aenv : AnalysisEnv) (req : UnbalancedRequest)
    : UnbalancedResponse :=
  match findUnbalancedTry aenv req with
  | Return response => response
  | Throw message => FU500 "Failed to find unbalanced transactions" message
  end.


(** The positive amounts of the lines of a journal, and the magnitudes of
    the negative ones, in the order of the lines; a line without an amount
    gives none. *)
Definition positiveAmounts (amounts : list (option Q)) : list Q :=
  flat_map (fun a => match a with
                     | Some q => if Qlt_le_dec 0 q then [q] else []
                     | None => []
                     end) amounts.

Definition negativeMagnitudes (amounts : list (option Q)) : list Q :=
  flat_map (fun a => match a with
                     | Some q => if Qlt_le_dec q 0 then [Qabs q] else []
                     | None => []
                     end) amounts.

(** The larger of the total debits and credits of a journal reaches the
    minimum amount. *)
Definition reachesMinimum (minimumAmount : num) (journal : ManualJournal) : bool :=
  geb (mathMax (journalDebits (linesOf journal)) (journalCredits (linesOf journal)))
    minimumAmount.


(** [body.manualJournals || []] *)
Definition journalsOf (b : JournalsBody) : list ManualJournal :=
  match manualJournals b with
  | Some js => js
  | None => []
  end.

(** The magnitude of the imbalance of a listed transaction. *)
Definition imbalanceMagnitude (t : UnbalancedTransaction) : Q :=
  match imbalanceAmount t with
  | Fin q => Qabs q
  | _ => 0
  end.

(** A world for the analysis of the journals. *)
Module AnalysisDemo.

Definition line (n : string) (amount : Q) : JournalLine :=
  mkJournalLine (Some "200") (Some n) None (Some amount) None.

Definition journal (id day : string) (lines : list JournalLine) : ManualJournal :=
  mkManualJournal (Some id) None None (Some day) (Some "POSTED") None (Some lines).

Definition sale : ManualJournal :=
  journal "j-sale" "2024-01-10" [line "Cash" 50000; line "Sales" (-50000)].

Definition transfer : ManualJournal :=
  journal "j-fund" "2024-02-01" [line "Future Fund Reserve" 2500000].

Definition petty : ManualJournal :=
  journal "j-petty" "2024-02-03" [line "Petty Cash" 300; line "Bank" (-300)].

Definition lopsided : ManualJournal :=
  journal "j-lopsided" "2024-02-20" [line "Equipment" 150000; line "Bank" (-20000)].

Definition empty : ManualJournal :=
  mkManualJournal (Some "j-empty") None None None None None None.

Definition world : AnalysisEnv :=
  mkAnalysisEnv Demo.offline
    (fun _ _ => Return (mkJournalsBody (Some [sale; transfer; petty; lopsided; empty])))
    (mkJsDate 2023 11 1 "2023-12-01T09:30:00.000Z")
    (mkJsDate 2023 2 1 "2023-03-01T09:30:00.000Z")
    (mkJsDate 2000 0 1 "2000-01-01T00:00:00.000Z")
    (fun _ => "2023-03-02T09:30:00.000Z")
    (fun d => match d with
              | Some "2024-01-10" => Fin 10
              | Some "2024-02-01" => Fin 32
              | Some "2024-02-03" => Fin 34
              | Some "2024-02-20" => Fin 51
              | _ => NaN
              end).

End AnalysisDemo.


(** * Properties *)

(** ** Numbers and parsing *)

(** *** Rounding *)

Lemma rne_lower x : (Qfloor x <= rne x)%Z.
Proof. unfold rne. destruct (Qcompare _ _); [destruct (Z.even _)| |]; lia. Qed.

Lemma rne_upper x : (rne x <= Qfloor x + 1)%Z.
Proof. unfold rne. destruct (Qcompare _ _); [destruct (Z.even _)| |]; lia. Qed.

Lemma rne_Z n : rne (inject_Z n) = n.
Proof.
  unfold rne. rewrite Qfloor_Z.
  destruct (Qcompare_spec (inject_Z n - inject_Z n) (1 # 2)); [lra|reflexivity|lra].
Qed.

Lemma rne_mono x y : x <= y -> (rne x <= rne y)%Z.
Proof.
  intros Hxy. pose proof (Qfloor_resp_le _ _ Hxy) as Hf.
  destruct (Z.eq_dec (Qfloor x) (Qfloor y)) as [E|E].
  - unfold rne. rewrite <- E.
    destruct (Qcompare_spec (x - inject_Z (Qfloor x)) (1 # 2)) as [Hx|Hx|Hx];
      destruct (Qcompare_spec (y - inject_Z (Qfloor x)) (1 # 2)) as [Hy|Hy|Hy];
      try destruct (Z.even (Qfloor x)); try lia; lra.
  - pose proof (rne_upper x). pose proof (rne_lower y). lia.
Qed.

Lemma rne_comp x y : x == y -> rne x = rne y.
Proof.
  intros H. apply Z.le_antisymm; apply rne_mono; lra.
Qed.

Lemma rne_ge n x : inject_Z n <= x -> (n <= rne x)%Z.
Proof. intros H. rewrite <- (rne_Z n). now apply rne_mono. Qed.

Lemma rne_le n x : x <= inject_Z n -> (rne x <= n)%Z.
Proof. intros H. rewrite <- (rne_Z n). now apply rne_mono. Qed.

(** Powers of two. *)

Lemma pow2_pos e : 0 < 2 ^ e.
Proof. apply Qpower_0_lt. lra. Qed.

Lemma pow2_plus a b : 2 ^ (a + b) == 2 ^ a * 2 ^ b.
Proof. apply Qpower_plus. lra. Qed.

Lemma pow2_le a b : (a <= b)%Z -> 2 ^ a <= 2 ^ b.
Proof. intros H. apply Qpower_le_compat_l; [exact H|lra]. Qed.

Lemma pow2_lt a b : (a < b)%Z -> 2 ^ a < 2 ^ b.
Proof. intros H. apply Qpower_lt_compat_l; [exact H|lra]. Qed.

Lemma pow2_inject n : (0 <= n)%Z -> inject_Z (2 ^ n) == 2 ^ n.
Proof. intros H. now rewrite Zpower_Qpower. Qed.

Lemma pow2_succ a : 2 ^ (a + 1) == 2 * 2 ^ a.
Proof. rewrite pow2_plus. change (2 ^ 1) with ((2 * 1)%Q). lra. Qed.

Lemma lg_spec q : 0 < q -> 2 ^ lg q <= q /\ q < 2 ^ (lg q + 1).
Proof.
  intros Hq. destruct q as [n d]. unfold lg. cbn [Qnum Qden].
  assert (Hn : (0 < n)%Z) by (unfold Qlt in Hq; cbn in Hq; lia).
  set (a := Z.log2 n). set (b := Z.log2 (Z.pos d)).
  assert (Ha0 : (0 <= a)%Z) by apply Z.log2_nonneg.
  assert (Hb0 : (0 <= b)%Z) by apply Z.log2_nonneg.
  destruct (Z.log2_spec n Hn) as [Ha1 Ha2]. fold a in Ha1, Ha2.
  destruct (Z.log2_spec (Z.pos d) eq_refl) as [Hb1 Hb2]. fold b in Hb1, Hb2.
  assert (Hqd : (n # d) * inject_Z (Z.pos d) == inject_Z n).
  { unfold Qeq, Qmult, inject_Z. cbn. lia. }
  assert (HA1 : 2 ^ a <= inject_Z n)
    by (rewrite <- pow2_inject by lia; now rewrite <- Zle_Qle).
  assert (HA2 : inject_Z n < 2 ^ (a + 1))
    by (rewrite <- pow2_inject by lia; now rewrite <- Zlt_Qlt).
  assert (HB1 : 2 ^ b <= inject_Z (Z.pos d))
    by (rewrite <- pow2_inject by lia; now rewrite <- Zle_Qle).
  assert (HB2 : inject_Z (Z.pos d) < 2 ^ (b + 1))
    by (rewrite <- pow2_inject by lia; now rewrite <- Zlt_Qlt).
  pose proof (pow2_pos a). pose proof (pow2_pos b).
  pose proof (pow2_pos (a - b)). pose proof (pow2_pos (a - b - 1)).
  assert (E1 : 2 ^ a == 2 ^ (a - b) * 2 ^ b)
    by (rewrite <- pow2_plus; now replace (a - b + b)%Z with a by lia).
  assert (E2 : 2 ^ (a - b) == 2 * 2 ^ (a - b - 1))
    by (rewrite <- pow2_succ; now replace (a - b - 1 + 1)%Z with (a - b)%Z by lia).
  rewrite pow2_succ in HA2, HB2.
  set (D := inject_Z (Z.pos d)) in *. set (N := inject_Z n) in *.
  set (P := 2 ^ (a - b)) in *. set (P' := 2 ^ (a - b - 1)) in *.
  set (A := 2 ^ a) in *. set (B := 2 ^ b) in *. set (x := n # d) in *.
  destruct (Qle_bool P x) eqn:Hle.
  - apply Qle_bool_iff in Hle. split; [exact Hle|].
    rewrite pow2_succ. fold P.
    destruct (Qlt_le_dec x (2 * P)) as [|Hge]; [assumption|exfalso].
    assert (2 * P * B <= x * D) by nra. nra.
  - assert (Hlt : x < P).
    { destruct (Qlt_le_dec x P) as [|Hge]; [assumption|].
      apply Qle_bool_iff in Hge. congruence. }
    replace (a - b - 1 + 1)%Z with (a - b)%Z by lia. fold P P'.
    split; [|exact Hlt].
    destruct (Qlt_le_dec x P') as [Hlt'|]; [exfalso|assumption].
    assert (x * D < P' * (2 * B)) by nra. nra.
Qed.

Lemma lg_unique q k : 0 < q -> 2 ^ k <= q -> q < 2 ^ (k + 1) -> lg q = k.
Proof.
  intros Hq H1 H2. destruct (lg_spec q Hq) as [G1 G2].
  destruct (Z.lt_trichotomy (lg q) k) as [H|[H|H]]; [exfalso|exact H|exfalso].
  - assert (2 ^ (lg q + 1) <= 2 ^ k) by (apply pow2_le; lia). lra.
  - assert (2 ^ (k + 1) <= 2 ^ lg q) by (apply pow2_le; lia). lra.
Qed.

(** The rounding of a positive rational. *)

Lemma scaled_bounds q :
  0 < q -> 2 ^ 52 <= q / 2 ^ (lg q - 52) /\ q / 2 ^ (lg q - 52) < 2 ^ 53.
Proof.
  intros Hq. destruct (lg_spec q Hq) as [H1 H2].
  pose proof (pow2_pos (lg q - 52)) as He.
  split.
  - apply Qle_shift_div_l; [exact He|].
    rewrite <- pow2_plus. now replace (52 + (lg q - 52))%Z with (lg q) by lia.
  - apply Qlt_shift_div_r; [exact He|].
    rewrite <- pow2_plus. now replace (53 + (lg q - 52))%Z with (lg q + 1)%Z by lia.
Qed.

Lemma significand_bounds q :
  0 < q -> (2 ^ 52 <= rne (q / 2 ^ (lg q - 52)) <= 2 ^ 53)%Z.
Proof.
  intros Hq. destruct (scaled_bounds q Hq) as [H1 H2]. split.
  - apply rne_ge. now rewrite pow2_inject by lia.
  - apply rne_le. rewrite pow2_inject by lia. lra.
Qed.

Lemma roundPos_bounds q :
  0 < q -> 2 ^ lg q <= roundPos q /\ roundPos q <= 2 ^ (lg q + 1).
Proof.
  intros Hq. destruct (significand_bounds q Hq) as [H1 H2].
  unfold roundPos. set (m := rne _) in *. set (e := (lg q - 52)%Z).
  pose proof (pow2_pos e) as He.
  rewrite Zle_Qle in H1, H2. rewrite pow2_inject in H1, H2 by lia.
  replace (lg q) with (52 + e)%Z at 1 by (unfold e; lia).
  replace (lg q + 1)%Z with (53 + e)%Z by (unfold e; lia).
  rewrite !pow2_plus. split; nra.
Qed.

Lemma roundPos_pos q : 0 < q -> 0 < roundPos q.
Proof.
  intros Hq. destruct (roundPos_bounds q Hq) as [H _].
  pose proof (pow2_pos (lg q)). lra.
Qed.

Lemma lg_mono x y : 0 < x -> x <= y -> (lg x <= lg y)%Z.
Proof.
  intros Hx Hxy. destruct (lg_spec x Hx) as [X1 X2].
  destruct (lg_spec y) as [Y1 Y2]; [lra|].
  destruct (Z_le_gt_dec (lg x) (lg y)) as [|H]; [assumption|exfalso].
  assert (2 ^ (lg y + 1) <= 2 ^ lg x) by (apply pow2_le; lia). lra.
Qed.

Lemma roundPos_mono x y : 0 < x -> x <= y -> roundPos x <= roundPos y.
Proof.
  intros Hx Hxy. assert (Hy : 0 < y) by lra.
  pose proof (lg_mono x y Hx Hxy) as Hl.
  destruct (Z.eq_dec (lg x) (lg y)) as [E|E].
  - unfold roundPos. rewrite E. set (e := (lg y - 52)%Z).
    pose proof (pow2_pos e) as He.
    assert (Hs : x / 2 ^ e <= y / 2 ^ e).
    { unfold Qdiv. apply Qmult_le_compat_r; [exact Hxy|].
      apply Qlt_le_weak, Qinv_lt_0_compat, He. }
    apply rne_mono in Hs. rewrite Zle_Qle in Hs. nra.
  - destruct (roundPos_bounds x Hx) as [_ X]. destruct (roundPos_bounds y Hy) as [Y _].
    assert (2 ^ (lg x + 1) <= 2 ^ lg y) by (apply pow2_le; lia). lra.
Qed.

Lemma roundPos_comp x y : 0 < x -> x == y -> roundPos x == roundPos y.
Proof.
  intros Hx E. apply Qle_antisym; apply roundPos_mono; lra.
Qed.

Lemma roundPos_idem q : 0 < q -> roundPos (roundPos q) == roundPos q.
Proof.
  intros Hq. destruct (significand_bounds q Hq) as [M1 M2].
  destruct (roundPos_bounds q Hq) as [B1 B2].
  pose proof (roundPos_pos q Hq) as Hv.
  set (e := (lg q - 52)%Z) in *.
  pose proof (pow2_pos e) as He.
  assert (Hne : ~ 2 ^ e == 0) by lra.
  assert (Hdef : roundPos q = inject_Z (rne (q / 2 ^ e)) * 2 ^ e) by reflexivity.
  set (m := rne (q / 2 ^ e)) in *.
  destruct (Z.eq_dec m (2 ^ 53)) as [Em|Em].
  - assert (Hval : roundPos q == 2 ^ (lg q + 1)).
    { rewrite Hdef, Em, pow2_inject by lia. rewrite <- pow2_plus.
      now replace (53 + e)%Z with (lg q + 1)%Z by (unfold e; lia). }
    assert (Hlg : lg (roundPos q) = (lg q + 1)%Z).
    { apply lg_unique; [exact Hv|lra|].
      rewrite Hval. apply pow2_lt. lia. }
    unfold roundPos at 1. rewrite Hlg.
    replace (lg q + 1 - 52)%Z with (e + 1)%Z by (unfold e; lia).
    assert (Hs : roundPos q / 2 ^ (e + 1) == inject_Z (2 ^ 52)).
    { rewrite Hval, pow2_inject by lia.
      replace (lg q + 1)%Z with (52 + (e + 1))%Z by (unfold e; lia).
      rewrite pow2_plus. apply Qdiv_mult_l. pose proof (pow2_pos (e + 1)). lra. }
    rewrite (rne_comp _ _ Hs), rne_Z, Hval, pow2_inject by lia.
    rewrite <- pow2_plus. now replace (52 + (e + 1))%Z with (lg q + 1)%Z by (unfold e; lia).
  - assert (Hm : (m <= 2 ^ 53 - 1)%Z) by lia.
    rewrite Zle_Qle in Hm, M1.
    assert (H53 : inject_Z (2 ^ 53 - 1) == 2 ^ 53 - 1).
    { rewrite <- pow2_inject by lia. unfold Zminus. rewrite inject_Z_plus.
      change (inject_Z (- (1))) with (- (1))%Q. lra. }
    rewrite H53 in Hm. rewrite pow2_inject in M1 by lia.
    assert (Hlg : lg (roundPos q) = lg q).
    { apply lg_unique; [exact Hv|exact B1|].
      rewrite Hdef. replace (lg q + 1)%Z with (53 + e)%Z by (unfold e; lia).
      rewrite pow2_plus. nra. }
    unfold roundPos at 1. rewrite Hlg. fold e.
    assert (Hs : roundPos q / 2 ^ e == inject_Z m).
    { rewrite Hdef. now apply Qdiv_mult_l. }
    rewrite (rne_comp _ _ Hs), rne_Z. now rewrite Hdef.
Qed.

(** The rounding of a rational. *)

Lemma round53_zero q : q == 0 -> round53 q = 0.
Proof.
  intros H. unfold round53. destruct (Qcompare_spec q 0); [reflexivity|lra|lra].
Qed.

Lemma round53_positive q : 0 < q -> round53 q = Qred (roundPos q).
Proof.
  intros H. unfold round53. destruct (Qcompare_spec q 0); [lra|lra|reflexivity].
Qed.

Lemma round53_negative q : q < 0 -> round53 q = Qred (- roundPos (- q)).
Proof.
  intros H. unfold round53. destruct (Qcompare_spec q 0); [lra|reflexivity|lra].
Qed.

Lemma round53_comp x y : x == y -> round53 x = round53 y.
Proof.
  intros E. destruct (Q_dec x 0) as [[H|H]|H].
  - rewrite (round53_negative x H), (round53_negative y) by lra.
    apply Qred_complete. rewrite (roundPos_comp (- x) (- y)); lra.
  - rewrite (round53_positive x H), (round53_positive y) by lra.
    apply Qred_complete, roundPos_comp; lra.
  - rewrite (round53_zero x H), (round53_zero y); [reflexivity|lra].
Qed.

Lemma round53_pos q : 0 < q -> 0 < round53 q.
Proof.
  intros H. rewrite (round53_positive q H), Qred_correct. now apply roundPos_pos.
Qed.

Lemma round53_opp q : round53 (- q) = - round53 q.
Proof.
  destruct (Q_dec q 0) as [[H|H]|H].
  - rewrite (round53_negative q H), (round53_positive (- q)) by lra.
    rewrite Qred_opp. destruct (Qred (roundPos (- q))) as [n d].
    unfold Qopp. cbn. now rewrite Z.opp_involutive.
  - rewrite (round53_positive q H), (round53_negative (- q)) by lra.
    rewrite <- Qred_opp. apply Qred_complete.
    rewrite (roundPos_comp (- - q) q); lra.
  - rewrite (round53_zero q H), (round53_zero (- q)); [reflexivity|lra].
Qed.

Lemma round53_neg q : q < 0 -> round53 q < 0.
Proof.
  intros H. pose proof (round53_pos (- q)) as G. rewrite round53_opp in G. lra.
Qed.

Lemma round53_mono x y : x <= y -> round53 x <= round53 y.
Proof.
  intros Hxy. destruct (Q_dec x 0) as [[Hx|Hx]|Hx].
  - destruct (Q_dec y 0) as [[Hy|Hy]|Hy].
    + rewrite (round53_negative x Hx), (round53_negative y Hy), !Qred_correct.
      assert (roundPos (- y) <= roundPos (- x)) by (apply roundPos_mono; lra). lra.
    + pose proof (round53_neg x Hx). pose proof (round53_pos y Hy). lra.
    + pose proof (round53_neg x Hx). rewrite (round53_zero y Hy). lra.
  - rewrite (round53_positive x Hx), (round53_positive y), !Qred_correct by lra.
    now apply roundPos_mono.
  - rewrite (round53_zero x Hx).
    destruct (Qle_lt_or_eq 0 y) as [Hy|Hy]; [lra| |].
    + pose proof (round53_pos y Hy). lra.
    + rewrite (round53_zero y); lra.
Qed.

Lemma round53_idem q : round53 (round53 q) = round53 q.
Proof.
  assert (Hpos : forall x, 0 < x -> round53 (round53 x) = round53 x).
  { intros x Hx. pose proof (round53_pos x Hx) as Hv.
    rewrite (round53_positive _ Hv). rewrite (round53_positive x Hx) at 2.
    apply Qred_complete.
    rewrite (roundPos_comp (round53 x) (roundPos x) Hv).
    - now apply roundPos_idem.
    - rewrite (round53_positive x Hx). apply Qred_correct. }
  destruct (Q_dec q 0) as [[H|H]|H].
  - rewrite (round53_comp q (- - q)) by lra.
    rewrite (round53_opp (- q)), round53_opp. f_equal. apply Hpos. lra.
  - now apply Hpos.
  - rewrite (round53_zero q H). reflexivity.
Qed.

Lemma round53_pos_iff q : 0 < round53 q <-> 0 < q.
Proof.
  split; [|apply round53_pos]. intros H.
  destruct (Q_dec q 0) as [[G|G]|G]; [|exact G|].
  - pose proof (round53_neg q G). lra.
  - rewrite (round53_zero q G) in H. lra.
Qed.

Lemma round53_neg_iff q : round53 q < 0 <-> q < 0.
Proof.
  split; [|apply round53_neg]. intros H.
  destruct (Q_dec q 0) as [[G|G]|G]; [exact G| |].
  - pose proof (round53_pos q G). lra.
  - rewrite (round53_zero q G) in H. lra.
Qed.

Lemma round53_abs q : Qabs (round53 q) == round53 (Qabs q).
Proof.
  destruct (Qlt_le_dec q 0) as [H|H].
  - pose proof (round53_neg q H).
    rewrite (Qabs_neg (round53 q)) by lra.
    rewrite (round53_comp (Qabs q) (- q)) by (apply Qabs_neg; lra).
    now rewrite round53_opp.
  - assert (0 <= round53 q).
    { rewrite <- (round53_zero 0) by reflexivity. now apply round53_mono. }
    rewrite (Qabs_pos (round53 q)) by assumption.
    now rewrite (round53_comp (Qabs q) q) by (now apply Qabs_pos).
Qed.

Lemma representable_round q : representable (round53 q).
Proof. unfold representable. now rewrite round53_idem. Qed.

Lemma representable_comp x y : x == y -> representable x -> representable y.
Proof.
  unfold representable. intros E H. now rewrite <- (round53_comp x y E), H.
Qed.

Lemma representable_opp x : representable x -> representable (- x).
Proof. unfold representable. intros H. now rewrite round53_opp, H. Qed.

Lemma representable_abs x : representable x -> representable (Qabs x).
Proof.
  unfold representable. intros H. now rewrite <- round53_abs, H.
Qed.

Lemma round53_le x y : representable y -> x <= y -> round53 x <= y.
Proof.
  intros Hy H. unfold representable in Hy. pose proof (round53_mono x y H). lra.
Qed.

Lemma round53_ge x y : representable x -> x <= y -> x <= round53 y.
Proof.
  intros Hx H. unfold representable in Hx. pose proof (round53_mono x y H). lra.
Qed.

(** Dyadic numbers with a significand of at most 53 bits. *)

Lemma roundPos_dyadic m e :
  (0 < m <= 2 ^ 53)%Z -> roundPos (inject_Z m * 2 ^ e) == inject_Z m * 2 ^ e.
Proof.
  intros [Hm0 Hm].
  set (k := Z.log2 m).
  assert (Hk0 : (0 <= k)%Z) by apply Z.log2_nonneg.
  destruct (Z.log2_spec m Hm0) as [K1 K2]. fold k in K1, K2.
  pose proof (pow2_pos e) as He.
  rewrite Zle_Qle, pow2_inject in K1 by lia.
  rewrite Zlt_Qlt, pow2_inject in K2 by lia.
  replace (Z.succ k) with (k + 1)%Z in K2 by lia.
  set (v := inject_Z m * 2 ^ e).
  assert (Hv : 0 < v).
  { unfold v. apply Qmult_lt_0_compat; [|exact He].
    rewrite Zlt_Qlt in Hm0. exact Hm0. }
  assert (Hlg : lg v = (k + e)%Z).
  { apply lg_unique; [exact Hv| |].
    - unfold v. rewrite pow2_plus. nra.
    - unfold v. replace (k + e + 1)%Z with ((k + 1) + e)%Z by lia.
      rewrite pow2_plus. nra. }
  unfold roundPos. rewrite Hlg.
  assert (Hk : (k <= 53)%Z).
  { destruct (Z_le_gt_dec k 53) as [|G]; [assumption|exfalso].
    assert (2 ^ 54 <= 2 ^ k) by (apply pow2_le; lia).
    rewrite Zle_Qle, pow2_inject in Hm by lia.
    assert (2 ^ 53 < 2 ^ 54) by (apply pow2_lt; lia). lra. }
  destruct (Z.eq_dec k 53) as [E|E].
  - assert (Em : inject_Z m == 2 ^ 53).
    { rewrite Zle_Qle, pow2_inject in Hm by lia. rewrite E in K1. lra. }
    rewrite E. replace (53 + e - 52)%Z with (e + 1)%Z by lia.
    assert (Hs : v / 2 ^ (e + 1) == inject_Z (2 ^ 52)).
    { unfold v. rewrite Em, pow2_inject by lia.
      rewrite <- pow2_plus. replace (53 + e)%Z with (52 + (e + 1))%Z by lia.
      rewrite pow2_plus. apply Qdiv_mult_l. pose proof (pow2_pos (e + 1)). lra. }
    rewrite (rne_comp _ _ Hs), rne_Z, pow2_inject by lia.
    unfold v. rewrite Em, <- !pow2_plus. now replace (52 + (e + 1))%Z with (53 + e)%Z by lia.
  - assert (Hs : v / 2 ^ (k + e - 52) == inject_Z (m * 2 ^ (52 - k))).
    { unfold v. rewrite inject_Z_mult, pow2_inject by lia.
      replace e with ((52 - k) + (k + e - 52))%Z at 1 by lia.
      rewrite pow2_plus, Qmult_assoc. apply Qdiv_mult_l.
      pose proof (pow2_pos (k + e - 52)). lra. }
    rewrite (rne_comp _ _ Hs), rne_Z, inject_Z_mult, pow2_inject by lia.
    unfold v. rewrite <- Qmult_assoc, <- pow2_plus.
    now replace (52 - k + (k + e - 52))%Z with e by lia.
Qed.

Lemma representable_dyadic m e :
  (Z.abs m <= 2 ^ 53)%Z -> representable (inject_Z m * 2 ^ e).
Proof.
  intros Hm. unfold representable. pose proof (pow2_pos e) as He.
  destruct (Z.lt_trichotomy m 0) as [H|[H|H]].
  - assert (Hneg : inject_Z m * 2 ^ e < 0).
    { rewrite Zlt_Qlt in H. change (inject_Z 0) with 0 in H. nra. }
    rewrite (round53_negative _ Hneg), Qred_correct.
    rewrite (roundPos_comp (- (inject_Z m * 2 ^ e)) (inject_Z (- m) * 2 ^ e)).
    + rewrite roundPos_dyadic by lia. rewrite inject_Z_opp. lra.
    + lra.
    + rewrite inject_Z_opp. lra.
  - subst m. rewrite (round53_zero (inject_Z 0 * 2 ^ e)).
    + change (inject_Z 0) with 0. lra.
    + change (inject_Z 0) with 0. lra.
  - assert (Hpos : 0 < inject_Z m * 2 ^ e).
    { rewrite Zlt_Qlt in H. change (inject_Z 0) with 0 in H. nra. }
    rewrite (round53_positive _ Hpos), Qred_correct.
    apply roundPos_dyadic. lia.
Qed.

Lemma round53_reduced q : Qred (round53 q) = round53 q.
Proof.
  destruct (Q_dec q 0) as [[H|H]|H].
  - rewrite (round53_negative q H). apply Qred_complete, Qred_correct.
  - rewrite (round53_positive q H). apply Qred_complete, Qred_correct.
  - rewrite (round53_zero q H). reflexivity.
Qed.

Lemma representable_reduced x : representable x -> round53 (Qred x) = Qred x.
Proof.
  intros H. rewrite (round53_comp (Qred x) x) by apply Qred_correct.
  rewrite <- round53_reduced. now apply Qred_complete.
Qed.

Lemma scaled_significand q a b :
  (0 <= a)%Z -> Qabs q < 2 ^ (a + b) -> (Z.abs (rne (q / 2 ^ b)) <= 2 ^ a)%Z.
Proof.
  intros Ha H. apply Qabs_Qlt_condition in H as [H1 H2].
  rewrite pow2_plus in H1, H2. pose proof (pow2_pos b) as Hb.
  pose proof (pow2_pos a) as Hpa.
  assert (U : q / 2 ^ b <= inject_Z (2 ^ a)).
  { rewrite pow2_inject by lia. apply Qlt_le_weak, Qlt_shift_div_r; [exact Hb|lra]. }
  assert (L : inject_Z (- 2 ^ a) <= q / 2 ^ b).
  { rewrite inject_Z_opp, pow2_inject by lia.
    apply Qlt_le_weak, Qlt_shift_div_l; [exact Hb|lra]. }
  apply rne_le in U. apply rne_ge in L. lia.
Qed.

Lemma canonical_round64 q : canonical (round64 q).
Proof.
  unfold round64. destruct (Qle_bool (2 ^ (-1022)) (Qabs q)) eqn:Hn.
  - cbv zeta. destruct (Qle_bool (2 ^ 1024) _); [now destruct (Qle_bool 0 q)|].
    apply round53_idem.
  - cbn [canonical]. apply representable_reduced, representable_dyadic.
    assert (H : Qabs q < 2 ^ (52 + -1074)).
    { destruct (Qlt_le_dec (Qabs q) (2 ^ (52 + -1074))) as [|Hge]; [assumption|].
      apply Qle_bool_iff in Hge. change (52 + -1074)%Z with (-1022)%Z in Hge.
      congruence. }
    apply (scaled_significand q 52 (-1074)) in H; lia.
Qed.

Example round53_tenth : round53 (1 # 10) = 3602879701896397 # 36028797018963968.
Proof. vm_compute. reflexivity. Qed.

Example round53_sum :
  round53 (round53 (round53 (1 # 10) + round53 (2 # 10)) + round53 (3 # 10))
  = 1351079888211149 # 2251799813685248.
Proof. vm_compute. reflexivity. Qed.

(** *** Arithmetic *)

Lemma Qltb_lt x y : Qltb x y = true <-> x < y.
Proof.
  unfold Qltb. rewrite Qlt_alt. destruct (x ?= y); split; congruence.
Qed.

Lemma representable_zero : representable 0.
Proof. reflexivity. Qed.

Lemma canonical_parseFloat s : canonical (parseFloat s).
Proof.
  unfold parseFloat.
  destruct (signOf (trimStart s)) as [sg t].
  destruct (String.prefix "Infinity" t); [now destruct sg|].
  destruct (digits 0 0 t) as [[ip ilen] t1].
  destruct (match t1 with
            | String "." r =>
                let '(f, fl, r') := digits 0 0 r in
                match ilen, fl with
                | O, O => (0%Z, O, t1)
                | _, _ => (f, fl, r')
                end
            | _ => (0%Z, O, t1)
            end) as [[fp flen] t2].
  destruct ilen, flen; cbn [canonical]; auto using canonical_round64.
Qed.

(** The literal [0.01] is the binary64 number just above 1/100: a number
    of the program is below the one exactly when it is below the other. *)
Lemma below_tolerance v :
  representable v -> v < round53 (1 # 100) <-> v < 1 # 100.
Proof.
  intros Hv. split; intros H.
  - destruct (Qlt_le_dec v (1 # 100)) as [|Hge]; [assumption|exfalso].
    pose proof (round53_le (1 # 100) v Hv Hge). lra.
  - assert (1 # 100 < round53 (1 # 100)) by (vm_compute; reflexivity). lra.
Qed.

Example parseFloat_plain : parseFloat "1234.50" = Fin (2469 # 2).
Proof. vm_compute. reflexivity. Qed.

Example parseFloat_comma : parseFloat "1,234.56" = Fin 1.
Proof. vm_compute. reflexivity. Qed.

Example parseFloat_exp : parseFloat " -2.5e3abc" = Fin (-2500).
Proof. vm_compute. reflexivity. Qed.

Example parseFloat_rounds :
  parseFloat "0.1" = Fin (3602879701896397 # 36028797018963968).
Proof. vm_compute. reflexivity. Qed.

Example parseFloat_overflows : parseFloat "1e400" = PInf.
Proof. vm_compute. reflexivity. Qed.

Example parseFloat_underflows : parseFloat "-1e-400" = Fin 0.
Proof. vm_compute. reflexivity. Qed.

Example parseFloat_largest :
  parseFloat "1.7976931348623157e308" = Fin (inject_Z ((2 ^ 53 - 1) * 2 ^ 971)).
Proof. vm_compute. reflexivity. Qed.

Example parseFloat_smallest : parseFloat "5e-324" = Fin (Qred (2 ^ (-1074))).
Proof. vm_compute. reflexivity. Qed.

Example parseFloat_text : parseFloat "n/a" = NaN.
Proof. vm_compute. reflexivity. Qed.

Example parseFloat_dot : parseFloat "." = NaN.
Proof. vm_compute. reflexivity. Qed.

Example parseFloat_zero : eqb (parseFloat "0.00") zero = true.
Proof. vm_compute. reflexivity. Qed.

(** ** Sorting *)

Section SortFacts.
Context {A : Type}.
Variable cmp : A -> A -> num.

Lemma insertSorted_perm x l : Permutation (x :: l) (insertSorted cmp x l).
Proof.
    induction l as [|y r IH]; cbn [insertSorted]; [reflexivity|].
    destruct (gtb (cmp x y) zero); [|reflexivity].
    rewrite perm_swap. now constructor.
Qed.

Lemma sortBy_perm l : Permutation l (sortBy cmp l).
Proof.
    induction l as [|x r IH]; simpl; [constructor|].
    rewrite <- insertSorted_perm. now constructor.
Qed.

Lemma sortBy_length l : List.length (sortBy cmp l) = List.length l.
Proof. symmetry. apply Permutation_length, sortBy_perm. Qed.

Lemma sortBy_In x l : In x (sortBy cmp l) <-> In x l.
Proof.
    split; apply Permutation_in; [symmetry|]; apply sortBy_perm.
Qed.

Lemma sortBy_nil l : sortBy cmp l = [] -> l = [].
Proof.
    intros H. apply length_zero_iff_nil.
    rewrite <- sortBy_length, H. reflexivity.
Qed.
End SortFacts.


(** ** The balance check *)

(** The test [Math.abs(a - b) < 0.01]: the difference is the rounded one,
    and the literal may be read as the rational 1/100. *)
Lemma within_tolerance a b :
  ltb (abs (sub a b)) tolerance = true <->
  exists x y, a = Fin x /\ b = Fin y /\ Qabs (round53 (x - y)) < 1 # 100.
Proof.
  assert (Hlt : forall x y,
             Qltb (Qabs (round53 (x - y))) (round53 (1 # 100)) = true <->
             Qabs (round53 (x - y)) < 1 # 100).
  { intros x y. rewrite Qltb_lt.
    apply below_tolerance, representable_abs, representable_round. }
  destruct a as [x| | |], b as [y| | |];
    cbn [sub add neg abs ltb tolerance literal]; split;
    try discriminate;
    try (intros (x' & y' & Ha & Hb & _); discriminate).
  - intros H. apply Hlt in H. exists x, y. now repeat split.
  - intros (x' & y' & Ha & Hb & H). inversion Ha; inversion Hb; subst.
    now apply Hlt.
Qed.

Lemma within_tolerance3 a l e :
  ltb (abs (sub a (add l e))) tolerance = true <->
  exists x y z, a = Fin x /\ l = Fin y /\ e = Fin z /\
                Qabs (round53 (x - round53 (y + z))) < 1 # 100.
Proof.
  rewrite within_tolerance. split.
  - intros (x & s & Ha & Hs & H).
    destruct l as [y| | |], e as [z| | |]; cbn [add] in Hs; try discriminate.
    inversion Hs; subst. exists x, y, z. now repeat split.
  - intros (x & y & z & -> & -> & -> & H). exists x, (round53 (y + z)).
    now repeat split.
Qed.

(** ** What the trial-balance handler answers *)

Lemma trialBalanceHandler_200 env req body :
  trialBalanceHandler env req = TB200 body ->
  exists tokenData bs pl,
    let reportDate := reportDateOf env (query_date req) in
    let st := classifyReports (firstReportRows bs) (firstReportRows pl) in
    getXeroToken env (params_tenantId req) = Some tokenData /\
    getReportBalanceSheet env (params_tenantId req) reportDate = Return bs /\
    getReportProfitAndLoss env (params_tenantId req) reportDate reportDate = Return pl /\
    body = mkTrialBalanceBody (params_tenantId req) (td_tenantName tokenData)
             (sortCategories env (trialBalance st))
             (balanceCheckOf (totals (trialBalance st)))
             (isoNow env) reportDate (processedAccounts st)
             "Balance Sheet + P&L Reports".
Proof.
  unfold trialBalanceHandler, trialBalanceTry, reportDateOf.
  destruct (getXeroToken env (params_tenantId req)) as [tokenData|]; [|discriminate].
  destruct (setTokenSet env tokenData) as [[]|]; simpl; [|discriminate].
  destruct (getReportBalanceSheet env _ _) as [bs|] eqn:Hbs; simpl; [|discriminate].
  destruct (getReportProfitAndLoss env _ _ _) as [pl|] eqn:Hpl; simpl; [|discriminate].
  intros H. injection H as <-. exists tokenData, bs, pl. simpl. auto.
Qed.


(** C1: the balance check of every trial balance the handler returns is
    computed from the returned totals, in the arithmetic of the program,
    where every sum and difference is rounded to binary64:
    [debitsEqualCredits] holds exactly when both totals are numbers whose
    difference is less than 0.01 in magnitude, [difference] is that
    difference, [balanced] holds exactly when the assets and the sum of
    liabilities and equity are numbers whose difference is less than 0.01
    in magnitude, and the two sides of the accounting equation are the
    assets and that sum.  (On the totals 750504.13, 255069.03 and
    495435.09 the rounded difference is just above 0.01 and the exact one
    just below: see [balance_check_rounds].) *)
Theorem balance_check_invariant env req body :
  trialBalanceHandler env req = TB200 body ->
  let T := totals (body_trialBalance body) in
  let check := body_balanceCheck body in
  (debitsEqualCredits check = true <->
     exists d c, totalDebits T = Fin d /\ totalCredits T = Fin c /\
                 Qabs (round53 (d - c)) < 1 # 100) /\
  difference check = sub (totalDebits T) (totalCredits T) /\
  (forall d c, totalDebits T = Fin d -> totalCredits T = Fin c ->
     difference check = Fin (round53 (d - c))) /\
  (balanced (accountingEquation check) = true <->
     exists a l e, totalAssets T = Fin a /\ totalLiabilities T = Fin l /\
                   totalEquity T = Fin e /\
                   Qabs (round53 (a - round53 (l + e))) < 1 # 100) /\
  eq_assets (accountingEquation check) = totalAssets T /\
  eq_liabilitiesAndEquity (accountingEquation check)
    = add (totalLiabilities T) (totalEquity T) /\
  (forall l e, totalLiabilities T = Fin l -> totalEquity T = Fin e ->
     eq_liabilitiesAndEquity (accountingEquation check) = Fin (round53 (l + e))).
Proof.
  intros H. apply trialBalanceHandler_200 in H.
  destruct H as (tokenData & bs & pl & _ & _ & _ & ->).
  cbn [body_trialBalance body_balanceCheck].
  change (totals (sortCategories env ?t)) with (totals t).
  set (T := totals _). unfold balanceCheckOf.
  cbn [debitsEqualCredits difference accountingEquation balanced eq_assets
       eq_liabilitiesAndEquity].
  split; [apply within_tolerance|]. split; [reflexivity|].
  split; [|split; [apply within_tolerance3|]].
  - intros d c -> ->. reflexivity.
  - split; [reflexivity|]. split; [reflexivity|]. intros l e -> ->. reflexivity.
Qed.

Lemma balance_check_invariant_witness :
  exists body,
    trialBalanceHandler Demo.offline
      (mkTrialBalanceRequest "t-alpha" (Some "2024-01-31")) = TB200 body /\
    difference (body_balanceCheck body)
      = sub (totalDebits (totals (body_trialBalance body)))
            (totalCredits (totals (body_trialBalance body))).
Proof.
  eexists. split; [vm_compute; reflexivity|].
  destruct (balance_check_invariant Demo.offline
              (mkTrialBalanceRequest "t-alpha" (Some "2024-01-31")) _ eq_refl)
    as (_ & H & _).
  exact H.
Defined.

(** The rounding shows in the check.  With assets of 750504.13,
    liabilities of 255069.03 and equity of 495435.09, the sum of
    liabilities and equity is rounded, the rounded difference is
    0.010000000009313226 and [balanced] is false, although the exact
    difference of the three totals is below 0.01. *)
Example balance_check_rounds :
  exists body a l e,
    trialBalanceHandler
      (RoundingDemo.offline [RoundingDemo.cent; RoundingDemo.step] 100)
      (mkTrialBalanceRequest "t-cent" None) = TB200 body /\
    totalAssets (totals (body_trialBalance body)) = Fin a /\
    totalLiabilities (totals (body_trialBalance body)) = Fin l /\
    totalEquity (totals (body_trialBalance body)) = Fin e /\
    balanced (accountingEquation (body_balanceCheck body)) = false /\
    round53 (a - round53 (l + e)) == 42949673 # 4294967296 /\
    Qabs (a - (l + e)) < 1 # 100.
Proof.
  do 4 eexists. split; [vm_compute; reflexivity|].
  repeat (split; [vm_compute; reflexivity|]). vm_compute. reflexivity.
Qed.

(** ** The two row loops *)

Lemma select_app {A : Type} c (l1 l2 : list (Category * A)) :
  select c (l1 ++ l2) = select c l1 ++ select c l2.
Proof. unfold select. now rewrite filter_app, map_app. Qed.

Ltac nothing_selected := cbn [select filter map]; now rewrite ?app_nil_r.

Lemma bucket_pushAccount c c' info amount t :
  bucket c (pushAccount c' info amount t) = bucket c t ++ select c [(c', info)].
Proof. destruct c, c'; simpl; auto using app_nil_r. Qed.

Lemma bucket_addDebitCredit c info t :
  bucket c (addDebitCredit info t) = bucket c t.
Proof. now destruct c. Qed.

Lemma processRow_bucket classify ttl st row c :
  bucket c (trialBalance (processRow classify ttl st row))
  = bucket c (trialBalance st)
    ++ select c (if isDataRow row then rowRecord classify (ttl, row) else []).
Proof.
  unfold processRow, isDataRow, rowRecord, keptRow, rowName, rowAmount, rowCells.
  cbn [snd fst].
  destruct (cells row) as [cs|]; [|nothing_selected].
  destruct (isRow (rowType row) && (2 <=? List.length cs)%nat);
    [|nothing_selected].
  destruct (includes (toLowerCase (cellName cs)) "total" || eqb (cellAmount cs) zero);
    cbn [negb]; [nothing_selected|].
  destruct (classify (toLowerCase ttl)) as [c'|]; cbn [trialBalance].
  - now rewrite bucket_addDebitCredit, bucket_pushAccount.
  - rewrite bucket_addDebitCredit. nothing_selected.
Qed.

Lemma processRows_bucket classify ttl rs st c :
  bucket c (trialBalance (fold_left (processRow classify ttl) rs st))
  = bucket c (trialBalance st)
    ++ select c (flat_map (rowRecord classify) (map (pair ttl) (filter isDataRow rs))).
Proof.
  revert st. induction rs as [|row rs IH]; intros st; simpl.
  - nothing_selected.
  - rewrite IH, processRow_bucket, <- app_assoc. f_equal.
    destruct (isDataRow row); simpl; [|reflexivity].
    now rewrite select_app.
Qed.

Lemma processSection_bucket classify st s c :
  bucket c (trialBalance (processSection classify st s))
  = bucket c (trialBalance st)
    ++ select c (flat_map (rowRecord classify) (dataRowsOfSection s)).
Proof.
  unfold processSection, dataRowsOfSection.
  destruct (rows s) as [rs|]; [|nothing_selected].
  destruct (truthy (title s)) as [ttl|]; [|nothing_selected].
  destruct (isSection (sectionType s)); [|nothing_selected].
  apply processRows_bucket.
Qed.

Lemma processReport_bucket classify sections st c :
  bucket c (trialBalance (processReport classify st sections))
  = bucket c (trialBalance st) ++ select c (records classify sections).
Proof.
  unfold processReport, records, dataRows.
  revert st. induction sections as [|s sections IH]; intros st; simpl.
  - nothing_selected.
  - rewrite IH, processSection_bucket, <- app_assoc. f_equal.
    now rewrite flat_map_app, select_app.
Qed.

(** The accounts of a class after the two loops, before the sort. *)
Lemma classifyReports_bucket bs pl c :
  bucket c (trialBalance (classifyReports bs pl))
  = select c (records classifyBalanceSheet bs ++ records classifyProfitAndLoss pl).
Proof.
  unfold classifyReports.
  rewrite !processReport_bucket, select_app. now destruct c.
Qed.

Lemma in_select {A : Type} c (x : A) l : In x (select c l) <-> In (c, x) l.
Proof.
  unfold select. rewrite in_map_iff. split.
  - intros ([c' y] & <- & H). apply filter_In in H as [H Hc]. simpl in *.
    destruct c', c; try discriminate; assumption.
  - intros H. exists (c, x). split; [reflexivity|].
    apply filter_In. split; [assumption|]. now destruct c.
Qed.

Lemma in_classedAccounts {N : Type} c (r : AccountInfo N) t :
  In (c, r) (classedAccounts t) <-> In r (bucket c t).
Proof.
  unfold classedAccounts. rewrite !in_app_iff, !in_map_iff. split.
  - intros [H|[H|[H|[H|H]]]]; destruct H as (x & [= <- <-] & H); exact H.
  - intros H. destruct c; simpl in H; eauto 10.
Qed.

Lemma bucket_sortCategories env c t :
  bucket c (sortCategories env t) = sortBy (byName env) (bucket c t).
Proof. now destruct c. Qed.

(** ** The sign law *)

Lemma geb_fin x : geb (Fin x) zero = true <-> 0 <= x.
Proof.
  unfold geb, zero, ltb, eqb. rewrite orb_true_iff, Qltb_lt, Qeq_bool_iff.
  split; [intros [H|H]|intros H]; lra.
Qed.

Lemma ltb_fin x : ltb (Fin x) zero = true <-> x < 0.
Proof. apply Qltb_lt. Qed.

Lemma ltb_zero_fin x : ltb zero (Fin x) = true <-> 0 < x.
Proof. apply Qltb_lt. Qed.

Lemma eqb_fin x : eqb (Fin x) zero = true <-> x == 0.
Proof. apply Qeq_bool_iff. Qed.

Lemma not_true_iff b P : (b = true <-> P) -> (b = false <-> ~ P).
Proof. destruct b; intuition congruence. Qed.

(** Turns the tests of a finite amount against 0 into facts on the rational,
    and leaves the goal to linear arithmetic. *)
Ltac sign_cases q :=
  repeat match goal with
    | |- context [geb (Fin ?x) zero] =>
        let G := fresh "G" in
        destruct (geb (Fin x) zero) eqn:G;
        [apply geb_fin in G|apply (not_true_iff _ _ (geb_fin x)) in G]
    | |- context [ltb (Fin ?x) zero] =>
        let L := fresh "L" in
        destruct (ltb (Fin x) zero) eqn:L;
        [apply ltb_fin in L|apply (not_true_iff _ _ (ltb_fin x)) in L]
    | |- context [ltb zero (Fin ?x)] =>
        let L := fresh "L" in
        destruct (ltb zero (Fin x)) eqn:L;
        [apply ltb_zero_fin in L|apply (not_true_iff _ _ (ltb_zero_fin x)) in L]
    end.

Lemma finite_amount_sign_law c n q ttl :
  representable q ->
  codeSignLaw c (mkAccount n (Fin q) (debitOf c (Fin q)) (creditOf c (Fin q)) ttl).
Proof.
  intros Hq.
  assert (R1 : round53 (q + - 0) == q)
    by (rewrite (round53_comp (q + - 0) q) by lra; exact Hq).
  assert (R2 : round53 (0 + - Qabs q) == - Qabs q)
    by (rewrite (round53_comp (0 + - Qabs q) (- Qabs q)) by lra;
        now apply representable_opp, representable_abs).
  assert (R3 : round53 (Qabs q + - 0) == Qabs q)
    by (rewrite (round53_comp (Qabs q + - 0) (Qabs q)) by lra;
        now apply representable_abs).
  assert (Habs : 0 <= Qabs q) by apply Qabs_nonneg.
  assert (Hcase : (q < 0 /\ Qabs q == - q) \/ (0 <= q /\ Qabs q == q)).
  { destruct (Qlt_le_dec q 0) as [H|H]; [left|right]; split; auto.
    - apply Qabs_neg. lra.
    - now apply Qabs_pos. }
  unfold codeSignLaw, signConvention, conventionDebit, conventionCredit, numMax,
    debitOf, creditOf.
  cbn [debit credit balance abs neg].
  destruct c; sign_cases q; cbn [same sub add neg zero abs];
    repeat split;
    try (left; reflexivity); try (right; reflexivity); try reflexivity;
    try (apply geb_fin); try (left; apply eqb_fin); try lra;
    try (destruct Hcase as [[? ?]|[? ?]]; lra).
Qed.

Lemma classified_amount_sign_law c n amount ttl :
  canonical amount ->
  isNaN amount = false ->
  codeSignLaw c (mkAccount n amount (debitOf c amount) (creditOf c amount) ttl).
Proof.
  destruct amount as [q| | |];
    [intros Hq _; apply finite_amount_sign_law; unfold representable;
     cbn [canonical] in Hq; rewrite Hq; reflexivity | | |discriminate];
    intros _ _; destruct c; vm_compute; intuition congruence.
Qed.

Lemma canonical_cellAmount cs : canonical (cellAmount cs).
Proof. unfold cellAmount. destruct (truthy _); apply canonical_parseFloat. Qed.

Lemma in_records classify sections c r :
  In (c, r) (records classify sections) ->
  exists n amount ttl,
    r = mkAccount n amount (debitOf c amount) (creditOf c amount) ttl /\
    eqb amount zero = false /\ canonical amount.
Proof.
  unfold records. rewrite in_flat_map. intros ([ttl row] & _ & H).
  unfold rowRecord, keptRow in H. cbn [fst snd] in H.
  destruct (includes (toLowerCase (rowName row)) "total"); [contradiction|].
  destruct (eqb (rowAmount row) zero) eqn:Hz; [contradiction|].
  cbn [orb negb] in H.
  destruct (classify (toLowerCase ttl)) as [c'|]; [|contradiction].
  destruct H as [[= <- <-]|[]]. do 3 eexists. split; [reflexivity|].
  split; [exact Hz|]. apply canonical_cellAmount.
Qed.

Lemma in_handler_accounts env req body c r :
  trialBalanceHandler env req = TB200 body ->
  In (c, r) (classedAccounts (body_trialBalance body)) ->
  exists n amount ttl,
    r = mkAccount n amount (debitOf c amount) (creditOf c amount) ttl /\
    eqb amount zero = false /\ canonical amount.
Proof.
  intros H Hin. apply trialBalanceHandler_200 in H.
  destruct H as (tokenData & bs & pl & _ & _ & _ & ->).
  cbn [body_trialBalance] in Hin.
  apply in_classedAccounts in Hin.
  rewrite bucket_sortCategories, sortBy_In, classifyReports_bucket in Hin.
  apply in_select, in_app_or in Hin.
  destruct Hin as [Hin|Hin]; eapply in_records; eassumption.
Qed.

(** C2, as the code has it: every account of a returned trial balance whose
    balance is a number has a debit and a credit that are not negative, one
    of which is 0, that follow the sign convention; debit minus credit is
    the balance for an asset, credit minus debit is the balance for a
    liability or an equity account, and the difference is the magnitude of
    the balance for revenue (credit minus debit) and expenses (debit minus
    credit). *)
Theorem sign_law env req body c r :
  trialBalanceHandler env req = TB200 body ->
  In (c, r) (classedAccounts (body_trialBalance body)) ->
  isNaN (balance r) = false ->
  codeSignLaw c r.
Proof.
  intros H Hin Hnan.
  destruct (in_handler_accounts _ _ _ _ _ H Hin) as (n & amount & ttl & -> & _ & Hd).
  now apply classified_amount_sign_law.
Qed.

Lemma sign_law_witness :
  codeSignLaw LIABILITY
    (mkAccount "Loan" (Fin 3000) (Fin 0) (Fin 3000) "Current Liabilities").
Proof.
  eapply (sign_law Demo.offline
            (mkTrialBalanceRequest "t-alpha" (Some "2024-01-31"))).
  - vm_compute. reflexivity.
  - vm_compute. do 3 right. left. reflexivity.
  - reflexivity.
Defined.

(** C2, as the specification words it, fails on a negative expense: the
    refund of -50 is recorded with a debit of 50, so debit minus credit is
    not the balance. *)
Lemma sign_law_counterexample :
  exists body r,
    trialBalanceHandler Demo.offline
      (mkTrialBalanceRequest "t-alpha" (Some "2024-01-31")) = TB200 body /\
    In (EXPENSE, r) (classedAccounts (body_trialBalance body)) /\
    r = mkAccount "Refunds" (Fin (-50)) (Fin 50) (Fin 0) "Less Operating Expenses" /\
    ~ specSignLaw EXPENSE r.
Proof.
  eexists. eexists. split; [vm_compute; reflexivity|].
  split; [|split; [reflexivity|]].
  - vm_compute. do 7 right. left. reflexivity.
  - intros [_ H]. vm_compute in H. discriminate.
Qed.

(** ** Classification completeness *)


Lemma classed_partition {N : Type} (t : TrialBalance N) R :
  (forall c, bucket c t = select c R) ->
  Permutation (classedAccounts t) R.
Proof.
  intros Hb. unfold classedAccounts.
  change (assets t) with (bucket ASSET t).
  change (liabilities t) with (bucket LIABILITY t).
  change (equity t) with (bucket EQUITY t).
  change (revenue t) with (bucket REVENUE t).
  change (expenses t) with (bucket EXPENSE t).
  rewrite !Hb. clear Hb t.
  induction R as [|[c x] R IH]; [reflexivity|].
  unfold select in *. cbn [filter fst].
  destruct c; cbn [category_eqb map snd app].
  - now constructor.
  - rewrite <- Permutation_middle. now constructor.
  - rewrite app_assoc, <- Permutation_middle, <- app_assoc. now constructor.
  - rewrite 2 app_assoc, <- Permutation_middle, <- 2 app_assoc. now constructor.
  - rewrite 3 app_assoc, <- Permutation_middle, <- 3 app_assoc. now constructor.
Qed.

Lemma classed_sort_perm env t :
  Permutation (classedAccounts (sortCategories env t)) (classedAccounts t).
Proof.
  unfold classedAccounts, sortCategories. cbn [assets liabilities equity revenue expenses].
  repeat apply Permutation_app; apply Permutation_map; symmetry; apply sortBy_perm.
Qed.





(** ** Failures of the reports *)

(** When the profit-and-loss request throws, the [catch] block calls
    [console.errorlog], which is not a function: the TypeError reaches the
    outer [catch] and the handler answers 500. *)
Lemma profit_and_loss_failure_is_fatal env req tokenData bs message :
  let reportDate := reportDateOf env (query_date req) in
  getXeroToken env (params_tenantId req) = Some tokenData ->
  setTokenSet env tokenData = Return tt ->
  getReportBalanceSheet env (params_tenantId req) reportDate = Return bs ->
  getReportProfitAndLoss env (params_tenantId req) reportDate reportDate = Throw message ->
  trialBalanceHandler env req =
    TB500 "Failed to get trial balance" "console.errorlog is not a function"
      (params_tenantId req).
Proof.
  unfold trialBalanceHandler, trialBalanceTry, reportDateOf. simpl.
  intros -> -> Hbs Hpl. simpl. rewrite Hbs. simpl. rewrite Hpl. reflexivity.
Qed.

(** C7 fails on the code: for the tenant whose balance sheet is returned
    and whose profit-and-loss request throws, the handler answers 500
    instead of the trial balance of the balance sheet alone. *)
Theorem profit_and_loss_failure_answers_500 :
  getReportBalanceSheet Demo.offline "t-gamma" "2024-03-01"
    = Demo.report Demo.betaSheet /\
  getReportProfitAndLoss Demo.offline "t-gamma" "2024-03-01" "2024-03-01"
    = Throw "socket hang up" /\
  trialBalanceHandler (withTokens Demo.offline [Demo.gamma])
    (mkTrialBalanceRequest "t-gamma" (Some "2024-03-01"))
  = TB500 "Failed to get trial balance" "console.errorlog is not a function"
      "t-gamma".
Proof. repeat split. Qed.

(** A row whose amount cell has no value, or an empty one, is skipped. *)
Lemma missing_amount_row_skipped classify ttl st row cs :
  cells row = Some cs ->
  truthy (match nth_error cs 1 with Some c => value c | None => None end) = None ->
  processRow classify ttl st row = st.
Proof.
  intros Hc Hv. unfold processRow, cellAmount. rewrite Hc, Hv.
  destruct (isRow (rowType row) && (2 <=? List.length cs)%nat); [|reflexivity].
  replace (eqb (parseFloat "0") zero) with true by reflexivity.
  now rewrite orb_true_r.
Qed.

(** C8 fails on the code: the amount "n/a" parses to NaN, which is not 0,
    so the row is not skipped; it is returned as an asset with a NaN
    balance, and the total of the assets becomes NaN. *)
Theorem malformed_amount_row_is_recorded :
  exists body,
    trialBalanceHandler (withTokens Demo.offline [Demo.delta])
      (mkTrialBalanceRequest "t-delta" None) = TB200 body /\
    assets (body_trialBalance body)
      = [mkAccount "Cash" (Fin 100) (Fin 100) (Fin 0) "Bank";
         mkAccount "Suspense" NaN (Fin 0) (Fin 0) "Bank"] /\
    totalAssets (totals (body_trialBalance body)) = NaN /\
    balanced (accountingEquation (body_balanceCheck body)) = false /\
    body_processedAccounts body = 2%nat.
Proof.
  eexists. split; [vm_compute; reflexivity|]. repeat split.
Qed.

(** ** The account filter *)

(** C9: the answer of the comparison does not depend on [accountFilter]. *)
Theorem account_filter_is_ignored env tenantId fromDate toDate filter1 filter2 :
  comparePeriodsHandler env (mkCompareRequest tenantId fromDate toDate filter1)
  = comparePeriodsHandler env (mkCompareRequest tenantId fromDate toDate filter2).
Proof. reflexivity. Qed.

(** ** Consolidation *)

Lemma processEntities_fold env date conns st :
  fold_left (processEntity env date) conns st
  = mkConsolidation
      (st_companies st
       ++ map (fun p => companyDataOf (fst p) (snd p)) (fetched env date conns))
      (fold_left addTotals (fetchedTotals env date conns) (st_totals st)).
Proof.
  unfold fetchedTotals, fetched.
  revert st. induction conns as [|conn conns IH]; intros st; cbn [fold_left flat_map].
  - destruct st. cbn. now rewrite app_nil_r.
  - rewrite IH. unfold processEntity.
    destruct (fetchEntity env date conn) as [[e|]|]; cbn; try reflexivity.
    now rewrite <- app_assoc.
Qed.

(** A failing entity leaves the state of the loop as it was. *)
Lemma processEntity_fails env date st conn :
  fetchFails env date conn = true -> processEntity env date st conn = st.
Proof.
  unfold fetchFails, processEntity.
  now destruct (fetchEntity env date conn) as [[e|]|].
Qed.

Lemma processEntities_without_failures env date conns st :
  fold_left (processEntity env date) conns st
  = fold_left (processEntity env date)
      (filter (fun c => negb (fetchFails env date c)) conns) st.
Proof.
  revert st. induction conns as [|conn conns IH]; intros st; [reflexivity|].
  cbn [fold_left filter].
  destruct (fetchFails env date conn) eqn:Hf; cbn [negb fold_left].
  - now rewrite processEntity_fails.
  - apply IH.
Qed.

Lemma fetched_length env date conns :
  List.length (fetched env date conns)
  = List.length (filter (fun c => negb (fetchFails env date c)) conns).
Proof.
  unfold fetched, fetchFails.
  induction conns as [|conn conns IH]; [reflexivity|]. cbn [flat_map filter].
  rewrite length_app, IH.
  now destruct (fetchEntity env date conn) as [[e|]|].
Qed.

Lemma fetched_tenants env date conns :
  map (fun p => co_tenantId (companyDataOf (fst p) (snd p))) (fetched env date conns)
  = map conn_tenantId (filter (fun c => negb (fetchFails env date c)) conns).
Proof.
  unfold fetched, fetchFails.
  induction conns as [|conn conns IH]; [reflexivity|]. cbn [flat_map filter].
  rewrite map_app, IH.
  now destruct (fetchEntity env date conn) as [[e|]|].
Qed.

Section FieldSums.
Variable field : forall N : Type, Totals N -> N.
Hypothesis field_addTotals : forall T E,
  field num (addTotals T E) = add (field num T) (toNumber (field jnum E)).


End FieldSums.



Lemma consolidateEntities_companies env date conns :
  companies (consolidateEntities env date conns)
  = map (fun p => companyDataOf (fst p) (snd p)) (fetched env date conns).
Proof.
  unfold consolidateEntities. cbn [companies]. now rewrite processEntities_fold.
Qed.

Lemma consolidateEntities_allConnected env date conns :
  allConnected (dataQuality (summary (consolidateEntities env date conns)))
  = (List.length (companies (consolidateEntities env date conns))
     =? List.length conns)%nat.
Proof. reflexivity. Qed.

Lemma filter_negb_length {A : Type} (f : A -> bool) l :
  (List.length (filter f l) + List.length (filter (fun x => negb (f x)) l)
   = List.length l)%nat.
Proof.
  induction l as [|x l IH]; [reflexivity|]. cbn [filter].
  destruct (f x); cbn [negb List.length]; lia.
Qed.

(** C5: when the trial balance of exactly one of the three connected
    entities cannot be fetched, the handler still answers; the companies
    are the two other entities, in order; [allConnected] is false; and the
    companies and the consolidated totals are what the loop gives on the
    two other entities alone. *)
Theorem partial_failure_isolation env req c1 c2 c3 :
  let date := reportDateOf env (cquery_date req) in
  let others := filter (fun c => negb (fetchFails env date c)) [c1; c2; c3] in
  filter connected (getAllXeroConnections env) = [c1; c2; c3] ->
  List.length (filter (fetchFails env date) [c1; c2; c3]) = 1%nat ->
  let r := consolidatedTrialBalanceHandler env req in
  List.length others = 2%nat /\
  map co_tenantId (companies r) = map conn_tenantId others /\
  allConnected (dataQuality (summary r)) = false /\
  companies r = companies (consolidateEntities env date others) /\
  con_totals (consolidated r)
    = con_totals (consolidated (consolidateEntities env date others)).
Proof.
  intros date others Hconn Hone r.
  assert (Hlen : List.length others = 2%nat).
  { pose proof (filter_negb_length (fetchFails env date) [c1; c2; c3]) as H.
    fold others in H. rewrite Hone in H. cbn [List.length] in H. lia. }
  assert (Hr : r = consolidateEntities env date [c1; c2; c3]).
  { unfold r, consolidatedTrialBalanceHandler. now rewrite Hconn. }
  split; [exact Hlen|].
  assert (Hco : map co_tenantId (companies r) = map conn_tenantId others).
  { rewrite Hr, consolidateEntities_companies, map_map. apply fetched_tenants. }
  split; [exact Hco|]. split; [|split].
  - rewrite Hr, consolidateEntities_allConnected, <- Hr.
    rewrite <- (length_map co_tenantId), Hco, length_map, Hlen. reflexivity.
  - rewrite Hr. unfold consolidateEntities. cbn [companies].
    now rewrite processEntities_without_failures.
  - rewrite Hr. unfold consolidateEntities. cbn [consolidated con_totals].
    now rewrite processEntities_without_failures.
Qed.

Lemma partial_failure_isolation_witness :
  map co_tenantId
    (companies (consolidatedTrialBalanceHandler Demo.world (mkConsolidatedRequest None)))
  = ["t-alpha"; "t-beta"]
  /\ allConnected
       (dataQuality
          (summary (consolidatedTrialBalanceHandler Demo.world (mkConsolidatedRequest None))))
     = false.
Proof.
  destruct (partial_failure_isolation Demo.world (mkConsolidatedRequest None)
              (mkConnection "t-alpha" "Alpha Pty" "xero" true
                 "2024-03-01T08:00:00.000Z" None)
              (mkConnection "t-beta" "Beta Pty" "xero" true
                 "2024-03-01T08:00:00.000Z" None)
              (mkConnection "t-gamma" "Gamma Pty" "xero" true
                 "2024-03-01T08:00:00.000Z" None))
    as (_ & Hco & Hall & _).
  - vm_compute. reflexivity.
  - vm_compute. reflexivity.
  - split; [|exact Hall]. rewrite Hco. vm_compute. reflexivity.
Defined.

(** ** Expired tokens *)

Lemma getAllXeroConnections_withTokens env table :
  getAllXeroConnections (withTokens env table)
  = orEmpty (mapResult (connectionOfRow (dateNow env)) (filter isXero table)).
Proof. reflexivity. Qed.

Lemma mapResult_app {A B : Type} (f : A -> result B) l1 l2 :
  mapResult f (l1 ++ l2)
  = (a <- mapResult f l1 ;; b <- mapResult f l2 ;; Return (a ++ b)).
Proof.
  induction l1 as [|x l1 IH]; cbn [mapResult app].
  - cbn. now destruct (mapResult f l2).
  - rewrite IH. destruct (f x); cbn; [|reflexivity].
    destruct (mapResult f l1); cbn; [|reflexivity].
    now destruct (mapResult f l2).
Qed.

Lemma mapResult_In {A B : Type} (f : A -> result B) l ys y :
  mapResult f l = Return ys -> In y ys -> exists x, In x l /\ f x = Return y.
Proof.
  revert ys. induction l as [|x l IH]; intros ys; cbn [mapResult].
  - intros [= <-] [].
  - destruct (f x) as [y0|] eqn:Hx; cbn; [|discriminate].
    destruct (mapResult f l) as [ys0|]; cbn; [|discriminate].
    intros [= <-] [<-|Hin].
    + exists x. split; [now left|assumption].
    + destruct (IH ys0 eq_refl Hin) as (x' & ? & ?). exists x'. split; [now right|assumption].
Qed.

(** The entities the loop attempts are rows whose token has not expired. *)
Lemma attempted_unexpired env table conn :
  In conn (filter connected (getAllXeroConnections (withTokens env table))) ->
  exists row, In row table /\ isXero row = true /\
              tenant_id row = conn_tenantId conn /\
              unexpired (dateNow env) row = true.
Proof.
  rewrite getAllXeroConnections_withTokens, filter_In. intros [Hin Hc].
  destruct (mapResult _ _) as [conns|] eqn:Hm; [|contradiction].
  destruct (mapResult_In _ _ _ _ Hm Hin) as (row & Hrow & Hconn).
  apply filter_In in Hrow as [Hrow Hx].
  exists row. repeat split; auto.
  - unfold connectionOfRow in Hconn. destruct (last_seen row); [|discriminate].
    now injection Hconn as <-.
  - unfold connectionOfRow in Hconn. destruct (last_seen row); [|discriminate].
    injection Hconn as <-. exact Hc.
Qed.

Lemma connectionOfRow_expired now x seen :
  last_seen x = Some seen -> unexpired now x = false ->
  exists cx, connectionOfRow now x = Return cx /\ connected cx = false.
Proof.
  intros Hs Hu. unfold connectionOfRow. rewrite Hs. eexists. split; [reflexivity|].
  exact Hu.
Qed.

(** A row whose token has expired changes nothing to the list of the
    connected entities. *)
Lemma connected_without_expired env pre x post seen :
  last_seen x = Some seen -> unexpired (dateNow env) x = false ->
  filter connected (getAllXeroConnections (withTokens env (pre ++ x :: post)))
  = filter connected (getAllXeroConnections (withTokens env (pre ++ post))).
Proof.
  intros Hs Hu. rewrite !getAllXeroConnections_withTokens, !filter_app.
  cbn [filter]. destruct (isXero x); [|reflexivity].
  rewrite !mapResult_app. cbn [mapResult].
  destruct (connectionOfRow_expired _ _ _ Hs Hu) as (cx & -> & Hcx).
  destruct (mapResult _ (filter isXero pre)) as [a|]; cbn; [|reflexivity].
  destruct (mapResult _ (filter isXero post)) as [b|]; cbn; [|reflexivity].
  rewrite !filter_app. cbn [filter]. now rewrite Hcx.
Qed.

Lemma connected_with_unseen env pre x post :
  last_seen x = None ->
  filter connected (getAllXeroConnections (withTokens env (pre ++ x :: post)))
  = filter connected (getAllXeroConnections (withTokens env (pre ++ post)))
  \/ getAllXeroConnections (withTokens env (pre ++ x :: post)) = [].
Proof.
  intros Hs. rewrite !getAllXeroConnections_withTokens, !filter_app.
  cbn [filter]. destruct (isXero x); [right|now left].
  rewrite !mapResult_app. cbn [mapResult]. unfold connectionOfRow at 2.
  rewrite Hs. now destruct (mapResult _ (filter isXero pre)).
Qed.

Lemma in_fetched env date conns p :
  In p (fetched env date conns) -> In (fst p) conns.
Proof.
  unfold fetched. rewrite in_flat_map. intros (conn & Hin & Hp).
  destruct (fetchEntity env date conn) as [[e|]|]; try contradiction.
  destruct Hp as [<-|[]]. exact Hin.
Qed.

Lemma processEntities_ext env1 env2 date conns st :
  (forall conn, In conn conns ->
     fetchTrialBalance env1 (conn_tenantId conn) date
     = fetchTrialBalance env2 (conn_tenantId conn) date) ->
  fold_left (processEntity env1 date) conns st
  = fold_left (processEntity env2 date) conns st.
Proof.
  revert st. induction conns as [|conn conns IH]; intros st Hext; [reflexivity|].
  cbn [fold_left].
  replace (processEntity env1 date st conn) with (processEntity env2 date st conn).
  - apply IH. intros; apply Hext; now right.
  - unfold processEntity, fetchEntity. now rewrite (Hext conn) by now left.
Qed.

(** C10: with a row [x] of the token table whose token has expired: the
    loop attempts only entities whose token has not expired; every company
    of the answer is one of them; [allConnected] compares the number of
    companies with the number of attempted entities; what the HTTP client
    would answer for another entity has no influence; the answer is the
    one the table without [x] gives (as soon as [x.last_seen] is not null);
    and if [allConnected] is false it is false without [x] too. *)
Theorem expired_tokens_are_left_out env req pre x post :
  unexpired (dateNow env) x = false ->
  let with_x := withTokens env (pre ++ x :: post) in
  let without_x := withTokens env (pre ++ post) in
  let r := consolidatedTrialBalanceHandler with_x req in
  let attempted := filter connected (getAllXeroConnections with_x) in
  (forall conn, In conn attempted ->
     exists row, In row (pre ++ post) /\ tenant_id row = conn_tenantId conn /\
                 unexpired (dateNow env) row = true) /\
  (forall company, In company (companies r) ->
     exists conn, In conn attempted /\ co_tenantId company = conn_tenantId conn) /\
  allConnected (dataQuality (summary r))
    = (List.length (companies r) =? List.length attempted)%nat /\
  (forall f,
     (forall conn date, In conn attempted ->
        f (conn_tenantId conn) date = fetchTrialBalance env (conn_tenantId conn) date) ->
     consolidatedTrialBalanceHandler (withFetch with_x f) req = r) /\
  (forall seen, last_seen x = Some seen ->
     consolidatedTrialBalanceHandler without_x req = r) /\
  (allConnected (dataQuality (summary r)) = false ->
   allConnected (dataQuality (summary (consolidatedTrialBalanceHandler without_x req)))
   = false).
Proof.
  intros Hx with_x without_x r attempted.
  assert (Hsame : forall seen, last_seen x = Some seen ->
                    consolidatedTrialBalanceHandler without_x req = r).
  { intros seen Hs. unfold r, consolidatedTrialBalanceHandler, with_x, without_x.
    rewrite (connected_without_expired env pre x post seen Hs Hx). reflexivity. }
  split; [|split; [|split; [|split; [|split]]]].
  - intros conn Hin. apply attempted_unexpired in Hin.
    destruct Hin as (row & Hrow & _ & Hid & Hu). exists row. repeat split; auto.
    apply in_app_or in Hrow. apply in_or_app.
    destruct Hrow as [?|[<-|?]]; auto. congruence.
  - intros company Hin. unfold r, consolidatedTrialBalanceHandler in Hin.
    rewrite consolidateEntities_companies in Hin. apply in_map_iff in Hin.
    destruct Hin as (p & <- & Hp). exists (fst p). split; [|reflexivity].
    eapply in_fetched. exact Hp.
  - reflexivity.
  - intros f Hf. unfold r, consolidatedTrialBalanceHandler, consolidateEntities.
    change (getAllXeroConnections (withFetch with_x f))
      with (getAllXeroConnections with_x).
    change (today (withFetch with_x f)) with (today with_x).
    change (isoNow (withFetch with_x f)) with (isoNow with_x).
    rewrite (processEntities_ext (withFetch with_x f) with_x); [reflexivity|].
    intros conn Hin. apply Hf. exact Hin.
  - exact Hsame.
  - destruct (last_seen x) as [seen|] eqn:Hs.
    + now rewrite (Hsame seen eq_refl).
    + unfold r, consolidatedTrialBalanceHandler, with_x, without_x.
      destruct (connected_with_unseen env pre x post Hs) as [->| ->]; [auto|].
      discriminate.
Qed.

Lemma expired_tokens_are_left_out_witness :
  map co_tenantId
    (companies
       (consolidatedTrialBalanceHandler
          (withTokens Demo.world [Demo.alpha; Demo.beta; Demo.gamma])
          (mkConsolidatedRequest None)))
  = ["t-alpha"; "t-beta"].
Proof.
  destruct (expired_tokens_are_left_out Demo.world (mkConsolidatedRequest None)
              [Demo.alpha; Demo.beta] Demo.lapsed [Demo.gamma])
    as (_ & _ & _ & _ & Hsame & _).
  - reflexivity.
  - specialize (Hsame "2024-03-01T08:00:00.000Z" eq_refl). cbn [app] in Hsame.
    rewrite Hsame. vm_compute. reflexivity.
Defined.

(** ** Sorted output *)

Section SortedFacts.
Context {A : Type}.
Variable cmp : A -> A -> num.
Variable R : A -> A -> Prop.
Variable Good : A -> Prop.
Hypothesis R_trans : forall x y z, R x y -> R y z -> R x z.
Hypothesis cmp_after : forall x y,
  Good x -> Good y -> gtb (cmp x y) zero = true -> R y x.
Hypothesis cmp_before : forall x y,
  Good x -> Good y -> gtb (cmp x y) zero = false -> R x y.

Lemma insertSorted_Forall (P : A -> Prop) x l :
  P x -> Forall P l -> Forall P (insertSorted cmp x l).
Proof.
  intros Hx Hl. eapply Permutation_Forall; [apply insertSorted_perm|].
  now constructor.
Qed.

Lemma insertSorted_sorted x l :
  Good x -> Forall Good l -> StronglySorted R l ->
  StronglySorted R (insertSorted cmp x l).
Proof.
  intros Hx Hg Hs. induction Hs as [|y l Hs IH Hy]; cbn [insertSorted].
  - repeat constructor.
  - inversion Hg as [|? ? Gy Gl]; subst.
    destruct (gtb (cmp x y) zero) eqn:Hc.
    + constructor; [now apply IH|].
      apply insertSorted_Forall; [now apply cmp_after|assumption].
    + constructor; [now constructor|].
      constructor; [now apply cmp_before|].
      eapply Forall_impl; [|exact Hy]. intros z Hz.
      eapply R_trans; [|exact Hz]. now apply cmp_before.
Qed.

Lemma sortBy_sorted l : Forall Good l -> StronglySorted R (sortBy cmp l).
Proof.
  induction 1 as [|x l Hx Hl IH]; cbn [sortBy fold_right]; [constructor|].
  apply insertSorted_sorted; auto.
  eapply Permutation_Forall; [apply sortBy_perm|assumption].
Qed.
End SortedFacts.

(** ** The comparison of two periods *)

Lemma toNumber_jvalue j : toNumber j = Fin (jvalue j).
Proof. now destruct j. Qed.

Lemma Qltb_dec a b : Qltb a b = if Qlt_le_dec a b then true else false.
Proof.
  destruct (Qlt_le_dec a b) as [H|H].
  - now apply Qltb_lt.
  - destruct (Qltb a b) eqn:E; [|reflexivity]. apply Qltb_lt in E. lra.
Qed.

Lemma existingChange_spec toAccounts fromAcc :
  existingChange toAccounts fromAcc
  = match findByName (name fromAcc) toAccounts with
    | Some toAcc =>
        if Qlt_le_dec 1000
             (Qabs (round53 (jvalue (balance toAcc) - jvalue (balance fromAcc))))
        then [changedEntry fromAcc toAcc]
        else []
    | None => []
    end.
Proof.
  unfold existingChange, changedEntry, directionOf.
  destruct (findByName (name fromAcc) toAccounts) as [toAcc|]; [|reflexivity].
  rewrite !toNumber_jvalue. cbn [sub add neg abs gtb ltb zero].
  change (jvalue (balance toAcc) + - jvalue (balance fromAcc))
    with (jvalue (balance toAcc) - jvalue (balance fromAcc)).
  rewrite !Qltb_dec.
  destruct (Qlt_le_dec 1000 _); [|reflexivity].
  now destruct (Qlt_le_dec 0 _).
Qed.

Lemma newAccount_spec fromAccounts toAcc :
  newAccount fromAccounts toAcc
  = match findByName (name toAcc) fromAccounts with
    | None =>
        if Qlt_le_dec 1000 (Qabs (jvalue (balance toAcc)))
        then [newEntry toAcc]
        else []
    | Some _ => []
    end.
Proof.
  unfold newAccount, newEntry.
  destruct (findByName (name toAcc) fromAccounts); [reflexivity|].
  rewrite !toNumber_jvalue. cbn [abs gtb ltb].
  rewrite Qltb_dec. now destruct (Qlt_le_dec 1000 _).
Qed.

Lemma in_pushedChanges fromAccounts toAccounts x :
  In x (pushedChanges fromAccounts toAccounts) <->
  (exists fromAcc toAcc,
     In fromAcc fromAccounts /\
     findByName (name fromAcc) toAccounts = Some toAcc /\
     1000 < Qabs (round53 (jvalue (balance toAcc) - jvalue (balance fromAcc))) /\
     x = changedEntry fromAcc toAcc) \/
  (exists toAcc,
     In toAcc toAccounts /\
     findByName (name toAcc) fromAccounts = None /\
     1000 < Qabs (jvalue (balance toAcc)) /\
     x = newEntry toAcc).
Proof.
  unfold pushedChanges. rewrite in_app_iff, !in_flat_map. split.
  - intros [(fromAcc & Hin & Hx)|(toAcc & Hin & Hx)]; [left|right].
    + rewrite existingChange_spec in Hx.
      destruct (findByName (name fromAcc) toAccounts) as [toAcc|] eqn:Hf;
        [|contradiction].
      destruct (Qlt_le_dec 1000 _) as [Hd|]; [|contradiction].
      destruct Hx as [<-|[]]. exists fromAcc, toAcc. auto.
    + rewrite newAccount_spec in Hx.
      destruct (findByName (name toAcc) fromAccounts) eqn:Hf; [contradiction|].
      destruct (Qlt_le_dec 1000 _) as [Hd|]; [|contradiction].
      destruct Hx as [<-|[]]. exists toAcc. auto.
  - intros [(fromAcc & toAcc & Hin & Hf & Hd & ->)|(toAcc & Hin & Hf & Hd & ->)];
      [left; exists fromAcc|right; exists toAcc]; (split; [exact Hin|]).
    + rewrite existingChange_spec, Hf.
      destruct (Qlt_le_dec 1000 _); [now left|lra].
    + rewrite newAccount_spec, Hf.
      destruct (Qlt_le_dec 1000 _); [now left|lra].
Qed.

Lemma changedEntry_not_new fromAcc toAcc toAcc' :
  changedEntry fromAcc toAcc <> newEntry toAcc'.
Proof.
  unfold changedEntry, newEntry, directionOf.
  destruct (Qlt_le_dec 0 _); intros [=].
Qed.

Lemma pushedChanges_finite fromAccounts toAccounts :
  Forall (fun x => exists d, change x = Fin d)
    (pushedChanges fromAccounts toAccounts).
Proof.
  apply Forall_forall. intros x Hx. apply in_pushedChanges in Hx.
  destruct Hx as [(f & t & _ & _ & _ & ->)|(t & _ & _ & _ & ->)]; cbn; eauto.
Qed.

Lemma findByName_some n accounts acc :
  findByName n accounts = Some acc -> In acc accounts /\ name acc = n.
Proof.
  unfold findByName. intros H. apply find_some in H as [Hin Hn].
  split; [exact Hin|]. now apply String.eqb_eq.
Qed.

(** The comparator [Math.abs(b) - Math.abs(a)]: the rounded difference
    has the sign of the exact one. *)
Lemma larger_magnitude_after x y :
  gtb (sub (abs (Fin y)) (abs (Fin x))) zero = true -> Qabs x <= Qabs y.
Proof.
  cbn [abs sub add neg gtb ltb zero]. intros H.
  apply Qltb_lt in H. apply (proj1 (round53_pos_iff _)) in H. lra.
Qed.

Lemma larger_magnitude_before x y :
  gtb (sub (abs (Fin y)) (abs (Fin x))) zero = false -> Qabs y <= Qabs x.
Proof.
  cbn [abs sub add neg gtb ltb zero]. intros H.
  destruct (Qlt_le_dec (Qabs x) (Qabs y)) as [Hlt|]; [exfalso|assumption].
  assert (G : 0 < round53 (Qabs y + - Qabs x)) by (apply round53_pos_iff; lra).
  apply Qltb_lt in G. congruence.
Qed.

Lemma accountChanges_sorted fromAccounts toAccounts :
  StronglySorted (fun a b => magnitude b <= magnitude a)
    (accountChangesOf fromAccounts toAccounts).
Proof.
  unfold accountChangesOf.
  apply sortBy_sorted with (Good := fun x => exists d, change x = Fin d).
  - intros x y z Hxy Hyz. lra.
  - intros x y [dx Hx] [dy Hy]. unfold byMagnitude, magnitude.
    rewrite Hx, Hy. apply larger_magnitude_after.
  - intros x y [dx Hx] [dy Hy]. unfold byMagnitude, magnitude.
    rewrite Hx, Hy. apply larger_magnitude_before.
  - apply pushedChanges_finite.
Qed.

Lemma isSignificant_exceeds x :
  (exists d, change x = Fin d) -> isSignificant x = exceeds 100000 x.
Proof.
  intros [d Hd]. unfold isSignificant, exceeds, magnitude. rewrite Hd.
  cbn [abs gtb ltb]. apply Qltb_dec.
Qed.

(** The account changes of two lists of accounts follow the law of the
    specification. *)
Lemma accountChanges_law fromAccounts toAccounts :
  let changed := accountChangesOf fromAccounts toAccounts in
  comparisonLaw fromAccounts toAccounts changed (filter isSignificant changed).
Proof.
  intros changed.
  assert (Hin : forall x, In x changed <-> In x (pushedChanges fromAccounts toAccounts)).
  { intros x. apply sortBy_In. }
  unfold comparisonLaw. split; [|split; [|split; [|split; [|split]]]].
  - intros fromAcc toAcc Hf Hfind. rewrite Hin, in_pushedChanges. split.
    + intros [(f' & t' & _ & _ & Hd & Heq)|(t' & _ & _ & _ & Heq)].
      * change (1000 < magnitude (changedEntry fromAcc toAcc)).
        rewrite Heq. exact Hd.
      * now apply changedEntry_not_new in Heq.
    + intros Hd. left. exists fromAcc, toAcc. auto.
  - intros toAcc Ht Hfind. rewrite Hin, in_pushedChanges. split.
    + intros [(f' & t' & _ & _ & _ & Heq)|(t' & _ & _ & Hd & Heq)].
      * symmetry in Heq. now apply changedEntry_not_new in Heq.
      * change (1000 < magnitude (newEntry toAcc)).
        rewrite Heq. exact Hd.
    + intros Hd. right. exists toAcc. auto.
  - intros x Hx. apply Hin, in_pushedChanges in Hx.
    destruct Hx as [(f & t & ? & ? & _ & ->)|(t & ? & ? & _ & ->)];
      [left; exists f, t|right; exists t]; auto.
  - intros n Hn Hc. apply Hn. apply in_map_iff in Hc as (x & <- & Hx).
    apply Hin, in_pushedChanges in Hx.
    destruct Hx as [(f & t & _ & Hfind & _ & ->)|(t & Ht & _ & _ & ->)]; cbn.
    + apply findByName_some in Hfind as [Ht <-]. now apply in_map.
    + now apply in_map.
  - apply accountChanges_sorted.
  - apply filter_ext_in. intros x Hx. apply isSignificant_exceeds.
    apply Hin in Hx. revert x Hx. apply Forall_forall, pushedChanges_finite.
Qed.

Lemma comparePeriodsHandler_200 env req c :
  comparePeriodsHandler env req = CP200 c ->
  exists tokenData fromDate fromResponse toResponse f t,
    let toDate := reportDateOf env (query_toDate req) in
    getXeroToken env (cp_tenantId req) = Some tokenData /\
    truthy (query_fromDate req) = Some fromDate /\
    fetchTrialBalance env (cp_tenantId req) fromDate = Return fromResponse /\
    fetchTrialBalance env (cp_tenantId req) toDate = Return toResponse /\
    json fromResponse = Return (TrialBalanceJson f) /\
    json toResponse = Return (TrialBalanceJson t) /\
    c = comparisonOf (cp_tenantId req) (td_tenantName tokenData) fromDate toDate f t.
Proof.
  unfold comparePeriodsHandler, comparePeriodsTry, reportDateOf.
  destruct (getXeroToken env (cp_tenantId req)) as [tokenData|]; [|discriminate].
  destruct (truthy (query_fromDate req)) as [fromDate|]; [|discriminate].
  set (toDate := match truthy (query_toDate req) with
                 | Some d => d
                 | None => today env
                 end).
  destruct (fetchTrialBalance env (cp_tenantId req) fromDate) as [fr|] eqn:Hf;
    cbn [bind]; [|discriminate].
  destruct (fetchTrialBalance env (cp_tenantId req) toDate) as [tr|] eqn:Ht;
    cbn [bind]; [|discriminate].
  destruct (negb (ok fr) || negb (ok tr)); cbn iota; [discriminate|].
  destruct (json fr) as [[f|]|] eqn:Hjf; cbn [bind]; try discriminate;
    destruct (json tr) as [[t|]|] eqn:Hjt; cbn [bind]; try discriminate.
  intros [= <-]. exists tokenData, fromDate, fr, tr, f, t.
  repeat split; assumption.
Qed.

(** C6: in every comparison the handler returns, the account changes are
    computed from the asset, liability and equity accounts of the two
    fetched trial balances (revenue and expenses are left out): an account
    found in both periods appears with its change, which is the difference
    of its two balances rounded to binary64 as the subtraction of the
    program gives it, and with its direction, exactly when the magnitude of
    that change exceeds 1000 (see [period_comparison_rounds] for a
    difference that the rounding brings down to 1000); an account found only in
    the later period appears as a new account, with a from-balance of 0,
    exactly when the magnitude of its balance exceeds 1000; there is no
    other entry; no entry carries a name absent from the later period; the
    entries are sorted by descending magnitude; and the significant changes
    are the entries whose magnitude exceeds 100000. *)
Theorem period_comparison_law env req c :
  comparePeriodsHandler env req = CP200 c ->
  exists fromDate fromResponse toResponse f t,
    truthy (query_fromDate req) = Some fromDate /\
    fetchTrialBalance env (cp_tenantId req) fromDate = Return fromResponse /\
    fetchTrialBalance env (cp_tenantId req) (reportDateOf env (query_toDate req))
      = Return toResponse /\
    json fromResponse = Return (TrialBalanceJson f) /\
    json toResponse = Return (TrialBalanceJson t) /\
    comparisonLaw
      (assets (body_trialBalance f) ++ liabilities (body_trialBalance f)
       ++ equity (body_trialBalance f))
      (assets (body_trialBalance t) ++ liabilities (body_trialBalance t)
       ++ equity (body_trialBalance t))
      (accountChanges c) (significantChanges c).
Proof.
  intros H. apply comparePeriodsHandler_200 in H.
  destruct H as (tokenData & fromDate & fr & tr & f & t & _ & Hq & Hf & Ht & Hjf & Hjt & ->).
  exists fromDate, fr, tr, f, t. repeat (split; [assumption|]).
  apply accountChanges_law.
Qed.

Lemma period_comparison_law_witness :
  exists c,
    comparePeriodsHandler Demo.world
      (mkCompareRequest "t-alpha" (Some "2024-01-31") None None) = CP200 c /\
    map accountName (accountChanges c)
      = ["Retained Earnings"; "Term Deposit"; "Business Account"] /\
    StronglySorted (fun a b => magnitude b <= magnitude a) (accountChanges c).
Proof.
  eexists. split; [vm_compute; reflexivity|]. split; [vm_compute; reflexivity|].
  destruct (period_comparison_law Demo.world
              (mkCompareRequest "t-alpha" (Some "2024-01-31") None None) _ eq_refl)
    as (fromDate & fr & tr & f & t & _ & _ & _ & _ & _ & Hlaw).
  exact (proj1 (proj2 (proj2 (proj2 (proj2 Hlaw))))).
Defined.

(** The rounding shows in the comparison.  When the cash of an entity goes
    from 477.44 to 1477.44, the difference of the two binary64 numbers
    exceeds 1000, but the change the program computes is the rounded
    difference, exactly 1000, and the account is not listed. *)
Example period_comparison_rounds :
  exists c q1 q2,
    comparePeriodsHandler RoundingDemo.earlier
      (mkCompareRequest "t-step" (Some "2024-01-31") (Some "2024-02-29") None)
    = CP200 c /\
    parseFloat "477.44" = Fin q1 /\ parseFloat "1477.44" = Fin q2 /\
    1000 < q2 - q1 /\ round53 (q2 - q1) == 1000 /\
    accountChanges c = [].
Proof.
  do 3 eexists. split; [vm_compute; reflexivity|].
  repeat (split; [vm_compute; reflexivity|]). vm_compute. reflexivity.
Qed.

(** * Further properties *)

(** ** The totals of a trial balance *)

Lemma canonical_add a b : canonical (add a b).
Proof. destruct a, b; cbn [add canonical]; auto using round53_idem. Qed.

Lemma canonical_fold l z : canonical z -> canonical (fold_left add l z).
Proof.
  revert z. induction l as [|x l IH]; intros z Hz; cbn [fold_left]; [exact Hz|].
  apply IH, canonical_add.
Qed.

Lemma add_zero_canonical a : canonical a -> add a zero = a.
Proof.
  destruct a as [x| | |]; cbn [add zero canonical]; auto.
  intros H. rewrite (round53_comp (x + 0) x) by lra. now f_equal.
Qed.

Lemma fold_left_add_Fin qs a :
  fold_left add (map Fin qs) (Fin a)
  = Fin (fold_left (fun s x => round53 (s + x)) qs a).
Proof.
  revert a. induction qs as [|q qs IH]; intros a; cbn [map fold_left]; [reflexivity|].
  apply IH.
Qed.

Lemma classTotal_pushAccount c c' info amount t :
  classTotal c (totals (pushAccount c' info amount t))
  = if category_eqb c' c then add (classTotal c (totals t)) amount
    else classTotal c (totals t).
Proof. now destruct c, c'. Qed.

Lemma totalsFollow_push c info t R :
  totalsFollow t R ->
  totalsFollow (addDebitCredit info (pushAccount c info (totalShare c (balance info)) t))
    (R ++ [(c, info)]).
Proof.
  intros (Hc & Hd & Hcr). unfold totalsFollow. split; [|split].
  - intros c0.
    replace (classTotal c0 (totals (addDebitCredit info (pushAccount c info
               (totalShare c (balance info)) t))))
      with (classTotal c0 (totals (pushAccount c info (totalShare c (balance info)) t)))
      by now destruct c0.
    rewrite classTotal_pushAccount, select_app. unfold select at 2. cbn [filter fst].
    destruct (category_eqb c c0) eqn:E; cbn [map snd].
    + assert (c = c0) as <- by (destruct c, c0; cbn in E; congruence).
      rewrite map_app, fold_left_app. cbn [map fold_left]. now rewrite <- Hc.
    + rewrite app_nil_r. apply Hc.
  - replace (totalDebits (totals (addDebitCredit info (pushAccount c info
               (totalShare c (balance info)) t))))
      with (add (totalDebits (totals t)) (debit info)) by now destruct c.
    rewrite map_app, fold_left_app. cbn [map fold_left snd]. now rewrite <- Hd.
  - replace (totalCredits (totals (addDebitCredit info (pushAccount c info
               (totalShare c (balance info)) t))))
      with (add (totalCredits (totals t)) (credit info)) by now destruct c.
    rewrite map_app, fold_left_app. cbn [map fold_left snd]. now rewrite <- Hcr.
Qed.

Lemma totalsFollow_skip info t R :
  debit info = zero -> credit info = zero ->
  totalsFollow t R -> totalsFollow (addDebitCredit info t) R.
Proof.
  intros Hd0 Hc0 (Hc & Hd & Hcr). unfold totalsFollow. split; [|split].
  - intros c.
    replace (classTotal c (totals (addDebitCredit info t)))
      with (classTotal c (totals t)) by now destruct c.
    apply Hc.
  - cbn [addDebitCredit setTotals totals totalDebits]. rewrite Hd0, Hd.
    apply add_zero_canonical, canonical_fold. reflexivity.
  - cbn [addDebitCredit setTotals totals totalCredits]. rewrite Hc0, Hcr.
    apply add_zero_canonical, canonical_fold. reflexivity.
Qed.

Lemma processRow_totalsFollow classify ttl st row R :
  totalsFollow (trialBalance st) R ->
  totalsFollow (trialBalance (processRow classify ttl st row))
    (R ++ (if isDataRow row then rowRecord classify (ttl, row) else [])).
Proof.
  intros H.
  unfold processRow, isDataRow, rowRecord, keptRow, rowName, rowAmount, rowCells.
  cbn [snd fst].
  destruct (cells row) as [cs|]; [|now rewrite app_nil_r].
  destruct (isRow (rowType row) && (2 <=? List.length cs)%nat);
    [|now rewrite app_nil_r].
  destruct (includes (toLowerCase (cellName cs)) "total" || eqb (cellAmount cs) zero);
    cbn [negb]; [now rewrite app_nil_r|].
  destruct (classify (toLowerCase ttl)) as [c|]; cbn [trialBalance].
  - apply (totalsFollow_push c
             (mkAccount (cellName cs) (cellAmount cs) (debitOf c (cellAmount cs))
                (creditOf c (cellAmount cs)) ttl)).
    exact H.
  - rewrite app_nil_r. now apply totalsFollow_skip.
Qed.

Lemma processRows_totalsFollow classify ttl rs st R :
  totalsFollow (trialBalance st) R ->
  totalsFollow (trialBalance (fold_left (processRow classify ttl) rs st))
    (R ++ flat_map (rowRecord classify) (map (pair ttl) (filter isDataRow rs))).
Proof.
  revert st R. induction rs as [|row rs IH]; intros st R H; cbn [fold_left filter].
  - cbn. now rewrite app_nil_r.
  - apply (processRow_totalsFollow classify ttl st row) in H.
    apply IH in H. destruct (isDataRow row); cbn [map flat_map].
    + now rewrite <- app_assoc in H.
    + now rewrite app_nil_r in H.
Qed.

Lemma processSection_totalsFollow classify st s R :
  totalsFollow (trialBalance st) R ->
  totalsFollow (trialBalance (processSection classify st s))
    (R ++ flat_map (rowRecord classify) (dataRowsOfSection s)).
Proof.
  intros H. unfold processSection, dataRowsOfSection.
  destruct (rows s) as [rs|]; [|cbn; now rewrite app_nil_r].
  destruct (truthy (title s)) as [ttl|]; [|cbn; now rewrite app_nil_r].
  destruct (isSection (sectionType s)); [|cbn; now rewrite app_nil_r].
  now apply processRows_totalsFollow.
Qed.

Lemma processReport_totalsFollow classify sections st R :
  totalsFollow (trialBalance st) R ->
  totalsFollow (trialBalance (processReport classify st sections))
    (R ++ records classify sections).
Proof.
  unfold processReport, records, dataRows.
  revert st R. induction sections as [|s sections IH]; intros st R H;
    cbn [fold_left flat_map].
  - now rewrite app_nil_r.
  - apply (processSection_totalsFollow classify st s) in H. apply IH in H.
    now rewrite flat_map_app, app_assoc.
Qed.

Lemma classifyReports_totalsFollow bs pl :
  totalsFollow (trialBalance (classifyReports bs pl))
    (records classifyBalanceSheet bs ++ records classifyProfitAndLoss pl).
Proof.
  unfold classifyReports. apply processReport_totalsFollow.
  apply (processReport_totalsFollow classifyBalanceSheet bs (mkLoop emptyTrialBalance 0) []).
  split; [|split]; try (intros c; destruct c); reflexivity.
Qed.

(** X1: in every trial balance the handler returns, each list holds the
    records of the rows of its class, and the totals are the sums the loops
    accumulated over these records in the order of the rows of the report,
    the balance sheet first, every addition rounded to binary64: when the
    balances of a class are numbers, its total is their rounded sum (of
    their magnitudes, for revenue and expenses), and the totals of debits
    and credits are the rounded sums of the debits and credits of all the
    records.  The order is that of the report, not the sorted order of the
    answer. *)
Theorem totals_agree_with_accounts env req body :
  trialBalanceHandler env req = TB200 body ->
  exists bs pl,
    getReportBalanceSheet env (params_tenantId req)
      (reportDateOf env (query_date req)) = Return bs /\
    getReportProfitAndLoss env (params_tenantId req)
      (reportDateOf env (query_date req)) (reportDateOf env (query_date req))
      = Return pl /\
    let recs := records classifyBalanceSheet (firstReportRows bs)
                ++ records classifyProfitAndLoss (firstReportRows pl) in
    let t := body_trialBalance body in
    (forall c, Permutation (bucket c t) (select c recs)) /\
    (forall c qs,
       map balance (select c recs) = map Fin qs ->
       classTotal c (totals t) = Fin (roundedSum (map (shareOf c) qs))) /\
    (forall qs,
       map (fun p => debit (snd p)) recs = map Fin qs ->
       totalDebits (totals t) = Fin (roundedSum qs)) /\
    (forall qs,
       map (fun p => credit (snd p)) recs = map Fin qs ->
       totalCredits (totals t) = Fin (roundedSum qs)).
Proof.
  intros H. apply trialBalanceHandler_200 in H.
  destruct H as (tokenData & bs & pl & _ & Hbs & Hpl & ->).
  exists bs, pl. split; [exact Hbs|]. split; [exact Hpl|].
  cbn [body_trialBalance].
  change (totals (sortCategories env ?u)) with (totals u).
  destruct (classifyReports_totalsFollow (firstReportRows bs) (firstReportRows pl))
    as (Hc & Hd & Hcr).
  split; [|split; [|split]].
  - intros c. rewrite bucket_sortCategories, classifyReports_bucket.
    symmetry. apply sortBy_perm.
  - intros c qs Hqs. rewrite Hc.
    rewrite <- (map_map balance (totalShare c)), Hqs, map_map.
    replace (map (fun q => totalShare c (Fin q)) qs) with (map Fin (map (shareOf c) qs))
      by (rewrite map_map; apply map_ext; intros q; now destruct c).
    apply fold_left_add_Fin.
  - intros qs Hqs. rewrite Hd, Hqs. apply fold_left_add_Fin.
  - intros qs Hqs. rewrite Hcr, Hqs. apply fold_left_add_Fin.
Qed.

Lemma totals_agree_with_accounts_witness :
  exists body,
    trialBalanceHandler Demo.offline
      (mkTrialBalanceRequest "t-alpha" (Some "2024-01-31")) = TB200 body /\
    map name (assets (body_trialBalance body))
      = ["Business Account"; "Equipment"; "Petty Cash"] /\
    totalAssets (totals (body_trialBalance body))
      = Fin (roundedSum [5000; 5000; 20000]).
Proof.
  eexists. split; [vm_compute; reflexivity|]. split; [vm_compute; reflexivity|].
  destruct (totals_agree_with_accounts Demo.offline
              (mkTrialBalanceRequest "t-alpha" (Some "2024-01-31")) _ eq_refl)
    as (bs & pl & Hbs & Hpl & _ & H & _).
  vm_compute in Hbs. injection Hbs as <-. vm_compute in Hpl. injection Hpl as <-.
  apply (H ASSET [5000; 5000; 20000]). vm_compute. reflexivity.
Defined.

(** ** The count of processed accounts *)

Lemma processRow_processed classify ttl st row :
  processedAccounts (processRow classify ttl st row)
  = (processedAccounts st
     + List.length (filter keptRow (if isDataRow row then [(ttl, row)] else [])))%nat.
Proof.
  unfold processRow, isDataRow, keptRow, rowName, rowAmount, rowCells.
  destruct (cells row) as [cs|] eqn:Hc; cbn [filter List.length]; [|lia].
  destruct (isRow (rowType row) && (2 <=? List.length cs)%nat);
    cbn [filter List.length snd]; [|lia].
  rewrite Hc.
  destruct (includes (toLowerCase (cellName cs)) "total" || eqb (cellAmount cs) zero);
    cbn [negb List.length]; [lia|].
  destruct (classify (toLowerCase ttl)); cbn [processedAccounts]; lia.
Qed.

Lemma processRows_processed classify ttl rs st :
  processedAccounts (fold_left (processRow classify ttl) rs st)
  = (processedAccounts st
     + List.length (filter keptRow (map (pair ttl) (filter isDataRow rs))))%nat.
Proof.
  revert st. induction rs as [|row rs IH]; intros st; cbn [fold_left filter map].
  - cbn. lia.
  - rewrite IH, processRow_processed.
    destruct (isDataRow row); cbn [map filter]; [|cbn; lia].
    destruct (keptRow (ttl, row)); cbn [List.length]; lia.
Qed.

Lemma processReport_processed classify sections st :
  processedAccounts (processReport classify st sections)
  = (processedAccounts st
     + List.length (filter keptRow (dataRows sections)))%nat.
Proof.
  unfold processReport, dataRows.
  revert st. induction sections as [|s sections IH]; intros st;
    cbn [fold_left flat_map].
  - cbn. lia.
  - rewrite IH, filter_app, length_app.
    unfold processSection, dataRowsOfSection.
    destruct (rows s) as [rs|]; [|cbn; lia].
    destruct (truthy (title s)) as [ttl|]; [|cbn; lia].
    destruct (isSection (sectionType s)); [|cbn; lia].
    rewrite processRows_processed. lia.
Qed.

Lemma records_length classify l :
  (List.length (flat_map (rowRecord classify) l)
   + List.length (filter (unclassedRow classify) l)
   = List.length (filter keptRow l))%nat.
Proof.
  induction l as [|r l IH]; [reflexivity|].
  cbn [flat_map filter]. rewrite length_app.
  unfold rowRecord at 1, unclassedRow at 1.
  destruct (keptRow r); cbn [andb]; [|cbn [List.length]; lia].
  destruct (classify (toLowerCase (fst r))); cbn [List.length]; lia.
Qed.

(** X2: [processedAccounts] counts every row that is kept, also the rows of
    a section whose title gives no class to its loop: it is the number of
    accounts returned plus the number of kept rows without a class, which
    appear in no list and in no total. *)
Theorem processed_accounts_count env req body :
  trialBalanceHandler env req = TB200 body ->
  exists bs pl,
    getReportBalanceSheet env (params_tenantId req)
      (reportDateOf env (query_date req)) = Return bs /\
    getReportProfitAndLoss env (params_tenantId req)
      (reportDateOf env (query_date req)) (reportDateOf env (query_date req))
      = Return pl /\
    body_processedAccounts body
    = List.length
        (filter keptRow (dataRows (firstReportRows bs) ++ dataRows (firstReportRows pl)))
    /\
    body_processedAccounts body
    = (List.length (classedAccounts (body_trialBalance body))
       + List.length (filter (unclassedRow classifyBalanceSheet)
                        (dataRows (firstReportRows bs)))
       + List.length (filter (unclassedRow classifyProfitAndLoss)
                        (dataRows (firstReportRows pl))))%nat.
Proof.
  intros H. apply trialBalanceHandler_200 in H.
  destruct H as (tokenData & bs & pl & _ & Hbs & Hpl & ->).
  exists bs, pl. split; [exact Hbs|]. split; [exact Hpl|].
  cbn [body_processedAccounts body_trialBalance].
  rewrite (Permutation_length (classed_sort_perm env _)).
  rewrite (Permutation_length
             (classed_partition _ _
                (classifyReports_bucket (firstReportRows bs) (firstReportRows pl)))).
  unfold classifyReports. rewrite !processReport_processed. cbn [processedAccounts].
  rewrite filter_app, !length_app. split; [lia|]. unfold records.
  pose proof (records_length classifyBalanceSheet (dataRows (firstReportRows bs))).
  pose proof (records_length classifyProfitAndLoss (dataRows (firstReportRows pl))).
  lia.
Qed.

Lemma processed_accounts_count_witness :
  exists body,
    trialBalanceHandler Demo.offline
      (mkTrialBalanceRequest "t-alpha" (Some "2024-01-31")) = TB200 body /\
    body_processedAccounts body = 9%nat.
Proof.
  eexists. split; [vm_compute; reflexivity|].
  destruct (processed_accounts_count Demo.offline
              (mkTrialBalanceRequest "t-alpha" (Some "2024-01-31")) _ eq_refl)
    as (bs & pl & _ & _ & _ & _).
  reflexivity.
Defined.

(** ** The order of the accounts *)

Lemma ascii_compare_cases a b :
  (Ascii.compare a b = Eq /\ a = b) \/
  (Ascii.compare a b = Lt /\ (N_of_ascii a < N_of_ascii b)%N) \/
  (Ascii.compare a b = Gt /\ (N_of_ascii b < N_of_ascii a)%N).
Proof.
  unfold Ascii.compare.
  destruct (N.compare_spec (N_of_ascii a) (N_of_ascii b)) as [H|H|H]; auto.
  left. split; [reflexivity|].
  rewrite <- (ascii_N_embedding a), <- (ascii_N_embedding b). now rewrite H.
Qed.

Lemma string_compare_refl a : String.compare a a = Eq.
Proof.
  induction a as [|x a IH]; cbn; [reflexivity|].
  unfold Ascii.compare. now rewrite N.compare_refl.
Qed.

Lemma string_compare_not_after a b c :
  String.compare a b <> Gt -> String.compare b c <> Gt ->
  String.compare a c <> Gt.
Proof.
  revert b c. induction a as [|x a IH]; intros [|y b] [|z c]; cbn;
    try congruence.
  destruct (ascii_compare_cases x y) as [[E1 ->]|[[E1 H1]|[E1 H1]]];
    destruct (ascii_compare_cases y z) as [[E2 <-]|[[E2 H2]|[E2 H2]]];
    rewrite ?E1, ?E2; try congruence.
  - apply IH.
  - intros _ _. destruct (ascii_compare_cases x z) as [[E ->]|[[E H]|[E H]]];
      rewrite E; try congruence; lia.
Qed.

Lemma gtb_compareCodeUnits a b :
  gtb (Demo.compareCodeUnits a b) zero = true <-> String.compare a b = Gt.
Proof.
  unfold Demo.compareCodeUnits.
  destruct (String.compare a b); cbn; split; congruence.
Qed.

Lemma compareCodeUnits_consistent : consistentComparator Demo.compareCodeUnits.
Proof.
  split.
  - intros a b c H1 H2.
    apply not_true_iff_false. rewrite gtb_compareCodeUnits.
    apply string_compare_not_after with (b := b);
      rewrite <- gtb_compareCodeUnits; congruence.
  - intros a b H. apply gtb_compareCodeUnits in H.
    apply not_true_iff_false. rewrite gtb_compareCodeUnits.
    rewrite String.compare_antisym, H. discriminate.
Qed.

(** X3: when [localeCompare] orders the names, each of the five lists of a
    returned trial balance is sorted by name: no account is followed by
    one that [localeCompare] puts before it. *)
Theorem categories_sorted_by_name env req body c :
  consistentComparator (localeCompare env) ->
  trialBalanceHandler env req = TB200 body ->
  StronglySorted
    (fun a b => gtb (localeCompare env (name a) (name b)) zero = false)
    (bucket c (body_trialBalance body)).
Proof.
  intros [Htrans Htotal] H. apply trialBalanceHandler_200 in H.
  destruct H as (tokenData & bs & pl & _ & _ & _ & ->).
  cbn [body_trialBalance]. rewrite bucket_sortCategories.
  apply sortBy_sorted with (Good := fun _ => True).
  - intros x y z. apply Htrans.
  - intros x y _ _. apply Htotal.
  - intros x y _ _ Hxy. exact Hxy.
  - apply Forall_forall. auto.
Qed.

Lemma categories_sorted_by_name_witness :
  exists body,
    trialBalanceHandler Demo.offline
      (mkTrialBalanceRequest "t-alpha" (Some "2024-01-31")) = TB200 body /\
    map name (assets (body_trialBalance body))
      = ["Business Account"; "Equipment"; "Petty Cash"] /\
    StronglySorted
      (fun a b => gtb (Demo.compareCodeUnits (name a) (name b)) zero = false)
      (assets (body_trialBalance body)).
Proof.
  eexists. split; [vm_compute; reflexivity|]. split; [vm_compute; reflexivity|].
  apply (categories_sorted_by_name Demo.offline
           (mkTrialBalanceRequest "t-alpha" (Some "2024-01-31")) _ ASSET
           compareCodeUnits_consistent eq_refl).
Defined.

(** ** The token table *)

Lemma getXeroToken_table env table tenantId :
  poolQuery env = Return table ->
  getXeroToken env tenantId
  = match filter (fun r => String.eqb (tenant_id r) tenantId && isXero r) table with
    | [] => None
    | token :: _ =>
        if (expires_at token <? dateNow env)%Z then None
        else Some (mkTokenData (access_token token) (refresh_token token)
                     ((expires_at token - dateNow env) / 1000)%Z
                     (tenant_id token) (tenant_name token))
    end.
Proof. unfold getXeroToken. intros ->. reflexivity. Qed.

Lemma getAllXeroConnections_table env table :
  poolQuery env = Return table ->
  getAllXeroConnections env
  = orEmpty (mapResult (connectionOfRow (dateNow env)) (filter isXero table)).
Proof. unfold getAllXeroConnections. intros ->. reflexivity. Qed.

Lemma mapResult_seen now l :
  Forall (fun r => last_seen r <> None) l ->
  exists conns,
    mapResult (connectionOfRow now) l = Return conns /\
    map conn_tenantId conns = map tenant_id l /\
    map conn_tenantName conns = map tenant_name l /\
    map connected conns = map (unexpired now) l.
Proof.
  induction 1 as [|r l Hr _ (conns & Hm & H1 & H2 & H3)].
  - exists []. repeat split.
  - cbn [mapResult]. unfold connectionOfRow at 1.
    destruct (last_seen r) as [seen|]; [|congruence]. rewrite Hm. cbn.
    eexists. split; [reflexivity|]. cbn. now rewrite H1, H2, H3.
Qed.

Lemma mapResult_unseen now l :
  Exists (fun r => last_seen r = None) l ->
  exists message, mapResult (connectionOfRow now) l = Throw message.
Proof.
  induction 1 as [r l Hr|r l _ (message & IH)]; cbn [mapResult].
  - unfold connectionOfRow at 1. rewrite Hr. cbn. eauto.
  - destruct (connectionOfRow now r); cbn; [|eauto].
    rewrite IH. cbn. eauto.
Qed.

(** X4: [getAllXeroConnections] lists one connection for each row of
    provider xero, in the order of the table, with [connected] telling
    whether the token expires after now; but it lists nothing at all when
    the query fails or when one such row has a null [last_seen]. *)
Theorem connections_listed env :
  (forall message, poolQuery env = Throw message -> getAllXeroConnections env = []) /\
  (forall table,
     poolQuery env = Return table ->
     Exists (fun r => last_seen r = None) (filter isXero table) ->
     getAllXeroConnections env = []) /\
  (forall table,
     poolQuery env = Return table ->
     Forall (fun r => last_seen r <> None) (filter isXero table) ->
     map conn_tenantId (getAllXeroConnections env)
       = map tenant_id (filter isXero table) /\
     map conn_tenantName (getAllXeroConnections env)
       = map tenant_name (filter isXero table) /\
     map connected (getAllXeroConnections env)
       = map (unexpired (dateNow env)) (filter isXero table)).
Proof.
  split; [|split].
  - intros message H. unfold getAllXeroConnections. now rewrite H.
  - intros table H Hex. rewrite (getAllXeroConnections_table _ _ H).
    destruct (mapResult_unseen (dateNow env) _ Hex) as (message & ->).
    reflexivity.
  - intros table H Hall. rewrite (getAllXeroConnections_table _ _ H).
    destruct (mapResult_seen (dateNow env) _ Hall) as (conns & -> & H1 & H2 & H3).
    cbn. auto.
Qed.

Lemma connections_listed_witness :
  map conn_tenantId (getAllXeroConnections Demo.offline)
    = ["t-alpha"; "t-beta"; "t-lapsed"; "t-gamma"]
  /\ map connected (getAllXeroConnections Demo.offline) = [true; true; false; true].
Proof.
  destruct (connections_listed Demo.offline) as (_ & _ & H).
  destruct (H [Demo.alpha; Demo.beta; Demo.lapsed; Demo.gamma] eq_refl)
    as (H1 & _ & H3).
  - repeat constructor; discriminate.
  - rewrite H1, H3. split; reflexivity.
Defined.

Lemma first_row_of_tenant (P : TokenRow -> bool) table r :
  NoDup (map tenant_id table) -> In r table -> P r = true ->
  filter (fun x => String.eqb (tenant_id x) (tenant_id r) && P x) table = [r].
Proof.
  induction table as [|x table IH]; intros Hnd Hin HP; [contradiction|].
  cbn [map] in Hnd. inversion Hnd as [|? ? Hx Hnd']; subst.
  cbn [filter]. destruct Hin as [->|Hin].
  - rewrite String.eqb_refl, HP. cbn [andb]. f_equal.
    clear IH Hnd Hnd'. induction table as [|y table IH]; [reflexivity|].
    cbn [filter]. destruct (String.eqb (tenant_id y) (tenant_id r)) eqn:E.
    + apply String.eqb_eq in E. exfalso. apply Hx. cbn. now left.
    + cbn [andb]. apply IH. intros H. apply Hx. now right.
  - destruct (String.eqb (tenant_id x) (tenant_id r)) eqn:E.
    + apply String.eqb_eq in E. exfalso. apply Hx. rewrite E. now apply in_map.
    + cbn [andb]. now apply IH.
Qed.

(** X5: with unique tenant ids in the table, an entity that
    [getAllXeroConnections] reports as connected has a token for
    [getXeroToken] at the same instant, under the same name and with a
    lifetime that is not negative; so the trial-balance handler does not
    answer 404 for it. *)
Theorem connected_entity_has_token env table conn :
  poolQuery env = Return table ->
  NoDup (map tenant_id table) ->
  In conn (getAllXeroConnections env) ->
  connected conn = true ->
  (exists tokenData,
     getXeroToken env (conn_tenantId conn) = Some tokenData /\
     td_tenantId tokenData = conn_tenantId conn /\
     td_tenantName tokenData = conn_tenantName conn /\
     (0 <= td_expires_in tokenData)%Z) /\
  (forall date error,
     trialBalanceHandler env (mkTrialBalanceRequest (conn_tenantId conn) date)
     <> TB404 error).
Proof.
  intros Hq Hnd Hin Hc.
  assert (Htok : exists tokenData,
             getXeroToken env (conn_tenantId conn) = Some tokenData /\
             td_tenantId tokenData = conn_tenantId conn /\
             td_tenantName tokenData = conn_tenantName conn /\
             (0 <= td_expires_in tokenData)%Z).
  { rewrite (getAllXeroConnections_table _ _ Hq) in Hin.
    destruct (mapResult _ _) as [conns|] eqn:Hm; [|contradiction].
    destruct (mapResult_In _ _ _ _ Hm Hin) as (row & Hrow & Hconn).
    apply filter_In in Hrow as [Hrow Hx].
    unfold connectionOfRow in Hconn. destruct (last_seen row); [|discriminate].
    injection Hconn as <-. cbn [connected conn_tenantId conn_tenantName] in *.
    rewrite (getXeroToken_table _ _ _ Hq).
    rewrite (first_row_of_tenant isXero table row Hnd Hrow Hx).
    apply Z.ltb_lt in Hc.
    destruct (expires_at row <? dateNow env)%Z eqn:E; [apply Z.ltb_lt in E; lia|].
    eexists. split; [reflexivity|]. cbn. repeat split.
    apply Z.div_pos; lia. }
  split; [exact Htok|].
  intros date error. destruct Htok as (tokenData & Htok & _).
  unfold trialBalanceHandler, trialBalanceTry. cbn [params_tenantId]. rewrite Htok.
  destruct (setTokenSet env tokenData); cbn; [|discriminate].
  destruct (getReportBalanceSheet env _ _); cbn; [|discriminate].
  destruct (getReportProfitAndLoss env _ _ _); cbn; discriminate.
Qed.

Lemma connected_entity_has_token_witness :
  exists tokenData,
    getXeroToken Demo.offline "t-beta" = Some tokenData /\
    td_tenantName tokenData = "Beta Pty".
Proof.
  destruct (connected_entity_has_token Demo.offline
              [Demo.alpha; Demo.beta; Demo.lapsed; Demo.gamma]
              (mkConnection "t-beta" "Beta Pty" "xero" true
                 "2024-03-01T08:00:00.000Z" None))
    as ((tokenData & H & _ & Hn & _) & _).
  - reflexivity.
  - repeat constructor; cbn; intuition discriminate.
  - vm_compute. right. left. reflexivity.
  - reflexivity.
  - exists tokenData. split; assumption.
Defined.

(** ** Storing a token *)

Lemma upsertToken_other tenantId tenantName tokenData e seen table (P : TokenRow -> bool) other :
  other <> tenantId ->
  filter (fun x => String.eqb (tenant_id x) other && P x)
    (upsertToken tenantId tenantName tokenData e seen table)
  = filter (fun x => String.eqb (tenant_id x) other && P x) table.
Proof.
  intros Hne. unfold upsertToken.
  assert (Hno : String.eqb tenantId other = false) by (apply String.eqb_neq; congruence).
  destruct (existsb _ table).
  - induction table as [|r table IH]; [reflexivity|]. cbn [map filter].
    rewrite IH. destruct (String.eqb (tenant_id r) tenantId) eqn:E; [|reflexivity].
    apply String.eqb_eq in E. cbn [tenant_id]. rewrite E, Hno. reflexivity.
  - rewrite filter_app. cbn [filter tenant_id]. rewrite Hno. cbn [andb].
    now rewrite app_nil_r.
Qed.

Lemma upsertToken_lookup tenantId tenantName tokenData e seen table :
  (forall r, In r table -> tenant_id r = tenantId -> isXero r = true) ->
  filter (fun x => String.eqb (tenant_id x) tenantId && isXero x)
    (upsertToken tenantId tenantName tokenData e seen table)
  = match filter (fun x => String.eqb (tenant_id x) tenantId) table with
    | [] => [mkTokenRow tenantId tenantName "xero" (ts_access_token tokenData)
               (ts_refresh_token tokenData) e (Some seen)]
    | l => map (fun r => mkTokenRow tenantId (tenant_name r) (provider r)
                           (ts_access_token tokenData) (ts_refresh_token tokenData)
                           e (Some seen)) l
    end.
Proof.
  intros Hx. unfold upsertToken.
  assert (Hex : existsb (fun r => String.eqb (tenant_id r) tenantId) table
                = negb (match filter (fun x => String.eqb (tenant_id x) tenantId) table
                        with [] => true | _ => false end)).
  { clear Hx. induction table as [|r table IH]; [reflexivity|]. cbn [existsb filter].
    destruct (String.eqb (tenant_id r) tenantId); [reflexivity|]. exact IH. }
  rewrite Hex. clear Hex.
  assert (Hmap : filter (fun x => String.eqb (tenant_id x) tenantId && isXero x)
                   (map (fun r =>
                           if String.eqb (tenant_id r) tenantId then
                             mkTokenRow (tenant_id r) (tenant_name r) (provider r)
                               (ts_access_token tokenData) (ts_refresh_token tokenData)
                               e (Some seen)
                           else r) table)
                 = map (fun r => mkTokenRow tenantId (tenant_name r) (provider r)
                                   (ts_access_token tokenData)
                                   (ts_refresh_token tokenData) e (Some seen))
                     (filter (fun x => String.eqb (tenant_id x) tenantId) table)).
  { induction table as [|r table IH]; [reflexivity|]. cbn [map filter].
    rewrite IH by (intros; apply Hx; auto; now right).
    destruct (String.eqb (tenant_id r) tenantId) eqn:E.
    - cbn [tenant_id]. rewrite E.
      assert (Hr : isXero r = true)
        by (apply Hx; [now left|now apply String.eqb_eq]).
      unfold isXero in *. cbn [provider]. rewrite Hr. cbn [andb map].
      apply String.eqb_eq in E. now rewrite E.
    - rewrite E. reflexivity. }
  destruct (filter (fun x => String.eqb (tenant_id x) tenantId) table) as [|r0 l] eqn:Hf;
    cbn [negb].
  - rewrite filter_app. cbn [filter tenant_id].
    rewrite String.eqb_refl. cbn [andb isXero provider].
    assert (Hnone : filter (fun x => String.eqb (tenant_id x) tenantId && isXero x) table
                    = []).
    { clear Hmap Hx. induction table as [|r table IH]; [reflexivity|].
      cbn [filter] in *. destruct (String.eqb (tenant_id r) tenantId);
        [discriminate|]. cbn [andb]. now apply IH. }
    rewrite Hnone. reflexivity.
  - exact Hmap.
Qed.

Lemma getXeroToken_stored env table later tenantId :
  getXeroToken (withClock (withTokens env table) later) tenantId
  = match filter (fun r => String.eqb (tenant_id r) tenantId && isXero r) table with
    | [] => None
    | token :: _ =>
        if (expires_at token <? later)%Z then None
        else Some (mkTokenData (access_token token) (refresh_token token)
                     ((expires_at token - later) / 1000)%Z
                     (tenant_id token) (tenant_name token))
    end.
Proof. reflexivity. Qed.

(** X6: a token stored for a tenant is the one [getXeroToken] returns for
    that tenant until it expires: with the access and refresh tokens just
    stored and the remaining lifetime; but under the name the tenant
    already had in the table, if it had a row, since the conflict clause
    does not update the name. *)
Theorem store_then_get env table tenantId tenantName tokenData later :
  poolQuery env = Return table ->
  (forall r, In r table -> tenant_id r = tenantId -> isXero r = true) ->
  (later <= dateNow env + ts_expires_in tokenData * 1000)%Z ->
  getXeroToken (withClock (storeXeroToken env tenantId tenantName tokenData) later)
    tenantId
  = Some (mkTokenData (ts_access_token tokenData) (ts_refresh_token tokenData)
            ((dateNow env + ts_expires_in tokenData * 1000 - later) / 1000)%Z
            tenantId
            (match find (fun r => String.eqb (tenant_id r) tenantId) table with
             | Some r => tenant_name r
             | None => tenantName
             end)).
Proof.
  intros Hq Hx Hlater. unfold storeXeroToken. rewrite Hq.
  rewrite getXeroToken_stored.
  rewrite (upsertToken_lookup _ _ _ _ _ _ Hx).
  assert (Hfind : find (fun r => String.eqb (tenant_id r) tenantId) table
                  = hd_error (filter (fun r => String.eqb (tenant_id r) tenantId) table)).
  { clear. induction table as [|r table IH]; [reflexivity|]. cbn [find filter].
    destruct (String.eqb (tenant_id r) tenantId); [reflexivity|exact IH]. }
  rewrite Hfind.
  assert (Hnot : (dateNow env + ts_expires_in tokenData * 1000 <? later)%Z = false)
    by (apply Z.ltb_ge; lia).
  destruct (filter (fun r => String.eqb (tenant_id r) tenantId) table) as [|r0 l];
    cbn [map hd_error expires_at access_token refresh_token tenant_id tenant_name];
    now rewrite Hnot.
Qed.

Lemma store_then_get_witness :
  exists tokenData,
    getXeroToken
      (withClock
         (storeXeroToken Demo.offline "t-lapsed" "Renamed Pty"
            (mkTokenSet "fresh" (Some "again") 1800))
         1600000)
      "t-lapsed" = Some tokenData /\
    td_access_token tokenData = "fresh" /\
    td_tenantName tokenData = "Lapsed Pty" /\
    td_expires_in tokenData = 1200%Z.
Proof.
  eexists. split.
  - apply (store_then_get Demo.offline
             [Demo.alpha; Demo.beta; Demo.lapsed; Demo.gamma]).
    + reflexivity.
    + intros r [<-|[<-|[<-|[<-|[]]]]] _; reflexivity.
    + cbn. lia.
  - repeat split.
Defined.

(** X7: storing a token for a tenant leaves the tokens of the other
    tenants as they were. *)
Theorem store_leaves_other_tenants env tenantId tenantName tokenData later other :
  other <> tenantId ->
  getXeroToken (withClock (storeXeroToken env tenantId tenantName tokenData) later) other
  = getXeroToken (withClock env later) other.
Proof.
  intros Hne. unfold storeXeroToken.
  destruct (poolQuery env) as [table|message] eqn:Hq; [|reflexivity].
  rewrite getXeroToken_stored.
  rewrite (getXeroToken_table (withClock env later) table other Hq).
  cbn [withClock dateNow].
  now rewrite upsertToken_other.
Qed.

Lemma store_leaves_other_tenants_witness :
  getXeroToken
    (withClock
       (storeXeroToken Demo.offline "t-lapsed" "Renamed Pty"
          (mkTokenSet "fresh" (Some "again") 1800))
       1600000)
    "t-alpha"
  = getXeroToken (withClock Demo.offline 1600000) "t-alpha".
Proof.
  apply store_leaves_other_tenants. discriminate.
Defined.

(** ** Refreshing tokens *)

Lemma refreshStep_counts st token :
  let st' := refreshStep st token in
  (rl_refreshed st' + rl_failed st' = S (rl_refreshed st + rl_failed st))%nat /\
  map re_tenantId (rl_results st') = map re_tenantId (rl_results st) ++ [tenant_id token] /\
  (rl_refreshed st' - rl_refreshed st
   = List.length (filter (fun e => success (re_result e)) (rl_results st'))
     - List.length (filter (fun e => success (re_result e)) (rl_results st)))%nat /\
  (List.length (filter (fun e => success (re_result e)) (rl_results st))
   <= List.length (filter (fun e => success (re_result e)) (rl_results st')))%nat /\
  (rl_refreshed st <= rl_refreshed st')%nat.
Proof.
  unfold refreshStep.
  destruct (refreshXeroToken (rl_env st) (tenant_id token)) as [renv result].
  destruct (success result) eqn:Hs;
    cbn [rl_refreshed rl_failed rl_results];
    rewrite map_app, filter_app, length_app; cbn [map filter re_tenantId re_result];
    rewrite Hs; cbn [List.length]; repeat split; lia.
Qed.

Lemma refreshLoop_counts selected st :
  let st' := fold_left refreshStep selected st in
  (rl_refreshed st' + rl_failed st'
   = rl_refreshed st + rl_failed st + List.length selected)%nat /\
  map re_tenantId (rl_results st')
  = map re_tenantId (rl_results st) ++ map tenant_id selected /\
  (rl_refreshed st' + List.length (filter (fun e => success (re_result e)) (rl_results st))
   = rl_refreshed st
     + List.length (filter (fun e => success (re_result e)) (rl_results st')))%nat.
Proof.
  revert st. induction selected as [|token selected IH]; intros st; cbn [fold_left].
  - cbn. rewrite app_nil_r. repeat split; lia.
  - destruct (IH (refreshStep st token)) as (H1 & H2 & H3).
    destruct (refreshStep_counts st token) as (G1 & G2 & G3 & G4 & G5).
    cbn zeta in *. split; [|split].
    + cbn [List.length]. lia.
    + rewrite H2, G2, <- app_assoc. reflexivity.
    + lia.
Qed.

(** X8: [refreshAllExpiringTokens] attempts the tokens of provider xero that
    expire within ten minutes and have not expired yet, once each and in
    the order of the table: [results] has one entry for each, [refreshed]
    counts the entries that succeeded and [failed] the others. *)
Theorem refresh_all_counts renv table :
  poolQuery (storage renv) = Return table ->
  let selected := filter (expiringSoon (dateNow (storage renv))) table in
  let summary := snd (refreshAllExpiringTokens renv) in
  exists entries,
    results summary = Some entries /\
    map re_tenantId entries = map tenant_id selected /\
    refreshed summary
      = List.length (filter (fun e => success (re_result e)) entries) /\
    (refreshed summary + failed summary = List.length selected)%nat.
Proof.
  intros Hq selected summary. unfold summary, refreshAllExpiringTokens.
  rewrite Hq. fold selected.
  destruct selected as [|token selected'] eqn:Hsel.
  - exists []. repeat split.
  - rewrite <- Hsel.
    destruct (refreshLoop_counts selected
                (mkRefreshLoop
                   (atClock renv (afterSelect renv (dateNow (storage renv)))) [] 0 0))
      as (H1 & H2 & H3).
    cbn zeta in *. cbn [rl_refreshed rl_failed rl_results map app filter List.length] in *.
    rewrite Hsel in *. cbn [snd results refreshed failed].
    eexists. split; [reflexivity|]. repeat split; try assumption; lia.
Qed.

Lemma refresh_all_counts_witness :
  exists entries,
    results (snd (refreshAllExpiringTokens RefreshDemo.world)) = Some entries /\
    map re_tenantId entries = ["t-soon"; "t-single"] /\
    refreshed (snd (refreshAllExpiringTokens RefreshDemo.world)) = 1%nat /\
    failed (snd (refreshAllExpiringTokens RefreshDemo.world)) = 1%nat.
Proof.
  destruct (refresh_all_counts RefreshDemo.world
              [RefreshDemo.soon; Demo.lapsed; RefreshDemo.single; Demo.alpha] eq_refl)
    as (entries & H1 & H2 & _ & _).
  exists entries. split; [exact H1|]. split; [exact H2|]. split; reflexivity.
Defined.

Lemma refreshXeroToken_keeps_others renv tenantId r :
  tenant_id r <> tenantId ->
  In r (tableOf (storage renv)) ->
  In r (tableOf (storage (fst (refreshXeroToken renv tenantId)))).
Proof.
  intros Hne Hin. unfold refreshXeroToken.
  destruct (poolQuery (storage renv)) as [table|] eqn:Hq; [|exact Hin].
  destruct (filter _ table) as [|storedToken l]; [exact Hin|].
  destruct (truthy (refresh_token storedToken)); [|exact Hin].
  destruct (refreshToken renv _) as [newTokenSet|]; [|exact Hin].
  unfold tableOf in *. rewrite Hq in Hin.
  cbn [fst storage withTokens poolQuery orEmpty] in *.
  unfold updateToken. apply in_map_iff. exists r. split; [|exact Hin].
  destruct (String.eqb (tenant_id r) tenantId) eqn:E; [|reflexivity].
  apply String.eqb_eq in E. contradiction.
Qed.

Lemma refreshLoop_keeps_others selected st r :
  (forall token, In token selected -> tenant_id r <> tenant_id token) ->
  In r (tableOf (storage (rl_env st))) ->
  In r (tableOf (storage (rl_env (fold_left refreshStep selected st)))).
Proof.
  revert st. induction selected as [|token selected IH]; intros st Hne Hin;
    cbn [fold_left]; [exact Hin|].
  apply IH; [intros; apply Hne; now right|].
  unfold refreshStep.
  pose proof (refreshXeroToken_keeps_others (rl_env st) (tenant_id token) r
                (Hne token (or_introl eq_refl)) Hin) as H.
  destruct (refreshXeroToken (rl_env st) (tenant_id token)) as [renv result].
  now destruct (success result).
Qed.

Lemma NoDup_map_same {A B : Type} (f : A -> B) l x y :
  NoDup (map f l) -> In x l -> In y l -> f x = f y -> x = y.
Proof.
  induction l as [|z l IH]; intros Hnd Hx Hy Hf; [contradiction|].
  cbn [map] in Hnd. inversion Hnd as [|? ? Hz Hnd']; subst.
  destruct Hx as [->|Hx], Hy as [->|Hy]; auto.
  - exfalso. apply Hz. rewrite Hf. now apply in_map.
  - exfalso. apply Hz. rewrite <- Hf. now apply in_map.
Qed.

(** X9: with unique tenant ids, [refreshAllExpiringTokens] leaves every row
    it does not select as it was; in particular a token that has already
    expired is never refreshed and stays expired. *)
Theorem refresh_all_leaves_expired renv table r :
  poolQuery (storage renv) = Return table ->
  NoDup (map tenant_id table) ->
  In r table ->
  expiringSoon (dateNow (storage renv)) r = false ->
  In r (tableOf (storage (fst (refreshAllExpiringTokens renv)))).
Proof.
  intros Hq Hnd Hin Hr. unfold refreshAllExpiringTokens. rewrite Hq.
  destruct (filter (expiringSoon (dateNow (storage renv))) table)
    as [|token selected] eqn:Hsel.
  - cbn [fst atClock storage]. unfold tableOf. cbn [withClock poolQuery].
    now rewrite Hq.
  - cbn [fst]. rewrite <- Hsel. apply refreshLoop_keeps_others.
    + intros t Ht Heq. apply filter_In in Ht as [Ht Hs].
      assert (r = t) by (eapply NoDup_map_same; eauto). subst. congruence.
    + cbn [rl_env atClock storage]. unfold tableOf. cbn [withClock poolQuery].
      now rewrite Hq.
Qed.

Lemma refresh_all_leaves_expired_witness :
  In Demo.lapsed
    (tableOf (storage (fst (refreshAllExpiringTokens RefreshDemo.world)))).
Proof.
  apply (refresh_all_leaves_expired RefreshDemo.world
           [RefreshDemo.soon; Demo.lapsed; RefreshDemo.single; Demo.alpha]).
  - reflexivity.
  - repeat constructor; cbn; intuition discriminate.
  - right. left. reflexivity.
  - reflexivity.
Defined.

Lemma updateToken_lookup tenantId newTokenSet expiresAt seen table :
  filter (fun r => String.eqb (tenant_id r) tenantId && isXero r)
    (updateToken tenantId newTokenSet expiresAt seen table)
  = map (fun r => mkTokenRow (tenant_id r) (tenant_name r) (provider r)
                    (ts_access_token newTokenSet) (ts_refresh_token newTokenSet)
                    expiresAt (Some seen))
      (filter (fun r => String.eqb (tenant_id r) tenantId && isXero r) table).
Proof.
  unfold updateToken, isXero.
  induction table as [|r table IH]; [reflexivity|]. cbn [map filter].
  rewrite IH.
  destruct (String.eqb (tenant_id r) tenantId && String.eqb (provider r) "xero")
    eqn:E; cbn [tenant_id provider]; rewrite E; reflexivity.
Qed.

(** X10: [refreshXeroToken] reads the clock three times.  When it fails,
    the table is as it was.  When it succeeds, the token set the identity
    provider answered is stored with the expiry computed when the provider
    answered, and [getXeroToken] returns it for the tenant, under the name
    of the stored row, until that expiry and no longer; the [newExpiresAt]
    of the result is computed when the UPDATE has answered, so as soon as
    the UPDATE takes time it names an instant at which [getXeroToken]
    already answers null. *)
Theorem refresh_then_get renv tenantId later :
  let outcome := refreshXeroToken renv tenantId in
  let selected := afterSelect renv (dateNow (storage renv)) in
  let refreshedAt := afterRefresh renv selected in
  let updated := afterUpdate renv refreshedAt in
  (success (snd outcome) = false ->
   poolQuery (storage (fst outcome)) = poolQuery (storage renv)) /\
  (success (snd outcome) = true ->
   exists storedToken newTokenSet,
     let storedExpiry := (refreshedAt + ts_expires_in newTokenSet * 1000)%Z in
     let reported := (updated + ts_expires_in newTokenSet * 1000)%Z in
     refreshToken renv
       (mkTokenSet (access_token storedToken) (refresh_token storedToken)
          ((expires_at storedToken - selected) / 1000)%Z)
       = Return newTokenSet /\
     newExpiresAt (snd outcome) = Some reported /\
     ((later <= storedExpiry)%Z ->
      getXeroToken (withClock (storage (fst outcome)) later) tenantId
      = Some (mkTokenData (ts_access_token newTokenSet) (ts_refresh_token newTokenSet)
                ((storedExpiry - later) / 1000)%Z
                tenantId (tenant_name storedToken))) /\
     ((storedExpiry < later)%Z ->
      getXeroToken (withClock (storage (fst outcome)) later) tenantId = None) /\
     ((refreshedAt < updated)%Z ->
      getXeroToken (withClock (storage (fst outcome)) reported) tenantId = None)).
Proof.
  cbv zeta. unfold refreshXeroToken.
  destruct (poolQuery (storage renv)) as [table|] eqn:Hq;
    [|split; [intros _; exact Hq|discriminate]].
  destruct (filter _ table) as [|storedToken l] eqn:Hf;
    [split; [intros _; exact Hq|discriminate]|].
  destruct (truthy (refresh_token storedToken));
    [|split; [intros _; exact Hq|discriminate]].
  destruct (refreshToken renv _) as [newTokenSet|] eqn:Hr;
    [|split; [intros _; exact Hq|discriminate]].
  split; [discriminate|]. intros _. exists storedToken, newTokenSet.
  split; [exact Hr|]. split; [reflexivity|].
  set (selected := afterSelect renv (dateNow (storage renv))) in *.
  set (refreshedAt := afterRefresh renv selected).
  set (updated := afterUpdate renv refreshedAt).
  set (storedExpiry := (refreshedAt + ts_expires_in newTokenSet * 1000)%Z).
  assert (Hid : tenant_id storedToken = tenantId).
  { assert (Hin : In storedToken (filter (fun r => String.eqb (tenant_id r) tenantId
                                            && String.eqb (provider r) "xero") table))
      by (rewrite Hf; now left).
    apply filter_In in Hin as [_ Hin]. apply andb_prop in Hin as [Hin _].
    now apply String.eqb_eq. }
  assert (Hget : forall now,
             getXeroToken
               (withClock
                  (storage
                     (atClock
                        (mkRefreshEnv
                           (withTokens (storage renv)
                              (updateToken tenantId newTokenSet storedExpiry
                                 (isoNow (storage renv)) table))
                           (refreshToken renv) (afterSelect renv) (afterRefresh renv)
                        (afterUpdate renv))
                        updated))
                  now) tenantId
             = if (storedExpiry <? now)%Z then None
               else Some (mkTokenData (ts_access_token newTokenSet)
                            (ts_refresh_token newTokenSet)
                            ((storedExpiry - now) / 1000)%Z
                            tenantId (tenant_name storedToken))).
  { intros now.
    change (getXeroToken (withClock (storage (atClock ?e ?t)) now) tenantId)
      with (getXeroToken (withClock (storage e) now) tenantId).
    cbn [storage]. rewrite getXeroToken_stored, updateToken_lookup.
    unfold isXero. rewrite Hf.
    cbn [map expires_at access_token refresh_token tenant_id tenant_name].
    now rewrite Hid. }
  cbn [fst]. split; [|split].
  - intros Hlater. rewrite Hget.
    assert (Hnot : (storedExpiry <? later)%Z = false) by (apply Z.ltb_ge; lia).
    now rewrite Hnot.
  - intros Hlater. rewrite Hget.
    assert (Hyes : (storedExpiry <? later)%Z = true) by (apply Z.ltb_lt; lia).
    now rewrite Hyes.
  - intros Hgap. rewrite Hget.
    assert (Hyes : (storedExpiry <? updated + ts_expires_in newTokenSet * 1000)%Z = true)
      by (apply Z.ltb_lt; unfold storedExpiry; lia).
    now rewrite Hyes.
Qed.

Lemma refresh_then_get_witness :
  getXeroToken
    (withClock (storage (fst (refreshXeroToken RefreshDemo.world "t-soon"))) 2000000)
    "t-soon"
  = Some (mkTokenData "renewed" (Some "refresh-2") 800 "t-soon" "Soon Pty")
  /\ newExpiresAt (snd (refreshXeroToken RefreshDemo.world "t-soon")) = Some 2800210%Z
  /\ getXeroToken
       (withClock (storage (fst (refreshXeroToken RefreshDemo.world "t-soon"))) 2800210)
       "t-soon"
     = None.
Proof.
  destruct (refresh_then_get RefreshDemo.world "t-soon" 2000000) as (_ & H).
  destruct (H eq_refl) as (storedToken & newTokenSet & _ & _ & _).
  repeat split.
Defined.

(** ** The summary of the consolidation *)

Lemma fold_left_add_length {A : Type} (f : A -> nat) l n :
  fold_left (fun sum x => (sum + f x)%nat) l n
  = (n + list_sum (map f l))%nat.
Proof.
  revert n. induction l as [|x l IH]; intros n; cbn [fold_left map].
  - cbn. lia.
  - rewrite IH. unfold list_sum. cbn [fold_right]. lia.
Qed.

Lemma companyDataOf_counts conn e :
  totalAccounts (co_accountCounts (companyDataOf conn e))
  = sectionAccountsCount (companyDataOf conn e).
Proof.
  unfold companyDataOf, sectionAccountsCount, sectionAccounts.
  cbn [co_accountCounts totalAccounts co_sections sec_assets sec_liabilities
       sec_equity sec_revenue sec_expenses cs_accounts fold_left].
  rewrite !length_map. lia.
Qed.

Lemma filter_length_forallb {A : Type} (p : A -> bool) l :
  (List.length (filter p l) <= List.length l)%nat /\
  (forallb p l = true <-> List.length (filter p l) = List.length l).
Proof.
  induction l as [|x l [IH1 IH2]]; cbn [filter forallb List.length].
  - split; [lia|]. split; reflexivity.
  - destruct (p x); cbn [andb List.length].
    + split; [lia|]. rewrite IH2. lia.
    + split; [lia|]. split; [discriminate|lia].
Qed.

(** X11: in the summary of the consolidation, [totalCompanies] is the
    number of companies, [totalAccounts] is the number of accounts listed
    in the sections of all the companies, [balancedCompanies] is at most
    [totalCompanies], [allBalanced] holds exactly when the two are equal,
    and [consolidatedBalanced] is the check of the consolidated totals:
    their difference, rounded to binary64, is less than 0.01 in
    magnitude. *)
Theorem consolidation_summary env req :
  let r := consolidatedTrialBalanceHandler env req in
  let s := summary r in
  totalCompanies s = List.length (companies r) /\
  sum_totalAccounts s = list_sum (map sectionAccountsCount (companies r)) /\
  (balancedCompanies s <= totalCompanies s)%nat /\
  (allBalanced (dataQuality s) = true <-> balancedCompanies s = totalCompanies s) /\
  (consolidatedBalanced (dataQuality s) = true <->
   exists d c,
     totalDebits (con_totals (consolidated r)) = Fin d /\
     totalCredits (con_totals (consolidated r)) = Fin c /\
     Qabs (round53 (d - c)) < 1 # 100).
Proof.
  unfold consolidatedTrialBalanceHandler, consolidateEntities.
  cbn [summary totalCompanies sum_totalAccounts balancedCompanies dataQuality
       allBalanced consolidatedBalanced companies consolidated con_totals].
  set (st := fold_left _ _ _).
  assert (Hall : Forall (fun company =>
                           totalAccounts (co_accountCounts company)
                           = sectionAccountsCount company) (st_companies st)).
  { unfold st. rewrite processEntities_fold. cbn [st_companies app].
    apply Forall_forall. intros company Hin. apply in_map_iff in Hin.
    destruct Hin as (p & <- & _). apply companyDataOf_counts. }
  split; [reflexivity|]. split; [|split; [|split]].
  - rewrite fold_left_add_length. cbn [Nat.add]. f_equal.
    apply map_ext_in. intros company Hin.
    now apply (proj1 (Forall_forall _ _) Hall).
  - apply filter_length_forallb.
  - apply filter_length_forallb.
  - apply within_tolerance.
Qed.

(** X12: when no entity is connected, as when the query of the tokens
    fails, the consolidation still answers: with no company, totals of 0,
    and the three quality flags true. *)
Theorem consolidation_of_nothing env req :
  filter connected (getAllXeroConnections env) = [] ->
  let r := consolidatedTrialBalanceHandler env req in
  companies r = [] /\
  con_totals (consolidated r) = emptyTotals /\
  dataQuality (summary r) = mkDataQuality true true true.
Proof.
  intros H. unfold consolidatedTrialBalanceHandler. rewrite H.
  repeat split.
Qed.

Lemma consolidation_of_nothing_witness :
  dataQuality
    (summary
       (consolidatedTrialBalanceHandler
          (mkEnv (Throw "connection refused") 1000000 "2024-03-01T09:30:00.000Z"
             (fun _ => Return tt) Demo.balanceSheets Demo.profitAndLoss
             Demo.compareCodeUnits (fun _ _ => Throw "fetch failed"))
          (mkConsolidatedRequest None)))
  = mkDataQuality true true true.
Proof.
  eapply (consolidation_of_nothing
            (mkEnv (Throw "connection refused") 1000000 "2024-03-01T09:30:00.000Z"
               (fun _ => Return tt) Demo.balanceSheets Demo.profitAndLoss
               Demo.compareCodeUnits (fun _ _ => Throw "fetch failed"))).
  reflexivity.
Defined.

(** ** The consolidation over HTTP *)

Lemma fetchEntity_local base date conn :
  fetchEntity (withFetch base (localFetch base)) date conn
  = match trialBalanceHandler base
            (mkTrialBalanceRequest (conn_tenantId conn) (Some date)) with
    | TB200 body => Return (Some (jsonOfBody body))
    | _ => Return None
    end.
Proof.
  unfold fetchEntity, withFetch, localFetch. cbn [fetchTrialBalance].
  now destruct (trialBalanceHandler base _).
Qed.

(** X13: when the HTTP client reaches the trial-balance handler of the same
    server, the companies of the consolidation are the connected entities
    for which that handler answers 200, in order, each with the totals the
    handler returned, written as JSON. *)
Theorem consolidation_over_http base req :
  let w := withFetch base (localFetch base) in
  let date := reportDateOf base (cquery_date req) in
  let r := consolidatedTrialBalanceHandler w req in
  map co_tenantId (companies r)
  = map conn_tenantId
      (filter (fun conn => answers200 base (conn_tenantId conn) date)
         (filter connected (getAllXeroConnections base))) /\
  Forall (fun company =>
            exists body,
              trialBalanceHandler base
                (mkTrialBalanceRequest (co_tenantId company) (Some date)) = TB200 body /\
              co_totals company = jsonOfTotals (totals (body_trialBalance body)) /\
              co_balanceCheck company = jsonOfBalanceCheck (body_balanceCheck body))
    (companies r).
Proof.
  intros w date r. unfold r, consolidatedTrialBalanceHandler.
  change (getAllXeroConnections w) with (getAllXeroConnections base).
  change (match truthy (cquery_date req) with
          | Some d => d
          | None => today w
          end) with date.
  rewrite consolidateEntities_companies.
  set (conns := filter connected (getAllXeroConnections base)). clearbody conns.
  unfold fetched, answers200. split.
  - rewrite map_map.
    induction conns as [|conn conns IH]; [reflexivity|]. cbn [flat_map filter].
    rewrite map_app, IH. unfold w at 1. rewrite fetchEntity_local.
    destruct (trialBalanceHandler base _); reflexivity.
  - apply Forall_forall. intros company Hin. apply in_map_iff in Hin.
    destruct Hin as ([conn e] & <- & Hin). apply in_flat_map in Hin.
    destruct Hin as (conn' & _ & Hin). unfold w in Hin.
    rewrite fetchEntity_local in Hin.
    destruct (trialBalanceHandler base _) as [body| |] eqn:Hb; try contradiction.
    destruct Hin as [[= <- <-]|[]]. exists body. cbn. auto.
Qed.

(** ** More on the comparison of two periods *)

Lemma findByName_self accounts a :
  NoDup (map name accounts) -> In a accounts ->
  findByName (name a) accounts = Some a.
Proof.
  unfold findByName.
  induction accounts as [|x accounts IH]; intros Hnd Hin; [contradiction|].
  cbn [map] in Hnd. inversion Hnd as [|? ? Hx Hnd']; subst. cbn [find].
  destruct Hin as [->|Hin].
  - now rewrite String.eqb_refl.
  - destruct (String.eqb (name x) (name a)) eqn:E.
    + apply String.eqb_eq in E. exfalso. apply Hx. rewrite E. now apply in_map.
    + now apply IH.
Qed.

Lemma accountChanges_self accounts :
  NoDup (map name accounts) -> accountChangesOf accounts accounts = [].
Proof.
  intros Hnd. unfold accountChangesOf.
  assert (H1 : flat_map (existingChange accounts) accounts = []).
  { assert (G : forall l, (forall a, In a l -> In a accounts) ->
                          flat_map (existingChange accounts) l = []).
    { induction l as [|a l IH]; intros Hl; [reflexivity|]. cbn [flat_map].
      rewrite IH by (intros; apply Hl; now right).
      rewrite existingChange_spec, findByName_self by (auto; apply Hl; now left).
      destruct (Qlt_le_dec 1000 _) as [H|H]; [|reflexivity].
      exfalso.
      rewrite (round53_zero (jvalue (balance a) - jvalue (balance a))) in H by lra.
      vm_compute in H. discriminate. }
    apply G. auto. }
  assert (H2 : flat_map (newAccount accounts) accounts = []).
  { assert (G : forall l, (forall a, In a l -> In a accounts) ->
                          flat_map (newAccount accounts) l = []).
    { induction l as [|a l IH]; intros Hl; [reflexivity|]. cbn [flat_map].
      rewrite IH by (intros; apply Hl; now right).
      rewrite newAccount_spec, findByName_self by (auto; apply Hl; now left).
      reflexivity. }
    apply G. auto. }
  rewrite H1, H2. reflexivity.
Qed.

(** X14: comparing a date with itself gives no account change, as long as
    the asset, liability and equity accounts of the fetched trial balance
    have distinct names. *)
Theorem comparison_with_itself env req c day :
  comparePeriodsHandler env req = CP200 c ->
  truthy (query_fromDate req) = Some day ->
  reportDateOf env (query_toDate req) = day ->
  exists response f,
    fetchTrialBalance env (cp_tenantId req) day = Return response /\
    json response = Return (TrialBalanceJson f) /\
    (NoDup (map name (balanceSheetAccounts f)) ->
     accountChanges c = [] /\ significantChanges c = []).
Proof.
  intros H Hfrom Hto. apply comparePeriodsHandler_200 in H.
  destruct H as (tokenData & fromDate & fr & tr & f & t & _ & Hq & Hf & Ht & Hjf & Hjt & ->).
  cbn zeta in Ht. rewrite Hfrom in Hq. injection Hq as <-. rewrite Hto in Ht.
  rewrite Hf in Ht. injection Ht as <-. rewrite Hjf in Hjt. injection Hjt as <-.
  exists fr, f. split; [exact Hf|]. split; [exact Hjf|].
  intros Hnd. unfold comparisonOf. cbn [accountChanges significantChanges].
  rewrite (accountChanges_self _ Hnd). split; reflexivity.
Qed.

Lemma comparison_with_itself_witness :
  exists c,
    comparePeriodsHandler Demo.world
      (mkCompareRequest "t-alpha" (Some "2024-01-31") (Some "2024-01-31") None)
    = CP200 c /\
    accountChanges c = [].
Proof.
  eexists. split; [vm_compute; reflexivity|].
  destruct (comparison_with_itself Demo.world
              (mkCompareRequest "t-alpha" (Some "2024-01-31") (Some "2024-01-31") None)
              _ "2024-01-31" eq_refl eq_refl eq_refl)
    as (response & f & Hf & Hj & H).
  vm_compute in Hf. injection Hf as <-. vm_compute in Hj. injection Hj as <-.
  apply H. vm_compute.
  repeat constructor; cbn; intuition discriminate.
Defined.

Lemma filter_sorted_prefix {A : Type} (R : A -> A -> Prop) (p : A -> bool) l :
  (forall a b, R a b -> p b = true -> p a = true) ->
  StronglySorted R l ->
  filter p l = firstn (List.length (filter p l)) l.
Proof.
  intros Hmono. induction 1 as [|x l Hs IH Hx]; [reflexivity|]. cbn [filter].
  destruct (p x) eqn:Hp.
  - cbn [List.length firstn]. now rewrite <- IH.
  - assert (Hnone : filter p l = []).
    { clear IH Hs. induction l as [|y l IHl]; [reflexivity|]. cbn [filter].
      inversion Hx as [|? ? Hy Hl]; subst.
      destruct (p y) eqn:Hpy.
      - rewrite (Hmono x y Hy Hpy) in Hp. discriminate.
      - now apply IHl. }
    rewrite Hnone. reflexivity.
Qed.

(** X15: the significant changes of a comparison are the first entries of
    its account changes: the list is sorted by descending magnitude, so
    the entries above 100000 come first. *)
Theorem significant_changes_come_first env req c :
  comparePeriodsHandler env req = CP200 c ->
  significantChanges c
  = firstn (List.length (significantChanges c)) (accountChanges c).
Proof.
  intros H. apply comparePeriodsHandler_200 in H.
  destruct H as (tokenData & fromDate & fr & tr & f & t & _ & _ & _ & _ & _ & _ & ->).
  destruct (accountChanges_law (balanceSheetAccounts f) (balanceSheetAccounts t))
    as (_ & _ & _ & _ & Hsorted & Hsig).
  unfold comparisonOf. cbn [accountChanges significantChanges].
  rewrite Hsig.
  apply (filter_sorted_prefix (fun a b => magnitude b <= magnitude a)); [|exact Hsorted].
  intros a b Hab. unfold exceeds.
  destruct (Qlt_le_dec 100000 (magnitude b)); [|discriminate].
  destruct (Qlt_le_dec 100000 (magnitude a)); [reflexivity|lra].
Qed.

Lemma significant_changes_come_first_witness :
  exists c,
    comparePeriodsHandler Demo.world
      (mkCompareRequest "t-alpha" (Some "2024-01-31") None None) = CP200 c /\
    significantChanges c = firstn 2 (accountChanges c).
Proof.
  eexists. split; [vm_compute; reflexivity|].
  rewrite (significant_changes_come_first Demo.world
             (mkCompareRequest "t-alpha" (Some "2024-01-31") None None) _ eq_refl)
    at 1.
  reflexivity.
Defined.

(** ** The totals of a journal *)

Lemma gtb_fin_zero q : gtb (Fin q) zero = if Qlt_le_dec 0 q then true else false.
Proof. apply Qltb_dec. Qed.

Lemma ltb_fin_zero q : ltb (Fin q) zero = if Qlt_le_dec q 0 then true else false.
Proof. apply Qltb_dec. Qed.

Lemma journalDebits_from lines a :
  fold_left (fun sum line => add sum (amountOf line))
    (filter (fun line => gtb (amountOf line) zero) lines) (Fin a)
  = Fin (fold_left (fun s x => round53 (s + x))
           (positiveAmounts (map lineAmount lines)) a).
Proof.
  revert a. induction lines as [|line lines IH]; intros a;
    cbn [filter fold_left map positiveAmounts flat_map]; [reflexivity|].
  fold (positiveAmounts (map lineAmount lines)).
  destruct (lineAmount line) as [q|] eqn:E.
  - assert (Ha : amountOf line = Fin q) by (unfold amountOf; now rewrite E).
    rewrite Ha, gtb_fin_zero. destruct (Qlt_le_dec 0 q); cbn [app fold_left].
    + rewrite Ha. cbn [add]. apply IH.
    + apply IH.
  - assert (Ha : amountOf line = NaN) by (unfold amountOf; now rewrite E).
    rewrite Ha. cbn [gtb ltb zero app]. apply IH.
Qed.

Lemma journalCredits_from lines a :
  fold_left (fun sum line => add sum (abs (amountOf line)))
    (filter (fun line => ltb (amountOf line) zero) lines) (Fin a)
  = Fin (fold_left (fun s x => round53 (s + x))
           (negativeMagnitudes (map lineAmount lines)) a).
Proof.
  revert a. induction lines as [|line lines IH]; intros a;
    cbn [filter fold_left map negativeMagnitudes flat_map]; [reflexivity|].
  fold (negativeMagnitudes (map lineAmount lines)).
  destruct (lineAmount line) as [q|] eqn:E.
  - assert (Ha : amountOf line = Fin q) by (unfold amountOf; now rewrite E).
    rewrite Ha, ltb_fin_zero. destruct (Qlt_le_dec q 0); cbn [app fold_left].
    + rewrite Ha. cbn [add abs]. apply IH.
    + apply IH.
  - assert (Ha : amountOf line = NaN) by (unfold amountOf; now rewrite E).
    rewrite Ha. cbn [ltb zero app]. apply IH.
Qed.

(** A rounded sum of amounts that are not negative is a binary64 number
    that is not negative. *)
Lemma rounded_fold_nonneg l a :
  0 <= a -> representable a -> Forall (fun x => 0 <= x) l ->
  0 <= fold_left (fun s x => round53 (s + x)) l a /\
  representable (fold_left (fun s x => round53 (s + x)) l a).
Proof.
  intros Ha Hr Hl. revert a Ha Hr.
  induction Hl as [|x l Hx _ IH]; intros a Ha Hr; cbn [fold_left]; [now split|].
  apply IH; [|apply representable_round].
  apply (round53_ge 0 (a + x) representable_zero). lra.
Qed.

Lemma positiveAmounts_nonneg amounts : Forall (fun x => 0 <= x) (positiveAmounts amounts).
Proof.
  apply Forall_forall. intros x Hx. apply in_flat_map in Hx.
  destruct Hx as ([q|] & _ & Hx); [|contradiction].
  destruct (Qlt_le_dec 0 q); [|contradiction]. destruct Hx as [<-|[]]. lra.
Qed.

Lemma negativeMagnitudes_nonneg amounts :
  Forall (fun x => 0 <= x) (negativeMagnitudes amounts).
Proof.
  apply Forall_forall. intros x Hx. apply in_flat_map in Hx.
  destruct Hx as ([q|] & _ & Hx); [|contradiction].
  destruct (Qlt_le_dec q 0); [|contradiction]. destruct Hx as [<-|[]].
  apply Qabs_nonneg.
Qed.

(** The totals of a journal are the rounded sums of its positive amounts
    and of the magnitudes of its negative amounts: binary64 numbers that
    are not negative. *)
Lemma journal_totals lines :
  exists d c,
    journalDebits lines = Fin d /\ journalCredits lines = Fin c /\
    d = roundedSum (positiveAmounts (map lineAmount lines)) /\
    c = roundedSum (negativeMagnitudes (map lineAmount lines)) /\
    0 <= d /\ 0 <= c /\ representable d /\ representable c.
Proof.
  exists (roundedSum (positiveAmounts (map lineAmount lines))),
         (roundedSum (negativeMagnitudes (map lineAmount lines))).
  destruct (rounded_fold_nonneg (positiveAmounts (map lineAmount lines)) 0)
    as [D1 D2]; [lra|exact representable_zero|apply positiveAmounts_nonneg|].
  destruct (rounded_fold_nonneg (negativeMagnitudes (map lineAmount lines)) 0)
    as [C1 C2]; [lra|exact representable_zero|apply negativeMagnitudes_nonneg|].
  split; [apply journalDebits_from|]. split; [apply journalCredits_from|].
  repeat split; assumption.
Qed.

(** ** The journals listed by [/api/find-unbalanced] *)

Lemma findUnbalancedHandler_200 aenv req body :
  findUnbalancedHandler aenv req = FU200 body ->
  exists tokenData journalResponse,
    let minimumAmount :=
      orNumber (parseFloatParam (query_minimumAmount req)) (Fin 10000) in
    let dateRange :=
      match truthy (query_dateRange req) with
      | Some r => r
      | None => "1year"
      end in
    getXeroToken (base aenv) (ur_tenantId req) = Some tokenData /\
    getManualJournals aenv (ur_tenantId req) (sinceClause (startDateOf aenv dateRange))
      = Return journalResponse /\
    crit_minimumAmount (criteria body) = minimumAmount /\
    crit_dateRange (criteria body) = dateRange /\
    totalJournalsAnalyzed (ub_summary body)
      = List.length (journalsOf journalResponse) /\
    unbalancedFound (ub_summary body)
      = List.length (filter isUnbalanced (transactions body)) /\
    largeAmountFound (ub_summary body)
      = List.length (filter (fun t => largeAmount (flags t)) (transactions body)) /\
    criticalIssues (ub_summary body)
      = List.length (filter isCritical (transactions body)) /\
    transactions body
      = sortBy byImbalance
          (mapNotNull (analyzeUnbalanced minimumAmount) (journalsOf journalResponse)).
Proof.
  unfold findUnbalancedHandler, findUnbalancedTry.
  destruct (getXeroToken (base aenv) (ur_tenantId req)) as [tokenData|]; [|discriminate].
  destruct (setTokenSet (base aenv) tokenData) as [[]|]; cbn [bind]; [|discriminate].
  destruct (getManualJournals aenv _ _) as [journalResponse|] eqn:Hj; cbn [bind];
    [|discriminate].
  intros [= <-]. exists tokenData, journalResponse. cbn. repeat split.
Qed.

Lemma geb_fin_mono x y m : x <= y -> geb (Fin x) m = true -> geb (Fin y) m = true.
Proof.
  intros Hxy. unfold geb. destruct m as [q| | |]; cbn [ltb eqb orb];
    try discriminate; try reflexivity.
  rewrite !orb_true_iff, !Qltb_lt, !Qeq_bool_iff. lra.
Qed.

Lemma gtb_fin_mono x y m : x <= y -> gtb (Fin x) m = true -> gtb (Fin y) m = true.
Proof.
  intros Hxy. unfold gtb. destruct m as [q| | |]; cbn [ltb];
    try discriminate; try reflexivity.
  rewrite !Qltb_lt. lra.
Qed.

Lemma mathMax_fin d c :
  exists m, mathMax (Fin d) (Fin c) = Fin m /\ d <= m /\ c <= m /\
            (m == d \/ m == c) /\
            (0 <= d -> 0 <= c -> Qabs (d - c) <= m).
Proof.
  unfold mathMax. cbn [ltb]. rewrite Qltb_dec.
  destruct (Qlt_le_dec d c); eexists; (split; [reflexivity|]);
    (split; [lra|]); (split; [lra|]);
    (split; [(left; reflexivity) || (right; reflexivity)|]);
    intros; apply Qabs_Qle_condition; lra.
Qed.

(** The magnitude of the rounded difference of two totals does not exceed
    the larger total. *)
Lemma imbalance_bound lines :
  exists d c m,
    journalDebits lines = Fin d /\ journalCredits lines = Fin c /\
    mathMax (Fin d) (Fin c) = Fin m /\
    abs (sub (Fin d) (Fin c)) = Fin (Qabs (round53 (d - c))) /\
    Qabs (round53 (d - c)) <= m.
Proof.
  destruct (journal_totals lines) as (d & c & Hd & Hc & _ & _ & Hd0 & Hc0 & Rd & Rc).
  destruct (mathMax_fin d c) as (m & Hm & _ & _ & Hcase & Hx).
  exists d, c, m. repeat split; try assumption.
  rewrite round53_abs. apply round53_le; [|now apply Hx].
  destruct Hcase as [E|E].
  - apply (representable_comp d m); [lra|exact Rd].
  - apply (representable_comp c m); [lra|exact Rc].
Qed.

(** A journal whose imbalance reaches an amount has a total that reaches
    it. *)
Lemma imbalance_below_larger_total lines m :
  geb (abs (sub (journalDebits lines) (journalCredits lines))) m = true ->
  geb (mathMax (journalDebits lines) (journalCredits lines)) m = true.
Proof.
  destruct (imbalance_bound lines) as (d & c & x & -> & -> & -> & -> & Hx).
  now apply geb_fin_mono.
Qed.

Lemma imbalance_above_larger_total lines m :
  gtb (abs (sub (journalDebits lines) (journalCredits lines))) m = true ->
  gtb (mathMax (journalDebits lines) (journalCredits lines)) m = true.
Proof.
  destruct (imbalance_bound lines) as (d & c & x & -> & -> & -> & -> & Hx).
  now apply gtb_fin_mono.
Qed.

Lemma analyzeUnbalanced_listed m journal :
  match analyzeUnbalanced m journal with
  | Some _ => reachesMinimum m journal = true
  | None => reachesMinimum m journal = false
  end.
Proof.
  unfold analyzeUnbalanced, reachesMinimum.
  pose proof (imbalance_below_larger_total (linesOf journal) m) as H.
  destruct (geb (abs _) m); destruct (geb (mathMax _ _) m); cbn [negb andb];
    auto.
Qed.

Lemma mapNotNull_listed m journals :
  map ut_journalID (mapNotNull (analyzeUnbalanced m) journals)
  = map manualJournalID (filter (reachesMinimum m) journals).
Proof.
  unfold mapNotNull. induction journals as [|j journals IH]; [reflexivity|].
  cbn [flat_map filter]. rewrite map_app, IH.
  pose proof (analyzeUnbalanced_listed m j) as H.
  destruct (analyzeUnbalanced m j) as [t|] eqn:E; rewrite H; [|reflexivity].
  cbn [map app]. f_equal.
  unfold analyzeUnbalanced in E.
  destruct (negb _ && negb _); [discriminate|]. now injection E as <-.
Qed.

(** X16: a journal is listed by [/api/find-unbalanced] exactly when the
    larger of its total debits and total credits reaches the minimum
    amount: an imbalance that reaches it implies a total that does, so the
    test of the imbalance never lists a journal by itself.  The minimum
    amount is 10000 when the parameter is absent, 0 or not a number. *)
Theorem unbalanced_listing env req body :
  findUnbalancedHandler env req = FU200 body ->
  exists journalResponse,
    getManualJournals env (ur_tenantId req)
      (sinceClause (startDateOf env (crit_dateRange (criteria body))))
      = Return journalResponse /\
    Permutation (map ut_journalID (transactions body))
      (map manualJournalID
         (filter (reachesMinimum (crit_minimumAmount (criteria body)))
            (journalsOf journalResponse))) /\
    crit_minimumAmount (criteria body) <> NaN /\
    eqb (crit_minimumAmount (criteria body)) zero = false /\
    (eqb (parseFloatParam (query_minimumAmount req)) zero = true \/
     parseFloatParam (query_minimumAmount req) = NaN ->
     crit_minimumAmount (criteria body) = Fin 10000).
Proof.
  intros H. apply findUnbalancedHandler_200 in H.
  destruct H as (tokenData & journalResponse & _ & Hj & Hm & Hr & _ & _ & _ & _ & Ht).
  cbn zeta in *. exists journalResponse. rewrite Hr, Hm, Ht.
  split; [exact Hj|]. split; [|split; [|split]].
  - rewrite <- mapNotNull_listed. apply Permutation_map, Permutation_sym, sortBy_perm.
  - unfold orNumber. destruct (parseFloatParam _) as [q| | |]; try discriminate.
    destruct (Qeq_bool q 0); discriminate.
  - unfold orNumber. destruct (parseFloatParam _) as [q| | |]; try reflexivity.
    cbn [eqb zero]. now destruct (Qeq_bool q 0) eqn:E.
  - unfold orNumber. destruct (parseFloatParam _) as [q| | |]; cbn [eqb zero];
      intros [E|E]; try discriminate; try reflexivity.
    now rewrite E.
Qed.

Lemma unbalanced_listing_witness :
  exists body,
    findUnbalancedHandler AnalysisDemo.world
      (mkUnbalancedRequest "t-alpha" (Some "abc") None) = FU200 body /\
    map ut_journalID (transactions body)
      = [Some "j-fund"; Some "j-lopsided"; Some "j-sale"] /\
    crit_minimumAmount (criteria body) = Fin 10000.
Proof.
  eexists. split; [vm_compute; reflexivity|]. split; [vm_compute; reflexivity|].
  destruct (unbalanced_listing AnalysisDemo.world
              (mkUnbalancedRequest "t-alpha" (Some "abc") None) _ eq_refl)
    as (journalResponse & _ & _ & _ & _ & H).
  apply H. right. reflexivity.
Defined.

Lemma in_mapNotNull {A B : Type} (f : A -> option B) l y :
  In y (mapNotNull f l) <-> exists x, In x l /\ f x = Some y.
Proof.
  unfold mapNotNull. rewrite in_flat_map. split.
  - intros (x & Hin & Hy). exists x. split; [exact Hin|].
    destruct (f x); [|contradiction]. destruct Hy as [->|[]]. reflexivity.
  - intros (x & Hin & Hy). exists x. split; [exact Hin|]. rewrite Hy. now left.
Qed.

Lemma in_transactions aenv req body t :
  findUnbalancedHandler aenv req = FU200 body ->
  In t (transactions body) ->
  exists journal, analyzeUnbalanced (crit_minimumAmount (criteria body)) journal = Some t.
Proof.
  intros H Hin. apply findUnbalancedHandler_200 in H.
  destruct H as (tokenData & journalResponse & _ & _ & Hm & _ & _ & _ & _ & _ & Ht).
  cbn zeta in *. rewrite Ht in Hin. apply sortBy_In, in_mapNotNull in Hin.
  destruct Hin as (journal & _ & Hj). exists journal. now rewrite Hm.
Qed.

Lemma severity_critical x :
  match (if gtb x (Fin 1000000) then CRITICAL
         else if gtb x (Fin 100000) then HIGH else MEDIUM) with
  | CRITICAL => true
  | _ => false
  end = gtb x (Fin 1000000).
Proof.
  destruct (gtb x (Fin 1000000)); [reflexivity|].
  destruct (gtb x (Fin 100000)); reflexivity.
Qed.

Lemma Some_eq_inv {A : Type} (a b : A) : Some a = Some b -> a = b.
Proof. congruence. Qed.

Lemma analyzeUnbalanced_some m journal t :
  analyzeUnbalanced m journal = Some t ->
  exists d c,
    ut_totalDebits t = Fin d /\ ut_totalCredits t = Fin c /\
    d = roundedSum (positiveAmounts (map lv_lineAmount (ut_journalLines t))) /\
    c = roundedSum (negativeMagnitudes (map lv_lineAmount (ut_journalLines t))) /\
    0 <= d /\ 0 <= c /\ representable d /\ representable c /\
    imbalanceAmount t = Fin (round53 (d - c)) /\
    (isCritical t = true -> largeAmount (flags t) = true) /\
    (isCritical t = true <-> 1000000 < Qabs (round53 (d - c))).
Proof.
  unfold analyzeUnbalanced. destruct (negb _ && negb _); [discriminate|].
  intros Ht. apply Some_eq_inv in Ht. subst t.
  unfold isCritical.
  cbv beta iota zeta delta [ut_totalDebits ut_totalCredits imbalanceAmount
                            ut_journalLines flags largeAmount severity].
  rewrite severity_critical.
  pose proof (imbalance_above_larger_total (linesOf journal) (Fin 1000000)) as Hlarge.
  destruct (journal_totals (linesOf journal))
    as (d & c & Hd & Hc & Hdq & Hcq & Hd0 & Hc0 & Rd & Rc).
  rewrite Hd, Hc in *. exists d, c.
  rewrite map_map. cbn [lv_lineAmount].
  change (map (fun x => lineAmount x) (linesOf journal))
    with (map lineAmount (linesOf journal)).
  assert (Hiff : gtb (abs (sub (Fin d) (Fin c))) (Fin 1000000) = true
                 <-> 1000000 < Qabs (round53 (d - c))).
  { cbn [sub add neg abs gtb ltb]. apply Qltb_lt. }
  repeat split; try assumption; try reflexivity; apply Hiff.
Qed.

(** X17: every transaction listed by [/api/find-unbalanced] has total
    debits and total credits that are numbers and not negative: the sum of
    the positive line amounts and the sum of the magnitudes of the negative
    ones, accumulated in the order of the lines with every addition rounded
    to binary64 (a line without an amount counts for nothing); its
    [imbalanceAmount] is their rounded difference, which is positive
    exactly when the debits exceed the credits, 0 exactly when they are
    equal, and never larger in magnitude than the larger of the two. *)
Theorem imbalance_of_rounded_totals aenv req body :
  findUnbalancedHandler aenv req = FU200 body ->
  Forall (fun t =>
            exists d c,
              ut_totalDebits t = Fin d /\ ut_totalCredits t = Fin c /\
              d = roundedSum (positiveAmounts (map lv_lineAmount (ut_journalLines t))) /\
              c = roundedSum
                    (negativeMagnitudes (map lv_lineAmount (ut_journalLines t))) /\
              0 <= d /\ 0 <= c /\
              imbalanceAmount t = Fin (round53 (d - c)) /\
              (0 < round53 (d - c) <-> c < d) /\
              (round53 (d - c) == 0 <-> d == c) /\
              (Qabs (round53 (d - c)) <= d \/ Qabs (round53 (d - c)) <= c))
    (transactions body).
Proof.
  intros H. apply Forall_forall. intros t Hin.
  destruct (in_transactions _ _ _ _ H Hin) as (journal & Hj).
  destruct (analyzeUnbalanced_some _ _ _ Hj)
    as (d & c & H1 & H2 & H3 & H4 & H5 & H6 & Rd & Rc & H7 & _).
  exists d, c. repeat (split; [assumption|]).
  pose proof (round53_pos_iff (d - c)) as Hp.
  pose proof (round53_neg_iff (d - c)) as Hn.
  split; [|split].
  - split; intros G; [apply Hp in G|apply Hp]; lra.
  - split; intros G.
    + destruct (Q_dec d c) as [[L|L]|E]; [|exfalso|exact E].
      * assert (round53 (d - c) < 0) by (apply Hn; lra). lra.
      * assert (0 < round53 (d - c)) by (apply Hp; lra). lra.
    + rewrite (round53_zero (d - c)); lra.
  - destruct (Qlt_le_dec d c) as [L|L]; [right|left]; rewrite round53_abs;
      (apply round53_le; [assumption|]); apply Qabs_Qle_condition; lra.
Qed.

Lemma imbalance_of_rounded_totals_witness :
  exists body,
    findUnbalancedHandler AnalysisDemo.world
      (mkUnbalancedRequest "t-alpha" None None) = FU200 body /\
    map imbalanceAmount (transactions body) = [Fin 2500000; Fin 130000; Fin 0] /\
    Forall (fun t => exists d c,
                ut_totalDebits t = Fin d /\ ut_totalCredits t = Fin c /\
                imbalanceAmount t = Fin (round53 (d - c)))
      (transactions body).
Proof.
  eexists. split; [vm_compute; reflexivity|]. split; [vm_compute; reflexivity|].
  eapply Forall_impl;
    [|apply (imbalance_of_rounded_totals AnalysisDemo.world
               (mkUnbalancedRequest "t-alpha" None None) _ eq_refl)].
  intros t (d & c & H1 & H2 & _ & _ & _ & _ & H7 & _). exists d, c. auto.
Defined.

(** X18: the transactions listed by [/api/find-unbalanced] are sorted by
    descending magnitude of the imbalance. *)
Theorem unbalanced_sorted aenv req body :
  findUnbalancedHandler aenv req = FU200 body ->
  StronglySorted (fun a b => imbalanceMagnitude b <= imbalanceMagnitude a)
    (transactions body).
Proof.
  intros H. pose proof H as H0. apply findUnbalancedHandler_200 in H.
  destruct H as (tokenData & journalResponse & _ & _ & Hm & _ & _ & _ & _ & _ & Ht).
  cbn zeta in *. rewrite Ht.
  apply sortBy_sorted with (Good := fun t => exists q, imbalanceAmount t = Fin q).
  - intros x y z. lra.
  - intros x y [qx Hx] [qy Hy]. unfold byImbalance, imbalanceMagnitude.
    rewrite Hx, Hy. apply larger_magnitude_after.
  - intros x y [qx Hx] [qy Hy]. unfold byImbalance, imbalanceMagnitude.
    rewrite Hx, Hy. apply larger_magnitude_before.
  - apply Forall_forall. intros t Hin. apply in_mapNotNull in Hin.
    destruct Hin as (journal & _ & Hj).
    destruct (analyzeUnbalanced_some _ _ _ Hj)
      as (d & c & _ & _ & _ & _ & _ & _ & _ & _ & H5 & _).
    eauto.
Qed.

Lemma unbalanced_sorted_witness :
  exists body,
    findUnbalancedHandler AnalysisDemo.world
      (mkUnbalancedRequest "t-alpha" None None) = FU200 body /\
    StronglySorted (fun a b => imbalanceMagnitude b <= imbalanceMagnitude a)
      (transactions body).
Proof.
  eexists. split; [vm_compute; reflexivity|].
  apply (unbalanced_sorted AnalysisDemo.world
           (mkUnbalancedRequest "t-alpha" None None) _ eq_refl).
Defined.

Lemma filter_length_le {A : Type} (p q : A -> bool) l :
  (forall x, In x l -> p x = true -> q x = true) ->
  (List.length (filter p l) <= List.length (filter q l))%nat.
Proof.
  induction l as [|x l IH]; intros H; [reflexivity|]. cbn [filter].
  assert (IH' := IH (fun y Hy => H y (or_intror Hy))).
  pose proof (H x (or_introl eq_refl)) as Hx.
  destruct (p x); destruct (q x); cbn [List.length];
    first [lia | discriminate (Hx eq_refl)].
Qed.

Lemma filter_length_all {A : Type} (p : A -> bool) l :
  (List.length (filter p l) <= List.length l)%nat.
Proof. apply filter_length_forallb. Qed.

Lemma mapNotNull_length {A B : Type} (f : A -> option B) l :
  (List.length (mapNotNull f l) <= List.length l)%nat.
Proof.
  unfold mapNotNull. induction l as [|x l IH]; [reflexivity|].
  cbn [flat_map]. rewrite length_app.
  destruct (f x); cbn [List.length]; lia.
Qed.

(** X19: in the summary of [/api/find-unbalanced], a critical transaction
    (imbalance above 1000000) always carries the large-amount flag, so
    [criticalIssues] is at most [largeAmountFound]; both, and
    [unbalancedFound], are at most the number of transactions listed, which
    is at most [totalJournalsAnalyzed]. *)
Theorem unbalanced_summary aenv req body :
  findUnbalancedHandler aenv req = FU200 body ->
  Forall (fun t => isCritical t = true -> largeAmount (flags t) = true)
    (transactions body) /\
  (criticalIssues (ub_summary body) <= largeAmountFound (ub_summary body))%nat /\
  (largeAmountFound (ub_summary body) <= List.length (transactions body))%nat /\
  (unbalancedFound (ub_summary body) <= List.length (transactions body))%nat /\
  (List.length (transactions body) <= totalJournalsAnalyzed (ub_summary body))%nat.
Proof.
  intros H.
  assert (Hcrit : Forall (fun t => isCritical t = true -> largeAmount (flags t) = true)
                    (transactions body)).
  { apply Forall_forall. intros t Hin.
    destruct (in_transactions _ _ _ _ H Hin) as (journal & Hj).
    destruct (analyzeUnbalanced_some _ _ _ Hj)
      as (d & c & _ & _ & _ & _ & _ & _ & _ & _ & _ & H9 & _).
    exact H9. }
  apply findUnbalancedHandler_200 in H.
  destruct H as (tokenData & journalResponse & _ & _ & _ & _ & Hn & Hu & Hl & Hc & Ht).
  cbn zeta in *. rewrite Hn, Hu, Hl, Hc.
  split; [exact Hcrit|]. split; [|split; [|split]].
  - apply filter_length_le. intros t Hin. now apply (proj1 (Forall_forall _ _) Hcrit).
  - apply filter_length_all.
  - apply filter_length_all.
  - rewrite Ht, sortBy_length. apply mapNotNull_length.
Qed.

Lemma unbalanced_summary_witness :
  exists body,
    findUnbalancedHandler AnalysisDemo.world
      (mkUnbalancedRequest "t-alpha" None None) = FU200 body /\
    criticalIssues (ub_summary body) = 1%nat /\
    largeAmountFound (ub_summary body) = 1%nat /\
    totalJournalsAnalyzed (ub_summary body) = 5%nat.
Proof.
  eexists. split; [vm_compute; reflexivity|].
  destruct (unbalanced_summary AnalysisDemo.world
              (mkUnbalancedRequest "t-alpha" None None) _ eq_refl) as (_ & _).
  repeat split.
Defined.
